(** * rtNEAT controller (branches/factory/source/ai/rtneat/rtNEAT.cpp)

  A shallow embedding of [OpenNero::RTNEAT]: the binding table between
  bodies and brains, the per-tick fitness aggregation and the steady-state
  evolution step, followed by the properties of the controller.

  Conventions of the embedding.
  - Objects held through [boost::shared_ptr] live in explicit stores
    ([mBrains], [mOrganisms]); a pointer is a key of the store, so two
    containers holding the same pointer share the object.
  - [F32]/[F64] quantities (scores, fitness, compatibility threshold) are
    exact rationals: rounding, infinities and NaN are outside the model.
  - Member counters are unbounded naturals and [time_alive] an unbounded
    integer; the two [U32] locals of [evolveAll] carry their truncation.
  - [AssertMsg]/[Assert] come from core/Common.h: an assertion that is
    compiled in stops the call when it fails, one that is compiled out
    expands to nothing. A debug build compiles all of them in, a release
    build none.
  - Reading the front of an empty queue, dereferencing [end()] and [% 0] are
    undefined behaviour in C++; the embedding stops with [Undefined]. *)

From Stdlib Require Import QArith Qminmax ZArith NArith Lia Lqa.
From stdpp Require Import gmap strings list.

Local Open Scope string_scope.
Local Open Scope list_scope.

(** ** Data model *)

(** Identity of an [AIObjectPtr]; the order on [nat] stands for the order the
  left view of the bimap iterates in. *)
Definition Body := nat.
(** Identity of a [PyOrganismPtr]. *)
Definition BrainPtr := nat.
(** Identity of a non-null [NEAT::OrganismPtr]. *)
Definition OrgPtr := nat.

(** The fields of [NEAT::Organism] the controller reads and writes. *)
Record Organism := mkOrganism {
fitness : Q;
time_alive : Z;
smited : bool
}.

(** [PyOrganism]: the brain wrapping one organism at a time. *)
Record PyOrganism := mkPyOrganism {
mOrganism : OrgPtr;
mAbsoluteScore : Q
}.

(** [AgentBrain], of which only [GetBody()] is used. *)
Record AgentBrain := mkAgentBrain { GetBody : Body }.

Global Instance Organism_inhabited : Inhabited Organism :=
populate (mkOrganism 0 0 false).
Global Instance PyOrganism_inhabited : Inhabited PyOrganism :=
populate (mkPyOrganism 0%nat 0).

(** Constants of the anonymous namespace (lines 25-27). *)
Definition kNumSpeciesTarget : N := 5.
Definition kCompatMod : Q := 1 # 10.
Definition kMinCompatThreshold : Q := 3 # 10.

(** [FLT_MAX], the largest finite [F32]: (2^24 - 1) * 2^104. *)
Definition FLT_MAX : Q := inject_Z ((2 ^ 24 - 1) * 2 ^ 104).

(** Strict comparison of two rationals, as [<] on floating-point values. *)
Definition Qltb (x y : Q) : bool := negb (Qle_bool y x).

(** What the embedding records in [mLog]: one event per call into the genome
  engine, and one per entry into the speciation block of [evolveAll]
  (lines 349-369), with the value of [mOffspringCount] at that point. *)
Inductive Event :=
| EvRemoveWorst (removed : option OrgPtr)
| EvEstimateAverage
| EvChooseParentSpecies
| EvReproduceOne (generation : N)
| EvSpeciate (offspring_count num_species : N)
| EvReassignSpecies (org : OrgPtr).

Global Instance Event_eq_dec : EqDecision Event.
Proof. solve_decision. Defined.

(** ** The genome engine (rtneat/population.h), taken as a parameter

  [Genomes] is what the engine owns: its private [Population] state and the
  organisms behind every [OrganismPtr]. *)
Record GenomeEngine := mkGenomeEngine {
Population : Type;
Species : Type;
pop_species : Population -> list Species;
pop_organisms : Population -> list OrgPtr;
(* Population::remove_worst(), reading NEAT::time_alive_minimum *)
remove_worst : Z -> Population * gmap OrgPtr Organism ->
               option OrgPtr * (Population * gmap OrgPtr Organism);
(* Species::estimate_average() *)
estimate_average : Species -> Population * gmap OrgPtr Organism ->
                   Population * gmap OrgPtr Organism;
(* Population::choose_parent_species() *)
choose_parent_species : Population * gmap OrgPtr Organism ->
                        Species * (Population * gmap OrgPtr Organism);
(* Species::reproduce_one(generation, pop, sorted_species, 0, 0) *)
reproduce_one : Species -> N -> Population * gmap OrgPtr Organism ->
                OrgPtr * (Population * gmap OrgPtr Organism);
(* Population::reassign_species(org), reading NEAT::compat_threshold *)
reassign_species : Q -> OrgPtr -> Population * gmap OrgPtr Organism ->
                   Population * gmap OrgPtr Organism
}.

(** ** The bimap [BrainBodyMap]

    A [boost::bimap] with unique keys on both sides, kept as the list of its
    entries in the order of the left view (increasing bodies). *)
Module BrainBodyMap.

Definition t := list (Body * BrainPtr).

(** [left.find(body)]; [None] stands for [left.end()]. *)
Fixpoint left_find (body : Body) (m : t) : option BrainPtr :=
  match m with
  | [] => None
  | (b, br) :: m' => if Nat.eqb b body then Some br else left_find body m'
  end.

(** Is [brain] a key of the right view? *)
Fixpoint right_mem (brain : BrainPtr) (m : t) : bool :=
  match m with
  | [] => false
  | (_, br) :: m' => Nat.eqb br brain || right_mem brain m'
  end.

Fixpoint place (p : Body * BrainPtr) (m : t) : t :=
  match m with
  | [] => [p]
  | q :: m' => if Nat.ltb (fst p) (fst q) then p :: q :: m' else q :: place p m'
  end.

(** [insert(value_type(body, brain))]: refused when either key is taken. *)
Definition insert (p : Body * BrainPtr) (m : t) : t :=
  match left_find (fst p) m with
  | Some _ => m
  | None => if right_mem (snd p) m then m else place p m
  end.

(** [right.erase(brain)]. *)
Fixpoint right_erase (brain : BrainPtr) (m : t) : t :=
  match m with
  | [] => []
  | (b, br) :: m' =>
      if Nat.eqb br brain then right_erase brain m' else (b, br) :: right_erase brain m'
  end.

End BrainBodyMap.

Section Controller.

Context (GE : GenomeEngine).
(** Which assertions are compiled in, by message. *)
Context (armed : string -> bool).

Abbreviation Genomes := (Population GE * gmap OrgPtr Organism)%type.

(** ** State of one [RTNEAT] object, with the [NEAT::] globals it uses *)
Record RTNEAT := mkRTNEAT {
  mPopulation : Population GE;
  mOrganisms : gmap OrgPtr Organism;
  mBrains : gmap BrainPtr PyOrganism;
  mWaitingBrainList : list BrainPtr;
  mBrainList : list BrainPtr;
  mBrainBodyMap : BrainBodyMap.t;
  mOffspringCount : N;
  mSpawnTickCount : N;
  mEvolutionTickCount : N;
  mTotalUnitsDeleted : N;
  mUnitsToDeleteBeforeFirstJudgment : N;
  mTimeBetweenEvolutions : N;
  NEAT_time_alive_minimum : Z;
  NEAT_compat_threshold : Q;
  mLog : list Event
}.

Definition genomes (s : RTNEAT) : Genomes := (mPopulation s, mOrganisms s).

Definition set_genomes (g : Genomes) (s : RTNEAT) : RTNEAT :=
  mkRTNEAT (fst g) (snd g) (mBrains s) (mWaitingBrainList s) (mBrainList s)
    (mBrainBodyMap s) (mOffspringCount s) (mSpawnTickCount s)
    (mEvolutionTickCount s) (mTotalUnitsDeleted s)
    (mUnitsToDeleteBeforeFirstJudgment s) (mTimeBetweenEvolutions s)
    (NEAT_time_alive_minimum s) (NEAT_compat_threshold s) (mLog s).

Definition set_mOrganisms (h : gmap OrgPtr Organism) (s : RTNEAT) : RTNEAT :=
  set_genomes (mPopulation s, h) s.

Definition set_mBrains (h : gmap BrainPtr PyOrganism) (s : RTNEAT) : RTNEAT :=
  mkRTNEAT (mPopulation s) (mOrganisms s) h (mWaitingBrainList s) (mBrainList s)
    (mBrainBodyMap s) (mOffspringCount s) (mSpawnTickCount s)
    (mEvolutionTickCount s) (mTotalUnitsDeleted s)
    (mUnitsToDeleteBeforeFirstJudgment s) (mTimeBetweenEvolutions s)
    (NEAT_time_alive_minimum s) (NEAT_compat_threshold s) (mLog s).

Definition set_mWaitingBrainList (q : list BrainPtr) (s : RTNEAT) : RTNEAT :=
  mkRTNEAT (mPopulation s) (mOrganisms s) (mBrains s) q (mBrainList s)
    (mBrainBodyMap s) (mOffspringCount s) (mSpawnTickCount s)
    (mEvolutionTickCount s) (mTotalUnitsDeleted s)
    (mUnitsToDeleteBeforeFirstJudgment s) (mTimeBetweenEvolutions s)
    (NEAT_time_alive_minimum s) (NEAT_compat_threshold s) (mLog s).

Definition set_mBrainBodyMap (m : BrainBodyMap.t) (s : RTNEAT) : RTNEAT :=
  mkRTNEAT (mPopulation s) (mOrganisms s) (mBrains s) (mWaitingBrainList s)
    (mBrainList s) m (mOffspringCount s) (mSpawnTickCount s)
    (mEvolutionTickCount s) (mTotalUnitsDeleted s)
    (mUnitsToDeleteBeforeFirstJudgment s) (mTimeBetweenEvolutions s)
    (NEAT_time_alive_minimum s) (NEAT_compat_threshold s) (mLog s).

Definition set_mOffspringCount (n : N) (s : RTNEAT) : RTNEAT :=
  mkRTNEAT (mPopulation s) (mOrganisms s) (mBrains s) (mWaitingBrainList s)
    (mBrainList s) (mBrainBodyMap s) n (mSpawnTickCount s)
    (mEvolutionTickCount s) (mTotalUnitsDeleted s)
    (mUnitsToDeleteBeforeFirstJudgment s) (mTimeBetweenEvolutions s)
    (NEAT_time_alive_minimum s) (NEAT_compat_threshold s) (mLog s).

Definition set_mSpawnTickCount (n : N) (s : RTNEAT) : RTNEAT :=
  mkRTNEAT (mPopulation s) (mOrganisms s) (mBrains s) (mWaitingBrainList s)
    (mBrainList s) (mBrainBodyMap s) (mOffspringCount s) n
    (mEvolutionTickCount s) (mTotalUnitsDeleted s)
    (mUnitsToDeleteBeforeFirstJudgment s) (mTimeBetweenEvolutions s)
    (NEAT_time_alive_minimum s) (NEAT_compat_threshold s) (mLog s).

Definition set_mEvolutionTickCount (n : N) (s : RTNEAT) : RTNEAT :=
  mkRTNEAT (mPopulation s) (mOrganisms s) (mBrains s) (mWaitingBrainList s)
    (mBrainList s) (mBrainBodyMap s) (mOffspringCount s) (mSpawnTickCount s)
    n (mTotalUnitsDeleted s)
    (mUnitsToDeleteBeforeFirstJudgment s) (mTimeBetweenEvolutions s)
    (NEAT_time_alive_minimum s) (NEAT_compat_threshold s) (mLog s).

Definition set_mTotalUnitsDeleted (n : N) (s : RTNEAT) : RTNEAT :=
  mkRTNEAT (mPopulation s) (mOrganisms s) (mBrains s) (mWaitingBrainList s)
    (mBrainList s) (mBrainBodyMap s) (mOffspringCount s) (mSpawnTickCount s)
    (mEvolutionTickCount s) n
    (mUnitsToDeleteBeforeFirstJudgment s) (mTimeBetweenEvolutions s)
    (NEAT_time_alive_minimum s) (NEAT_compat_threshold s) (mLog s).

Definition set_compat_threshold (t : Q) (s : RTNEAT) : RTNEAT :=
  mkRTNEAT (mPopulation s) (mOrganisms s) (mBrains s) (mWaitingBrainList s)
    (mBrainList s) (mBrainBodyMap s) (mOffspringCount s) (mSpawnTickCount s)
    (mEvolutionTickCount s) (mTotalUnitsDeleted s)
    (mUnitsToDeleteBeforeFirstJudgment s) (mTimeBetweenEvolutions s)
    (NEAT_time_alive_minimum s) t (mLog s).

Definition set_mLog (l : list Event) (s : RTNEAT) : RTNEAT :=
  mkRTNEAT (mPopulation s) (mOrganisms s) (mBrains s) (mWaitingBrainList s)
    (mBrainList s) (mBrainBodyMap s) (mOffspringCount s) (mSpawnTickCount s)
    (mEvolutionTickCount s) (mTotalUnitsDeleted s)
    (mUnitsToDeleteBeforeFirstJudgment s) (mTimeBetweenEvolutions s)
    (NEAT_time_alive_minimum s) (NEAT_compat_threshold s) l.

(** ** Outcomes of a member call *)
Inductive outcome (A : Type) :=
| Ok (a : A) (s : RTNEAT)
| AssertFailed (msg : string)
| Undefined (what : string).
Global Arguments Ok {A} a s.
Global Arguments AssertFailed {A} msg.
Global Arguments Undefined {A} what.

Definition M (A : Type) : Type := RTNEAT -> outcome A.

Definition ret {A} (a : A) : M A := fun s => Ok a s.

Definition bind {A B} (c : M A) (k : A -> M B) : M B :=
  fun s =>
    match c s with
    | Ok a s' => k a s'
    | AssertFailed msg => AssertFailed msg
    | Undefined what => Undefined what
    end.

Definition get : M RTNEAT := fun s => Ok s s.
Definition modify (f : RTNEAT -> RTNEAT) : M unit := fun s => Ok tt (f s).
Definition undefined {A} (what : string) : M A := fun _ => Undefined what.
Definition emit (e : Event) : M unit := modify (fun s => set_mLog (mLog s ++ [e]) s).

(** [AssertMsg(cond, msg)] and [Assert(cond)]. *)
Definition AssertMsg (cond : bool) (msg : string) : M unit :=
  fun s => if armed msg then (if cond then Ok tt s else AssertFailed msg) else Ok tt s.

(** A [for] loop over a snapshot of a container. *)
Fixpoint for_each {A} (l : list A) (body : A -> M unit) : M unit :=
  match l with
  | [] => ret tt
  | x :: l' => bind (body x) (fun _ => for_each l' body)
  end.


Local Instance M_ret : MRet M := @ret.
Local Instance M_bind : MBind M := fun A B k c => bind c k.

(** Calling into the genome engine. *)
Definition call_engine {A} (f : Genomes -> A * Genomes) : M A :=
  fun s => let r := f (genomes s) in Ok (fst r) (set_genomes (snd r) s).

(** ** Binding table *)

(** [RTNEAT::ready] (lines 94-97). *)
Definition ready (s : RTNEAT) : bool :=
  negb (match mWaitingBrainList s with [] => true | _ :: _ => false end).

(** [RTNEAT::have_organism] (lines 100-105). *)
Definition have_organism (agent : AgentBrain) (s : RTNEAT) : bool :=
  match BrainBodyMap.left_find (GetBody agent) (mBrainBodyMap s) with
  | Some _ => true
  | None => false
  end.

(** [RTNEAT::get_organism] (lines 108-124). *)
Definition get_organism (agent : AgentBrain) : M BrainPtr :=
  s ← get;
  match BrainBodyMap.left_find (GetBody agent) (mBrainBodyMap s) with
  | Some brain => mret brain
  | None =>
      match mWaitingBrainList s with
      | [] => undefined "mWaitingBrainList.front() on an empty queue"
      | brain :: rest =>
          modify (set_mWaitingBrainList rest);;
          modify (fun s' => set_mBrainBodyMap
                    (BrainBodyMap.insert (GetBody agent, brain) (mBrainBodyMap s')) s');;
          mret brain
      end
  end.

(** [RTNEAT::release_organism] (lines 127-133). *)
Definition release_organism (agent : AgentBrain) : M unit :=
  s ← get;
  let found := BrainBodyMap.left_find (GetBody agent) (mBrainBodyMap s) in
  AssertMsg (match found with Some _ => true | None => false end)
            "found != mBrainBodyMap.left.end()";;
  match found with
  | Some brain => modify (fun s' => set_mWaitingBrainList (mWaitingBrainList s' ++ [brain]) s')
  | None => undefined "found->second with found == mBrainBodyMap.left.end()"
  end.

(** [RTNEAT::deleteUnit] (lines 154-164). *)
Definition deleteUnit (brain : BrainPtr) : M unit :=
  modify (fun s => set_mWaitingBrainList (mWaitingBrainList s ++ [brain]) s);;
  modify (fun s => set_mBrainBodyMap (BrainBodyMap.right_erase brain (mBrainBodyMap s)) s);;
  modify (fun s => set_mTotalUnitsDeleted (mTotalUnitsDeleted s + 1) s).


(** ** Fitness aggregation *)

(** [iter->GetOrganism()] on the brain behind [iter]. *)
Definition GetOrganism (s : RTNEAT) (iter : BrainPtr) : OrgPtr :=
  mOrganism (mBrains s !!! iter).

(** [GetOrganism()->time_alive >= NEAT::time_alive_minimum]. *)
Definition eligible (s : RTNEAT) (iter : BrainPtr) : bool :=
  (NEAT_time_alive_minimum s <=? time_alive (mOrganisms s !!! GetOrganism s iter))%Z.

Definition set_time_alive (org : OrgPtr) (t : Z) (s : RTNEAT) : RTNEAT :=
  let o := mOrganisms s !!! org in
  set_mOrganisms (<[org := mkOrganism (fitness o) t (smited o)]> (mOrganisms s)) s.

Definition set_fitness (org : OrgPtr) (f : Q) (s : RTNEAT) : RTNEAT :=
  let o := mOrganisms s !!! org in
  set_mOrganisms (<[org := mkOrganism f (time_alive o) (smited o)]> (mOrganisms s)) s.

(** A loop carrying the locals it updates. *)
Fixpoint fold_each {A B} (l : list A) (acc : B) (body : A -> B -> M B) : M B :=
  match l with
  | [] => mret acc
  | x :: l' => acc' ← body x acc; fold_each l' acc' body
  end.

(** Body of the first loop (lines 212-220). *)
Definition evaluateAll_sample (iter : BrainPtr) : M unit :=
  s ← get;
  if eligible s iter then
    let org := GetOrganism s iter in
    let ta := time_alive (mOrganisms s !!! org) in
    (if (NEAT_time_alive_minimum s =? 0)%Z then
       undefined "time_alive % NEAT::time_alive_minimum with a zero divisor"
     else if (Z.rem ta (NEAT_time_alive_minimum s) =? 0)%Z && (0 <? ta)%Z then
       modify (set_time_alive org (ta + 1));;
       AssertMsg false "FIXME/TODO: start next trial to normalize by time_alive_minimum"
     else mret tt);;
    AssertMsg false "FIXME/TODO: add stats samples"
  else mret tt.

(** Body of the second loop (lines 231-238), on the locals
    [(minAbsoluteScore, maxAbsoluteScore)]. *)
Definition evaluateAll_minmax (iter : BrainPtr) (acc : Q * Q) : M (Q * Q) :=
  s ← get;
  if eligible s iter then
    AssertMsg false "FIXME/TODO: calculate mAbsoluteScore";;
    let score := mAbsoluteScore (mBrains s !!! iter) in
    let minAbsoluteScore := if Qltb score (fst acc) then score else fst acc in
    let maxAbsoluteScore := if Qltb (snd acc) score then score else snd acc in
    mret (minAbsoluteScore, maxAbsoluteScore)
  else mret acc.

(** Body of the loop of the [minAbsoluteScore < 0] branch (lines 243-257). *)
Definition evaluateAll_shift (minAbsoluteScore : Q) (iter : BrainPtr) : M unit :=
  s ← get;
  if eligible s iter then
    let modifiedFitness := (mAbsoluteScore (mBrains s !!! iter) - minAbsoluteScore)%Q in
    let modifiedFitness := (if Qltb modifiedFitness 0 then 0 else modifiedFitness)%Q in
    if negb (smited (mOrganisms s !!! GetOrganism s iter)) then
      modify (set_fitness (GetOrganism s iter) modifiedFitness)
    else
      modify (set_fitness (GetOrganism s iter) ((1 # 100) * modifiedFitness)%Q)
  else mret tt.

(** Body of the loop of the [else] branch (lines 263-271). *)
Definition evaluateAll_copy (iter : BrainPtr) : M unit :=
  s ← get;
  if eligible s iter then
    if negb (smited (mOrganisms s !!! GetOrganism s iter)) then
      modify (set_fitness (GetOrganism s iter) (mAbsoluteScore (mBrains s !!! iter)))
    else
      modify (set_fitness (GetOrganism s iter)
                ((1 # 100) * mAbsoluteScore (mBrains s !!! iter))%Q)
  else mret tt.

(** Lines 211-224: the statistics loop and the assertion that follows it. *)
Definition evaluateAll_stats : M unit :=
  s ← get;
  for_each (mBrainList s) evaluateAll_sample;;
  AssertMsg false "FIXME/TODO: mScoreHelper->doCalculations()".

(** Lines 226-273: the normalization. [champ] is declared and never
    assigned; [maxAbsoluteScore] is computed and never read. *)
Definition evaluateAll_normalize : M unit :=
  s ← get;
  acc ← fold_each (mBrainList s) (0, - FLT_MAX)%Q evaluateAll_minmax;
  let minAbsoluteScore := fst acc in
  if Qltb minAbsoluteScore 0%Q then
    for_each (mBrainList s) (evaluateAll_shift minAbsoluteScore)
  else
    for_each (mBrainList s) evaluateAll_copy.

(** [RTNEAT::evaluateAll] (lines 200-274). *)
Definition evaluateAll : M unit :=
  evaluateAll_stats;;
  evaluateAll_normalize.

(** ** Evolution *)

(** The threshold update of lines 355-361, for a target species count. *)
Definition adjust_compat_threshold (num_species_target num_species : N) (t : Q) : Q :=
  let compat_mod := (1 # 10)%Q in
  let t :=
    if (num_species <? num_species_target)%N then (t - compat_mod)%Q
    else if (num_species_target <? num_species)%N then (t + compat_mod)%Q
    else t in
  if Qltb t (3 # 10)%Q then (3 # 10)%Q else t.

(** Lines 282-285: [U32 compat_adjust_frequency = mBrainList.size()/10],
    raised to 1. *)
Definition compat_adjust_frequency (s : RTNEAT) : N :=
  let f := ((N.of_nat (length (mBrainList s)) / 10) mod 2 ^ 32)%N in
  if (f <? 1)%N then 1%N else f.

(** Body of the loop of lines 366-368. *)
Definition evolveAll_reassign (curorg : OrgPtr) : M unit :=
  s ← get;
  call_engine (fun g => (tt, reassign_species GE (NEAT_compat_threshold s) curorg g));;
  emit (EvReassignSpecies curorg).

(** Body of the loop of lines 295-324, without what only feeds the log. *)
Definition evolveAll_estimate (curspec : Species GE) : M unit :=
  call_engine (fun g => (tt, estimate_average GE curspec g));;
  emit EvEstimateAverage.

(** Lines 349-369: every [compat_adjust_frequency] reproductions, re-tune the
    threshold and reassign the whole population to species. *)
Definition evolveAll_speciate (num_species_target frequency : N) : M unit :=
  s ← get;
  if (mOffspringCount s mod frequency =? 0)%N then
    let num_species := (N.of_nat (length (pop_species GE (mPopulation s))) mod 2 ^ 32)%N in
    emit (EvSpeciate (mOffspringCount s) num_species);;
    modify (fun s' => set_compat_threshold
              (adjust_compat_threshold num_species_target num_species
                 (NEAT_compat_threshold s')) s');;
    s1 ← get;
    for_each (pop_organisms GE (mPopulation s1)) evolveAll_reassign
  else mret tt.

(** Lines 375-383: the first brain holding the removed organism is given the
    new one and returned to the waiting queue. *)
Fixpoint evolveAll_hot_swap (l : list BrainPtr) (deadorg new_org : OrgPtr) : M unit :=
  match l with
  | [] => mret tt
  | iter :: l' =>
      s ← get;
      if Nat.eqb (GetOrganism s iter) deadorg then
        modify (fun s' => set_mBrains
                  (<[iter := mkPyOrganism new_org (mAbsoluteScore (mBrains s' !!! iter))]>
                     (mBrains s')) s');;
        AssertMsg false ("FIXME/TODO: (" ++ "*iter)->m_Stats.resetAll();");;
        deleteUnit iter
      else evolveAll_hot_swap l' deadorg new_org
  end.

(** [RTNEAT::evolveAll] (lines 276-385). The per-species score average of
    lines 298-323 and the search of lines 327-332 only feed [LOG_F_DEBUG]
    and write nothing; they are left out. *)
Definition evolveAll : M unit :=
  s ← get;
  deadorg ← call_engine (remove_worst GE (NEAT_time_alive_minimum s));
  emit (EvRemoveWorst deadorg);;
  let num_species_target := 4%N in
  s0 ← get;
  let frequency := compat_adjust_frequency s0 in
  match deadorg with
  | Some deadorg =>
      for_each (pop_species GE (mPopulation s0)) evolveAll_estimate;;
      parent ← call_engine (choose_parent_species GE);
      emit EvChooseParentSpecies;;
      s1 ← get;
      new_org ← call_engine (reproduce_one GE parent (mOffspringCount s1));
      emit (EvReproduceOne (mOffspringCount s1));;
      modify (fun s' => set_mOffspringCount (mOffspringCount s' + 1) s');;
      evolveAll_speciate num_species_target frequency;;
      s2 ← get;
      evolveAll_hot_swap (mBrainList s2) deadorg new_org
  | None => mret tt
  end.

(** ** Tick *)

(** Body of the loop of lines 177-186. *)
Definition ProcessTick_detach (Find : Body -> bool) (entry : Body * BrainPtr) : M unit :=
  if negb (Find (fst entry)) then deleteUnit (snd entry) else mret tt.

(** [RTNEAT::ProcessTick] (lines 166-198). [Find body] tells whether the
    simulation still holds the entity of [body]. *)
Definition ProcessTick (incAmt : Q) (Find : Body -> bool) : M unit :=
  modify (fun s => set_mSpawnTickCount (mSpawnTickCount s + 1) s);;
  modify (fun s => set_mEvolutionTickCount (mEvolutionTickCount s + 1) s);;
  s ← get;
  for_each (mBrainBodyMap s) (ProcessTick_detach Find);;
  evaluateAll;;
  s1 ← get;
  if (mUnitsToDeleteBeforeFirstJudgment s1 <=? mTotalUnitsDeleted s1)%N
     && (mTimeBetweenEvolutions s1 <=? mEvolutionTickCount s1)%N
  then
    evolveAll;;
    modify (set_mEvolutionTickCount 0)
  else mret tt.

(** [n] evolution cycles in a row. *)
Fixpoint evolve_cycles (n : nat) : M unit :=
  match n with
  | O => mret tt
  | S n' => evolveAll;; evolve_cycles n'
  end.

(** A run of ticks, one [Find] oracle per tick. *)
Fixpoint run_ticks (finds : list (Body -> bool)) : M unit :=
  match finds with
  | [] => mret tt
  | Find :: finds' => ProcessTick 0 Find;; run_ticks finds'
  end.


(** ** Construction *)

(** Body of the constructors' loop (lines 53-57, 80-84): a new brain for
    the [i]-th organism, pushed on the waiting queue. *)
Definition RTNEAT_construct_brain (organisms : list OrgPtr) (score : Q) (i : nat) : M unit :=
  modify (fun s => set_mBrains
            (<[i := mkPyOrganism (nth i organisms 0%nat) score]> (mBrains s)) s);;
  modify (fun s => set_mWaitingBrainList (mWaitingBrainList s ++ [i]) s).

(** Both constructors (lines 40-58 and 66-85) after the engine has built the
    population [g]: one brain per organism, all waiting. Members that the
    initialiser list does not name, and the threshold loaded from the
    parameter file, keep the value of the state the constructor starts on;
    [score] is the score a new [PyOrganism] starts with. *)
Definition RTNEAT_construct (g : Genomes) (population_size : N) (score : Q) : M unit :=
  let organisms := pop_organisms GE (fst g) in
  modify (fun s =>
    mkRTNEAT (fst g) (snd g) ∅ [] [] [] 0
      (mSpawnTickCount s) (mEvolutionTickCount s) (mTotalUnitsDeleted s)
      (mUnitsToDeleteBeforeFirstJudgment s) (mTimeBetweenEvolutions s)
      1 (NEAT_compat_threshold s) (mLog s));;
  modify (set_mOffspringCount (N.of_nat (length organisms)));;
  AssertMsg (N.of_nat (length organisms) =? population_size)%N
            "population has the wrong number of organisms";;
  for_each (seq 0 (length organisms)) (RTNEAT_construct_brain organisms score).

End Controller.

Arguments mPopulation {GE} _.
Arguments mOrganisms {GE} _.
Arguments mBrains {GE} _.
Arguments mWaitingBrainList {GE} _.
Arguments mBrainList {GE} _.
Arguments mBrainBodyMap {GE} _.
Arguments mOffspringCount {GE} _.
Arguments mSpawnTickCount {GE} _.
Arguments mEvolutionTickCount {GE} _.
Arguments mTotalUnitsDeleted {GE} _.
Arguments mUnitsToDeleteBeforeFirstJudgment {GE} _.
Arguments mTimeBetweenEvolutions {GE} _.
Arguments NEAT_time_alive_minimum {GE} _.
Arguments NEAT_compat_threshold {GE} _.
Arguments mLog {GE} _.
Arguments genomes {GE} _.
Arguments ready {GE} _.
Arguments GetOrganism {GE} _.
Arguments eligible {GE} _.
Arguments compat_adjust_frequency {GE} _.
Arguments have_organism {GE} _ _.
Arguments set_genomes {GE} _ _.
Arguments set_mOrganisms {GE} _ _.
Arguments set_mBrains {GE} _ _.
Arguments set_mWaitingBrainList {GE} _ _.
Arguments set_mBrainBodyMap {GE} _ _.
Arguments set_mOffspringCount {GE} _ _.
Arguments set_mSpawnTickCount {GE} _ _.
Arguments set_mEvolutionTickCount {GE} _ _.
Arguments set_mTotalUnitsDeleted {GE} _ _.
Arguments set_compat_threshold {GE} _ _.
Arguments set_mLog {GE} _ _.
Arguments set_time_alive {GE} _ _ _.
Arguments set_fitness {GE} _ _ _.
Arguments Ok {GE A} a s.
Arguments AssertFailed {GE A} msg.
Arguments Undefined {GE A} what.

(** The two builds: [NERO_DEBUG] arms every assertion, a release build none. *)
Definition debug_build : string -> bool := fun _ => true.
Definition release_build : string -> bool := fun _ => false.

(** Did the call return? *)
Definition returned {GE A} (o : outcome GE A) : bool :=
  match o with
  | Ok _ _ => true
  | _ => false
  end.

(** ** A small genome engine to run the controller on *)
Module ToyEngine.

(** Modelled from the spec: the Genome Engine's population
    (rtneat/population.h is not among the sources), reduced to the
    organisms in creation order and a number of species. *)
Record population := mkPopulation {
  organisms : list OrgPtr;
  num_species : nat
}.

(** Modelled from the spec: the engine's eligibility for removal,
    [time_alive >= timeAliveMinimum]. *)
Definition is_eligible (tam : Z) (h : gmap OrgPtr Organism) (o : OrgPtr) : bool :=
  (tam <=? time_alive (h !!! o))%Z.

(** Modelled from the spec: the worst-performing organism of [l], the
    first of least fitness. *)
Fixpoint worst (h : gmap OrgPtr Organism) (l : list OrgPtr) : option OrgPtr :=
  match l with
  | [] => None
  | o :: l' =>
      match worst h l' with
      | Some w => if Qle_bool (fitness (h !!! o)) (fitness (h !!! w)) then Some o else Some w
      | None => Some o
      end
  end.

(** Modelled from the spec: remove-worst-eligible-organism; null when no
    organism is eligible. *)
Definition remove_worst (tam : Z) (g : population * gmap OrgPtr Organism)
  : option OrgPtr * (population * gmap OrgPtr Organism) :=
  match worst (snd g) (filter (fun o => is_eligible tam (snd g) o = true) (organisms (fst g))) with
  | Some w =>
      (Some w, (mkPopulation (filter (fun o => o ≠ w) (organisms (fst g)))
                             (num_species (fst g)), snd g))
  | None => (None, g)
  end.

(** Modelled from the spec: reproduce-one-offspring; the offspring counter
    is the unique id of the new organism, which starts unevaluated. *)
Definition reproduce_one (parent : nat) (generation : N)
  (g : population * gmap OrgPtr Organism) : OrgPtr * (population * gmap OrgPtr Organism) :=
  let child := N.to_nat generation in
  (child, (mkPopulation (organisms (fst g) ++ [child]) (num_species (fst g)),
           <[child := mkOrganism 0 0 false]> (snd g))).

(** Modelled from the spec: the Genome Engine as a whole. Estimating a
    species' average and reassigning an organism change nothing here, and
    the parent species is always species 0. *)
Definition engine : GenomeEngine :=
  mkGenomeEngine population nat
    (fun p => seq 0 (num_species p))
    organisms
    remove_worst
    (fun _ g => g)
    (fun g => (0%nat, g))
    reproduce_one
    (fun _ _ g => g).

End ToyEngine.

(** ** Quantities the properties are stated with *)

Section Observations.

Context {GE : GenomeEngine}.

(** Bindings whose body the simulation no longer holds at this tick. *)
Definition dead_entries (Find : Body -> bool) (s : RTNEAT GE) : list (Body * BrainPtr) :=
  filter (fun entry => negb (Find (fst entry)) = true) (mBrainBodyMap s).

(** The activation predicate of line 193 as the tick will see it: deletions
    counted so far plus this tick's deaths, and the tick counter after its
    increment. *)
Definition judgment_due (Find : Body -> bool) (s : RTNEAT GE) : bool :=
  (mUnitsToDeleteBeforeFirstJudgment s <=?
     mTotalUnitsDeleted s + N.of_nat (length (dead_entries Find s)))%N
  && (mTimeBetweenEvolutions s <=? mEvolutionTickCount s + 1)%N.

(** Raw scores of the brains that take part in a pass. *)
Definition eligible_scores (s : RTNEAT GE) : list Q :=
  map (fun iter => mAbsoluteScore (mBrains s !!! iter))
      (filter (fun iter => eligible s iter = true) (mBrainList s)).

(** The specification's [minScore = min(0, min over eligible scores)]. *)
Definition minScore (s : RTNEAT GE) : Q :=
  foldr Qmin 0%Q (eligible_scores s).

(** The specification's fitness of an un-smited eligible brain. *)
Definition normalizedFitness (minScore absoluteScore : Q) : Q :=
  if Qltb minScore 0%Q then Qmax 0%Q (absoluteScore - minScore)%Q else absoluteScore.

(** The organism a brain of [s] wraps, as stored in [s']. *)
Definition organism_in (s s' : RTNEAT GE) (iter : BrainPtr) : Organism :=
  mOrganisms s' !!! GetOrganism s iter.

(** Every organism is wrapped by at most one brain of [mBrainList]. *)
Definition one_brain_per_organism (s : RTNEAT GE) : Prop :=
  NoDup (map (GetOrganism s) (mBrainList s)).

(** The locals [(minAbsoluteScore, maxAbsoluteScore)] after the second loop
    of [evaluateAll] has gone over [l], starting from [acc]. *)
Definition scan_scores (s : RTNEAT GE) (l : list BrainPtr) (acc : Q * Q) : Q * Q :=
  fold_left
    (fun acc iter =>
       if eligible s iter then
         let score := mAbsoluteScore (mBrains s !!! iter) in
         (if Qltb score (fst acc) then score else fst acc,
          if Qltb (snd acc) score then score else snd acc)
       else acc)
    l acc.

(** The value the third loop of [evaluateAll] stores in the organism of an
    eligible brain, for a given [minAbsoluteScore]. *)
Definition assigned_fitness (s : RTNEAT GE) (minAbsoluteScore : Q) (iter : BrainPtr) : Q :=
  let score := mAbsoluteScore (mBrains s !!! iter) in
  let smit := smited (mOrganisms s !!! GetOrganism s iter) in
  if Qltb minAbsoluteScore 0%Q then
    let modifiedFitness := (score - minAbsoluteScore)%Q in
    let modifiedFitness := (if Qltb modifiedFitness 0 then 0 else modifiedFitness)%Q in
    if negb smit then modifiedFitness else ((1 # 100) * modifiedFitness)%Q
  else
    if negb smit then score else ((1 # 100) * score)%Q.

(** One step of the third loop of [evaluateAll], in the branch that
    [minAbsoluteScore] selects. *)
Definition normalize_step (minAbsoluteScore : Q) : BrainPtr -> M GE unit :=
  if Qltb minAbsoluteScore 0%Q then evaluateAll_shift GE minAbsoluteScore
  else evaluateAll_copy GE.

(** The value of [minAbsoluteScore] a pass over [s] works with. *)
Definition pass_min (s : RTNEAT GE) : Q :=
  fst (scan_scores s (mBrainList s) (0, - FLT_MAX)%Q).

(** Organisms [h'] are those of [h] after some of the eligible ones have
    had [time_alive] incremented. *)
Definition aged (tam : Z) (h h' : gmap OrgPtr Organism) : Prop :=
  forall p : OrgPtr,
    fitness (h' !!! p) = fitness (h !!! p)
    /\ smited (h' !!! p) = smited (h !!! p)
    /\ (time_alive (h !!! p) <= time_alive (h' !!! p))%Z
    /\ ((time_alive (h !!! p) < tam)%Z -> h' !!! p = h !!! p).

(** Organisms [h'] differ from [h] in fitness only. *)
Definition rescored (h h' : gmap OrgPtr Organism) : Prop :=
  forall p : OrgPtr,
    time_alive (h' !!! p) = time_alive (h !!! p)
    /\ smited (h' !!! p) = smited (h !!! p).

(** What the engine holds after [estimate_average] has been called on the
    species of [l] in turn (lines 295-296). *)
Definition estimate_all (l : list (Species GE))
  (g : Population GE * gmap OrgPtr Organism) : Population GE * gmap OrgPtr Organism :=
  fold_left (fun g curspec => estimate_average GE curspec g) l g.

(** What the engine holds after [reassign_species] has been called on the
    organisms of [l] in turn, under the threshold [t] (lines 364-368). *)
Definition reassign_all (t : Q) (l : list OrgPtr)
  (g : Population GE * gmap OrgPtr Organism) : Population GE * gmap OrgPtr Organism :=
  fold_left (fun g curorg => reassign_species GE t curorg g) l g.

(** The call of line 279 in a cycle started on [s]: the organism removed, if
    any, and what the engine holds then. *)
Definition removal (s : RTNEAT GE)
  : option OrgPtr * (Population GE * gmap OrgPtr Organism) :=
  remove_worst GE (NEAT_time_alive_minimum s) (genomes s).

(** Lines 295-344 in a cycle that removed an organism: every species is
    estimated, a parent species is chosen and asked for one offspring, with
    [mOffspringCount] as its generation. The new organism, and what the
    engine holds then. *)
Definition offspring (s : RTNEAT GE) : OrgPtr * (Population GE * gmap OrgPtr Organism) :=
  let g1 := snd (removal s) in
  let chosen := choose_parent_species GE (estimate_all (pop_species GE (fst g1)) g1) in
  reproduce_one GE (fst chosen) (mOffspringCount s) (snd chosen).

(** [num_species] of line 351. *)
Definition species_count (s : RTNEAT GE) : N :=
  (N.of_nat (length (pop_species GE (fst (snd (offspring s))))) mod 2 ^ 32)%N.

(** [s'] is [s] after one evolution cycle, as far as the engine, the
    offspring counter and the compatibility threshold go. When no organism
    was removed the engine has seen [remove_worst] only. Otherwise one
    offspring was produced; the threshold was adjusted, and every organism
    of the population reassigned under the new threshold, exactly when the
    incremented counter is a multiple of the frequency. *)
Definition cycle_of (s s' : RTNEAT GE) : Prop :=
  match fst (removal s) with
  | None =>
      genomes s' = snd (removal s)
      /\ mOffspringCount s' = mOffspringCount s
      /\ NEAT_compat_threshold s' = NEAT_compat_threshold s
  | Some _ =>
      mOffspringCount s' = (mOffspringCount s + 1)%N
      /\ if ((mOffspringCount s + 1) mod compat_adjust_frequency s =? 0)%N
         then NEAT_compat_threshold s'
              = adjust_compat_threshold 4 (species_count s) (NEAT_compat_threshold s)
              /\ genomes s'
                 = reassign_all (NEAT_compat_threshold s')
                     (pop_organisms GE (fst (snd (offspring s)))) (snd (offspring s))
         else NEAT_compat_threshold s' = NEAT_compat_threshold s
              /\ genomes s' = snd (offspring s)
  end.

(** What one cycle started on [s] appends to the log: one event per call
    into the engine, in call order. *)
Definition cycle_events (s : RTNEAT GE) : list Event :=
  match fst (removal s) with
  | None => [EvRemoveWorst None]
  | Some deadorg =>
      EvRemoveWorst (Some deadorg)
      :: map (fun _ => EvEstimateAverage) (pop_species GE (fst (snd (removal s))))
      ++ [EvChooseParentSpecies; EvReproduceOne (mOffspringCount s)]
      ++ (if ((mOffspringCount s + 1) mod compat_adjust_frequency s =? 0)%N
          then EvSpeciate (mOffspringCount s + 1) (species_count s)
               :: map EvReassignSpecies (pop_organisms GE (fst (snd (offspring s))))
          else [])
  end.

End Observations.

(** Offspring-counter values passed to [reproduce_one], in log order. *)
Definition reproductions (log : list Event) : list N :=
  omap (fun e => match e with EvReproduceOne g => Some g | _ => None end) log.

(** Offspring-counter values at which the speciation block ran, in log order. *)
Definition speciation_counts (log : list Event) : list N :=
  omap (fun e => match e with EvSpeciate c _ => Some c | _ => None end) log.

(** The [k] successive counter values [c; c + 1; ...]. *)
Fixpoint counts_from (c : N) (k : nat) : list N :=
  match k with
  | O => []
  | S k' => c :: counts_from (c + 1) k'
  end.

(** ** Concrete controllers over the small engine *)
Module Examples.

Import ToyEngine.

(** Organisms and brains numbered from 0 in list order. *)
Definition organisms_of (l : list Organism) : gmap OrgPtr Organism :=
  list_to_map (imap (fun i o => (i, o)) l).

Definition brains_of (scores : list Q) : gmap BrainPtr PyOrganism :=
  list_to_map (imap (fun i score => (i, mkPyOrganism i score)) scores).

(** The members no constructor initialises, and the loaded threshold. *)
Definition blank (ticks deleted min_deleted min_ticks : N) (threshold : Q) : RTNEAT engine :=
  mkRTNEAT engine (mkPopulation [] 0) ∅ ∅ [] [] [] 0 0 ticks deleted
    min_deleted min_ticks 0 threshold [].

(** The state a call returned with, or [s] when it did not return. *)
Definition after {A} (s : RTNEAT engine) (o : outcome engine A) : RTNEAT engine :=
  match o with
  | Ok _ s' => s'
  | _ => s
  end.

(** A population of [n] organisms, all of age [age], in [k] species. *)
Definition population_of (n : nat) (age : Z) (k : nat)
  : population * gmap OrgPtr Organism :=
  (mkPopulation (seq 0 n) k, organisms_of (replicate n (mkOrganism 0 age false))).

(** A controller constructed over [g], in a debug build. *)
Definition constructed (g : population * gmap OrgPtr Organism)
  (from : RTNEAT engine) : RTNEAT engine :=
  after from (RTNEAT_construct engine debug_build g
                (N.of_nat (length (organisms (fst g)))) 0 from).

Definition agent1 : AgentBrain := mkAgentBrain 10.
Definition agent2 : AgentBrain := mkAgentBrain 11.

(** Two organisms; [agent1] has asked for its brain. *)
Definition bound_pair : RTNEAT engine :=
  let s := constructed (population_of 2 1 1) (blank 0 0 0 0 3) in
  after s (get_organism engine agent1 s).

(** One organism, whose brain [agent1] holds: nothing is waiting. *)
Definition exhausted : RTNEAT engine :=
  let s := constructed (population_of 1 1 1) (blank 0 0 0 0 3) in
  after s (get_organism engine agent1 s).

(** Five deletions seen, nine ticks since the last evolution, thresholds 5
    and 10, and a population too young to lose an organism. *)
Definition warming_up : RTNEAT engine :=
  constructed (population_of 2 0 1) (blank 9 5 5 10 3).

(** Ten eligible brains with the raw scores of the specification's
    scenario; the organism of brain 3 is smited. *)
Definition scenario : RTNEAT engine :=
  mkRTNEAT engine (mkPopulation (seq 0 10) 1)
    (<[3%nat := mkOrganism 0 3 true]> (organisms_of (replicate 10 (mkOrganism 0 3 false))))
    (brains_of [-5; -2; 0; 3; 8; 1; -1; 4; 2; -3]%Q)
    [] (seq 0 10) [] 10 0 0 0 5 10 1 3 [].

(** Two eligible brains with the same raw score 0, the second one smited. *)
Definition tie : RTNEAT engine :=
  mkRTNEAT engine (mkPopulation (seq 0 2) 1)
    (organisms_of [mkOrganism 0 2 false; mkOrganism 0 2 true])
    (brains_of [0; 0]%Q)
    [] (seq 0 2) [] 2 0 0 0 5 10 1 3 [].

(** Three eligible brains: raw scores 4, 4 and -1, the second one smited. *)
Definition twins : RTNEAT engine :=
  mkRTNEAT engine (mkPopulation (seq 0 3) 1)
    (organisms_of [mkOrganism 0 2 false; mkOrganism 0 2 true; mkOrganism 0 2 false])
    (brains_of [4; 4; -1]%Q)
    [] (seq 0 3) [] 3 0 0 0 5 10 1 3 [].

(** A controller about to speciate, with [k] species and threshold 1. *)
Definition speciating (k : nat) : RTNEAT engine :=
  constructed (population_of 3 1 k) (blank 0 0 0 0 1).

(** The specification's tick scenario: thresholds 5 and 10, four deletions
    seen and eleven ticks since the last evolution, [agent1] bound. *)
Definition four_deaths : RTNEAT engine :=
  let s := constructed (population_of 2 1 1) (blank 11 4 5 10 3) in
  after s (get_organism engine agent1 s).

(** 47 organisms, each with its brain in [mBrainList]; the offspring
    counter is where the constructor leaves it. *)
Definition forty_seven : RTNEAT engine :=
  mkRTNEAT engine (mkPopulation (seq 0 47) 3)
    (organisms_of (replicate 47 (mkOrganism 0 1 false)))
    (brains_of (replicate 47 0%Q))
    (seq 0 47) (seq 0 47) [] 47 0 0 0 5 10 1 3 [].

End Examples.

(** ** Further quantities *)

(** The binding table is consistent: no brain waits twice, no brain is
    bound to two bodies, and no waiting brain is bound. *)
Definition table_ok {GE : GenomeEngine} (s : RTNEAT GE) : Prop :=
  NoDup (mWaitingBrainList s)
  /\ NoDup (map snd (mBrainBodyMap s))
  /\ Forall (fun brain => BrainBodyMap.right_mem brain (mBrainBodyMap s) = false)
            (mWaitingBrainList s).

(** The first brain of [l] that wraps the organism [org]. *)
Definition first_wrapping {GE : GenomeEngine} (s : RTNEAT GE) (org : OrgPtr)
  (l : list BrainPtr) : option BrainPtr :=
  List.find (fun iter => Nat.eqb (GetOrganism s iter) org) l.

(** Does the first loop of [evaluateAll] increment the [time_alive] of the
    organism of [iter] (line 216)? *)
Definition ages {GE : GenomeEngine} (s : RTNEAT GE) (iter : BrainPtr) : bool :=
  let ta := time_alive (mOrganisms s !!! GetOrganism s iter) in
  eligible s iter
  && (Z.rem ta (NEAT_time_alive_minimum s) =? 0)%Z && (0 <? ta)%Z.

(** Results of the calls to [remove_worst], in log order. *)
Definition removals (log : list Event) : list (option OrgPtr) :=
  omap (fun e => match e with EvRemoveWorst r => Some r | _ => None end) log.

(** How many of the removals returned an organism. *)
Definition removed_count (l : list (option OrgPtr)) : nat :=
  length (filter (fun r => is_Some r) l).

(** ** [Stats] (lines 387-449)

    [Reward] and its operators come from headers that are not among the
    sources; the type and the operators used are parameters. *)
Module Stats.

Section WithReward.

Context {Reward : Type}.
(** [r / x], [r * x], [r + r'] and [r - r'] on rewards. *)
Context (div scale : Reward -> Q -> Reward) (add sub : Reward -> Reward -> Reward).

Record t := mk {
  m_NumLifetimeTrials : N;
  m_ZeroStats : Reward;
  m_Stats : Reward;
  m_LifetimeAverage : Reward
}.

(** [Stats::Stats] (lines 390-397); [zero] is [info.getInstance()]. *)
Definition construct (zero : Reward) : t := mk 0 zero zero zero.

Definition set_m_Stats (r : Reward) (st : t) : t :=
  mk (m_NumLifetimeTrials st) (m_ZeroStats st) r (m_LifetimeAverage st).

(** [Stats::resetAll] (lines 400-403): the body is empty. *)
Definition resetAll (st : t) : t := st.

(** [Stats::startNextTrial] (lines 406-417), for a value of the static
    [s_RunningAverageSampleSize]. *)
Definition startNextTrial (s_RunningAverageSampleSize : N) (st : t) : t :=
  let n := (m_NumLifetimeTrials st + 1)%N in
  let average :=
    if (n <=? s_RunningAverageSampleSize)%N then
      add (m_LifetimeAverage st) (div (m_Stats st) (inject_Z (Z.of_N n)))
    else
      add (m_LifetimeAverage st)
          (sub (div (m_Stats st) (inject_Z (Z.of_N s_RunningAverageSampleSize)))
               (div (m_LifetimeAverage st) (inject_Z (Z.of_N s_RunningAverageSampleSize))))
  in
  mk n (m_ZeroStats st) (m_ZeroStats st) average.

(** [Stats::predictStats] (lines 420-437) on 32-bit [int]s; [None] stands
    for the undefined [timeAlive % fullLife]: a zero [fullLife], or
    [INT_MIN % -1]. *)
Definition predictStats (timeAlive fullLife : Z) (st : t) : option t :=
  if (fullLife =? 0)%Z || ((timeAlive =? - 2 ^ 31)%Z && (fullLife =? -1)%Z) then None
  else
    let localTimeAlive := Z.rem timeAlive fullLife in
    if (localTimeAlive =? 0)%Z then Some st
    else if (fullLife <=? localTimeAlive)%Z then Some st
    else
      let predict := (inject_Z fullLife / inject_Z localTimeAlive)%Q in
      Some (set_m_Stats (scale (m_Stats st) predict) st).

(** [Stats::tally] (lines 440-443). *)
Definition tally (sample : Reward) (st : t) : t :=
  set_m_Stats (add (m_Stats st) sample) st.

(** [Stats::getStats] (lines 446-449). *)
Definition getStats (st : t) : Reward := m_Stats st.

End WithReward.

Arguments t Reward : clear implicits.

End Stats.

(** ** More concrete controllers *)
Module MoreExamples.

Import ToyEngine Examples.

(** Two organisms with their brains in [mBrainList]; [agent1] holds brain 0,
    whose organism is the worst, and brain 1 waits. *)
Definition judged : RTNEAT engine :=
  mkRTNEAT engine (mkPopulation (seq 0 2) 1)
    (organisms_of [mkOrganism 0 2 false; mkOrganism 5 2 false])
    (brains_of [7; 9]%Q)
    [1%nat] (seq 0 2) [(10%nat, 0%nat)] 2 0 0 0 5 10 1 3 [].

(** The same with no brain waiting: [agent2] holds brain 1. *)
Definition judged_alone : RTNEAT engine :=
  mkRTNEAT engine (mkPopulation (seq 0 2) 1)
    (organisms_of [mkOrganism 0 2 false; mkOrganism 5 2 false])
    (brains_of [7; 9]%Q)
    [] (seq 0 2) [(10%nat, 0%nat); (11%nat, 1%nat)] 2 0 0 0 5 10 1 3 [].

(** Ages 0, 1, 2 and 4 with a minimum of 2: only ages 2 and 4 are due. *)
Definition mixed_ages : RTNEAT engine :=
  mkRTNEAT engine (mkPopulation (seq 0 4) 1)
    (organisms_of [mkOrganism 0 0 false; mkOrganism 0 1 false;
                   mkOrganism 0 2 false; mkOrganism 0 4 true])
    (brains_of [1; -2; 3; -4]%Q)
    [] (seq 0 4) [] 4 0 0 0 5 10 2 3 [].

(** A scalar statistics block: three trials done, 6 accumulated so far. *)
Definition scalar_stats : Stats.t Q := Stats.mk 3 0%Q 6%Q 4%Q.

End MoreExamples.

(** * Properties *)

Lemma AssertMsg_release {GE : GenomeEngine} (cond : bool) (msg : string) (s : RTNEAT GE) :
  AssertMsg GE release_build cond msg s = Ok tt s.
Proof. reflexivity. Qed.

Lemma AssertMsg_debug_false {GE : GenomeEngine} (msg : string) (s : RTNEAT GE) :
  AssertMsg GE debug_build false msg s = AssertFailed msg.
Proof. reflexivity. Qed.

(** Running a call: the monad is unfolded and the assertions of the two
    builds are decided. *)
Ltac unfold_monad :=
  unfold mbind, M_bind, bind, mret, M_ret, ret, emit, modify, get, undefined,
    call_engine in *;
  cbn beta iota in *;
  rewrite ?AssertMsg_release, ?AssertMsg_debug_false;
  cbn beta iota.

Lemma Qltb_lt (x y : Q) : Qltb x y = true <-> (x < y)%Q.
Proof.
  unfold Qltb. rewrite negb_true_iff. split.
  - intros H. apply Qnot_le_lt. intros Hle. apply Qle_bool_iff in Hle. congruence.
  - intros H. destruct (Qle_bool y x) eqn:E; [|reflexivity].
    apply Qle_bool_iff in E. exfalso. exact (Qlt_not_le _ _ H E).
Qed.

Lemma Qltb_ge (x y : Q) : Qltb x y = false <-> (y <= x)%Q.
Proof.
  unfold Qltb. rewrite negb_false_iff. apply Qle_bool_iff.
Qed.

Lemma Qltb_compat (x x' y y' : Q) : (x == x')%Q -> (y == y')%Q -> Qltb x y = Qltb x' y'.
Proof.
  intros Hx Hy. destruct (Qltb x' y') eqn:E.
  - apply Qltb_lt. apply Qltb_lt in E. rewrite Hx, Hy. exact E.
  - apply Qltb_ge. apply Qltb_ge in E. rewrite Hx, Hy. exact E.
Qed.

Lemma foldr_Qmin_wd (a a' : Q) (L : list Q) :
  (a == a')%Q -> (foldr Qmin a L == foldr Qmin a' L)%Q.
Proof.
  intros Ha. induction L as [|x L IH]; [exact Ha|].
  cbn [foldr]. rewrite IH. reflexivity.
Qed.

Lemma foldr_Qmin_init (x a : Q) (L : list Q) :
  (foldr Qmin (Qmin x a) L == Qmin x (foldr Qmin a L))%Q.
Proof.
  induction L as [|y L IH]; [reflexivity|].
  cbn [foldr]. rewrite IH.
  rewrite !Q.min_assoc. rewrite (Q.min_comm y x). reflexivity.
Qed.

Lemma foldr_Qmin_le_init (a : Q) (L : list Q) : (foldr Qmin a L <= a)%Q.
Proof.
  induction L as [|y L IH]; [apply Qle_refl|].
  cbn [foldr]. eapply Qle_trans; [apply Q.le_min_r | exact IH].
Qed.

Lemma foldr_Qmin_le_elem (a x : Q) (L : list Q) :
  In x L -> (foldr Qmin a L <= x)%Q.
Proof.
  induction L as [|y L IH]; [contradiction|].
  intros [->|Hin]; cbn [foldr].
  - apply Q.le_min_l.
  - eapply Qle_trans; [apply Q.le_min_r | apply IH, Hin].
Qed.

Lemma Qltb_pick_min (x a : Q) : ((if Qltb x a then x else a) == Qmin x a)%Q.
Proof.
  destruct (Qltb x a) eqn:E.
  - apply Qltb_lt in E. symmetry. apply Q.min_l. apply Qlt_le_weak, E.
  - apply Qltb_ge in E. symmetry. apply Q.min_r. exact E.
Qed.

Lemma clamp_is_Qmax (d : Q) : ((if Qltb d 0 then 0 else d) == Qmax 0 d)%Q.
Proof.
  destruct (Qltb d 0) eqn:E.
  - apply Qltb_lt in E. symmetry. apply Q.max_l. apply Qlt_le_weak, E.
  - apply Qltb_ge in E. symmetry. apply Q.max_r. exact E.
Qed.

Lemma clamp_nonneg (d : Q) : (0 <= (if Qltb d 0 then 0 else d))%Q.
Proof.
  destruct (Qltb d 0) eqn:E; [apply Qle_refl | apply Qltb_ge, E].
Qed.

(** Reading a field through the setters. *)
Ltac fields :=
  cbn [mPopulation mOrganisms mBrains mWaitingBrainList mBrainList mBrainBodyMap
       mOffspringCount mSpawnTickCount mEvolutionTickCount mTotalUnitsDeleted
       mUnitsToDeleteBeforeFirstJudgment mTimeBetweenEvolutions
       NEAT_time_alive_minimum NEAT_compat_threshold mLog genomes fst snd
       set_genomes set_mOrganisms set_mBrains set_mWaitingBrainList set_mBrainBodyMap
       set_mOffspringCount set_mSpawnTickCount set_mEvolutionTickCount
       set_mTotalUnitsDeleted set_compat_threshold set_mLog] in *.

Section Properties.
Context (GE : GenomeEngine).

Lemma release_organism_bound (armed : string -> bool) (agent : AgentBrain) (s : RTNEAT GE) (brain : BrainPtr) :
  BrainBodyMap.left_find (GetBody agent) (mBrainBodyMap s) = Some brain ->
  release_organism GE armed agent s =
    Ok tt (set_mWaitingBrainList (mWaitingBrainList s ++ [brain]) s).
Proof.
  intros Hfound. unfold release_organism. unfold_monad. unfold AssertMsg.
  rewrite Hfound. destruct (armed _); reflexivity.
Qed.

(** C1. What [release_organism] does to a bound actor, in either build: the
    brain is pushed on the waiting queue and the binding stays, so the brain
    is bound and waiting at once and [have_organism] still answers true.
    The claim wants the brain in exactly one of the two places and
    [have_organism] false; [deleteUnit] does erase the binding. *)
Theorem release_organism_leaves_binding
  (armed : string -> bool) (agent : AgentBrain) (s : RTNEAT GE) (brain : BrainPtr) :
  BrainBodyMap.left_find (GetBody agent) (mBrainBodyMap s) = Some brain ->
  exists s', release_organism GE armed agent s = Ok tt s'
    /\ have_organism agent s' = true
    /\ BrainBodyMap.left_find (GetBody agent) (mBrainBodyMap s') = Some brain
    /\ brain ∈ mWaitingBrainList s'.
Proof.
  intros Hfound. eexists. split; [apply release_organism_bound, Hfound|].
  unfold have_organism. simpl. rewrite Hfound.
  repeat split. apply elem_of_app. right. apply list_elem_of_singleton. reflexivity.
Qed.

(** C5. [get_organism] for an unbound actor with nothing waiting reads the
    front of the empty queue: no assertion is evaluated, in either build
    (the function does not depend on which assertions are armed), and the
    behaviour is undefined, where the claim wants a checked precondition
    that fails fatally. [release_organism] does assert its own. *)
Theorem get_organism_empty_queue_unchecked (agent : AgentBrain) (s : RTNEAT GE) :
  have_organism agent s = false ->
  ready s = false ->
  get_organism GE agent s = Undefined "mWaitingBrainList.front() on an empty queue".
Proof.
  unfold have_organism, ready, get_organism. unfold_monad.
  destruct (BrainBodyMap.left_find _ _); [discriminate|].
  destruct (mWaitingBrainList s); [reflexivity|discriminate].
Qed.


Lemma right_erase_unbinds (brain : BrainPtr) (m : BrainBodyMap.t) :
  BrainBodyMap.right_mem brain (BrainBodyMap.right_erase brain m) = false.
Proof.
  induction m as [|[b br] m IH]; [reflexivity|].
  cbn [BrainBodyMap.right_erase]. destruct (Nat.eqb br brain) eqn:E; [exact IH|].
  cbn [BrainBodyMap.right_mem]. rewrite E. exact IH.
Qed.

(** The sibling of [release_organism]: [deleteUnit] re-enqueues the brain
    and does remove its binding. *)
Lemma deleteUnit_unbinds (brain : BrainPtr) (s : RTNEAT GE) :
  exists s', deleteUnit GE brain s = Ok tt s'
    /\ mWaitingBrainList s' = mWaitingBrainList s ++ [brain]
    /\ BrainBodyMap.right_mem brain (mBrainBodyMap s') = false
    /\ mTotalUnitsDeleted s' = (mTotalUnitsDeleted s + 1)%N.
Proof.
  eexists. split; [reflexivity|]. split; [reflexivity|].
  split; [apply right_erase_unbinds | reflexivity].
Qed.

Lemma construct_loop (organisms : list OrgPtr) (score : Q)
  (l : list nat) (s : RTNEAT GE) :
  exists hb,
    for_each GE l (RTNEAT_construct_brain GE organisms score) s
    = Ok tt (set_mWaitingBrainList (mWaitingBrainList s ++ l) (set_mBrains hb s)).
Proof.
  revert s. induction l as [|i l IH]; intros s.
  - exists (mBrains s). cbn. rewrite app_nil_r. destruct s; reflexivity.
  - cbn [for_each]. unfold bind, RTNEAT_construct_brain at 1. unfold_monad.
    match goal with |- context [for_each GE l _ ?s1] =>
      destruct (IH s1) as (hb & ->) end.
    exists hb. fields. rewrite <- app_assoc. reflexivity.
Qed.

(** What the constructors leave behind: every brain waiting, none bound,
    [mBrainList] empty and the offspring counter at the population size. *)
Lemma RTNEAT_construct_state (armed : string -> bool) (g : Population GE * gmap OrgPtr Organism)
  (score : Q) (s : RTNEAT GE) :
  exists s',
    RTNEAT_construct GE armed g (N.of_nat (length (pop_organisms GE (fst g)))) score s = Ok tt s'
    /\ mOffspringCount s' = N.of_nat (length (pop_organisms GE (fst g)))
    /\ mWaitingBrainList s' = seq 0 (length (pop_organisms GE (fst g)))
    /\ mBrainList s' = []
    /\ mBrainBodyMap s' = []
    /\ NEAT_time_alive_minimum s' = 1%Z.
Proof.
  unfold RTNEAT_construct. unfold_monad. unfold AssertMsg. rewrite N.eqb_refl.
  assert (Hloop := construct_loop (pop_organisms GE (fst g)) score
                     (seq 0 (length (pop_organisms GE (fst g))))).
  destruct (armed _);
    match goal with |- context [for_each GE _ _ ?s1] =>
      destruct (Hloop s1) as (hb & ->) end;
    eexists; (split; [reflexivity|]); repeat split.
Qed.

(** *** With assertions: the aggregation never gets past its FIXME assertions *)

Lemma returned_bind_never {A B} (c : M GE A) (k : A -> M GE B) (s : RTNEAT GE) :
  (forall a s', returned (k a s') = false) ->
  returned (bind GE c k s) = false.
Proof.
  intros Hk. unfold bind. destruct (c s); [apply Hk | reflexivity | reflexivity].
Qed.

Lemma returned_bind_stuck {A B} (c : M GE A) (k : A -> M GE B) (s : RTNEAT GE) :
  returned (c s) = false ->
  returned (bind GE c k s) = false.
Proof.
  unfold bind. destruct (c s); [discriminate | reflexivity | reflexivity].
Qed.

Lemma evaluateAll_sample_skip (armed : string -> bool) (iter : BrainPtr) (s : RTNEAT GE) :
  eligible s iter = false ->
  evaluateAll_sample GE armed iter s = Ok tt s.
Proof.
  intros He. unfold evaluateAll_sample, mbind, M_bind, bind, get.
  rewrite He. reflexivity.
Qed.

Lemma evaluateAll_sample_debug_stop (iter : BrainPtr) (s : RTNEAT GE) :
  eligible s iter = true ->
  returned (evaluateAll_sample GE debug_build iter s) = false.
Proof.
  intros He. unfold evaluateAll_sample. unfold_monad. rewrite He.
  destruct (NEAT_time_alive_minimum s =? 0)%Z; [reflexivity|].
  destruct (_ && _); reflexivity.
Qed.

Lemma stats_loop_debug (l : list BrainPtr) (s : RTNEAT GE) :
  for_each GE l (evaluateAll_sample GE debug_build) s =
    match List.find (eligible s) l with
    | None => Ok tt s
    | Some iter => evaluateAll_sample GE debug_build iter s
    end.
Proof.
  induction l as [|iter l IH]; [reflexivity|].
  cbn [for_each List.find]. unfold bind.
  destruct (eligible s iter) eqn:He.
  - pose proof (evaluateAll_sample_debug_stop iter s He) as Hstop.
    destruct (evaluateAll_sample GE debug_build iter s);
      [discriminate | reflexivity | reflexivity].
  - rewrite (evaluateAll_sample_skip debug_build iter s He). apply IH.
Qed.

Lemma evaluateAll_debug_stop (s : RTNEAT GE) :
  evaluateAll GE debug_build s =
    match List.find (eligible s) (mBrainList s) with
    | None => AssertFailed "FIXME/TODO: mScoreHelper->doCalculations()"
    | Some iter => evaluateAll_sample GE debug_build iter s
    end.
Proof.
  unfold evaluateAll, evaluateAll_stats, mbind, M_bind.
  unfold bind at 1 2 3. unfold get at 1.
  rewrite stats_loop_debug.
  destruct (List.find (eligible s) (mBrainList s)) as [iter|] eqn:Hfind; [|reflexivity].
  apply find_some in Hfind as [_ He].
  pose proof (evaluateAll_sample_debug_stop iter s He) as Hstop.
  destruct (evaluateAll_sample GE debug_build iter s);
    [discriminate | reflexivity | reflexivity].
Qed.

Lemma evaluateAll_gated (armed : string -> bool) (s : RTNEAT GE) :
  armed "FIXME/TODO: mScoreHelper->doCalculations()" = true ->
  returned (evaluateAll GE armed s) = false.
Proof.
  intros Harmed. unfold evaluateAll, mbind, M_bind.
  apply returned_bind_stuck. unfold evaluateAll_stats, mbind, M_bind.
  apply returned_bind_never. intros s0 s1.
  apply returned_bind_never. intros ? s2.
  unfold AssertMsg. rewrite Harmed. reflexivity.
Qed.


Lemma aged_refl (tam : Z) (h : gmap OrgPtr Organism) : aged tam h h.
Proof. intros p. repeat split; lia. Qed.

Lemma aged_trans (tam : Z) (h1 h2 h3 : gmap OrgPtr Organism) :
  aged tam h1 h2 -> aged tam h2 h3 -> aged tam h1 h3.
Proof.
  intros H12 H23 p.
  destruct (H12 p) as (Hf1 & Hs1 & Ht1 & Hu1), (H23 p) as (Hf2 & Hs2 & Ht2 & Hu2).
  repeat split; try congruence; try lia.
  intros Hlt. rewrite Hu2; [apply Hu1, Hlt|]. rewrite (Hu1 Hlt). exact Hlt.
Qed.

Lemma aged_eligible (s : RTNEAT GE) (h' : gmap OrgPtr Organism) (iter : BrainPtr) :
  aged (NEAT_time_alive_minimum s) (mOrganisms s) h' ->
  eligible (set_mOrganisms h' s) iter = eligible s iter.
Proof.
  intros Ha. unfold eligible, GetOrganism. simpl.
  destruct (Ha (mOrganism (mBrains s !!! iter))) as (_ & _ & Hle & Hsame).
  destruct (Z.leb_spec (NEAT_time_alive_minimum s)
              (time_alive (mOrganisms s !!! mOrganism (mBrains s !!! iter)))) as [H|H].
  - apply Z.leb_le. lia.
  - rewrite (Hsame H). apply Z.leb_gt. exact H.
Qed.

Lemma evaluateAll_sample_release (iter : BrainPtr) (s : RTNEAT GE) :
  NEAT_time_alive_minimum s <> 0%Z ->
  exists h', evaluateAll_sample GE release_build iter s = Ok tt (set_mOrganisms h' s)
    /\ aged (NEAT_time_alive_minimum s) (mOrganisms s) h'.
Proof.
  intros Htam. unfold evaluateAll_sample. unfold_monad.
  destruct (eligible s iter) eqn:He.
  - apply Z.eqb_neq in Htam. rewrite Htam.
    destruct (_ && _) eqn:Hc.
    + eexists. split; [reflexivity|].
      intros p. simpl.
      destruct (decide (GetOrganism s iter = p)) as [<-|Hne].
      * rewrite lookup_total_insert_eq. simpl. repeat split; try lia.
        intros Hlt. unfold eligible in He. apply Z.leb_le in He. lia.
      * rewrite lookup_total_insert_ne by exact Hne. repeat split; lia.
    + exists (mOrganisms s). split; [destruct s; reflexivity | apply aged_refl].
  - exists (mOrganisms s). split; [destruct s; reflexivity | apply aged_refl].
Qed.

Lemma stats_loop_release (l : list BrainPtr) (s : RTNEAT GE) :
  NEAT_time_alive_minimum s <> 0%Z ->
  exists h', for_each GE l (evaluateAll_sample GE release_build) s = Ok tt (set_mOrganisms h' s)
    /\ aged (NEAT_time_alive_minimum s) (mOrganisms s) h'.
Proof.
  revert s. induction l as [|iter l IH]; intros s Htam.
  - exists (mOrganisms s). split; [destruct s; reflexivity | apply aged_refl].
  - cbn [for_each]. unfold bind.
    destruct (evaluateAll_sample_release iter s Htam) as (h1 & -> & Ha1).
    destruct (IH (set_mOrganisms h1 s) Htam) as (h2 & -> & Ha2).
    exists h2. split; [reflexivity|].
    eapply aged_trans; [exact Ha1 | exact Ha2].
Qed.


Lemma scan_loop_release (l : list BrainPtr) (acc : Q * Q) (s : RTNEAT GE) :
  fold_each GE l acc (evaluateAll_minmax GE release_build) s = Ok (scan_scores s l acc) s.
Proof.
  revert acc. induction l as [|iter l IH]; intros acc; [reflexivity|].
  cbn [fold_each]. unfold scan_scores. cbn [fold_left].
  unfold mbind, M_bind, bind at 1.
  unfold evaluateAll_minmax at 1. unfold_monad.
  destruct (eligible s iter); apply IH.
Qed.

Lemma rescored_refl (h : gmap OrgPtr Organism) : rescored h h.
Proof. intros p. split; reflexivity. Qed.

Lemma rescored_trans (h1 h2 h3 : gmap OrgPtr Organism) :
  rescored h1 h2 -> rescored h2 h3 -> rescored h1 h3.
Proof.
  intros H12 H23 p. destruct (H12 p), (H23 p). split; congruence.
Qed.

Lemma rescored_eligible (s : RTNEAT GE) (h' : gmap OrgPtr Organism) (iter : BrainPtr) :
  rescored (mOrganisms s) h' ->
  eligible (set_mOrganisms h' s) iter = eligible s iter.
Proof.
  intros Hr. unfold eligible, GetOrganism. simpl.
  destruct (Hr (mOrganism (mBrains s !!! iter))) as [-> _]. reflexivity.
Qed.

Lemma rescored_assigned (s : RTNEAT GE) (h' : gmap OrgPtr Organism) (m : Q) (iter : BrainPtr) :
  rescored (mOrganisms s) h' ->
  assigned_fitness (set_mOrganisms h' s) m iter = assigned_fitness s m iter.
Proof.
  intros Hr. unfold assigned_fitness, GetOrganism. simpl.
  destruct (Hr (mOrganism (mBrains s !!! iter))) as [_ ->]. reflexivity.
Qed.

Lemma set_fitness_rescored (s : RTNEAT GE) (org : OrgPtr) (f : Q) :
  rescored (mOrganisms s) (mOrganisms (set_fitness org f s)).
Proof.
  intros p. simpl.
  destruct (decide (org = p)) as [<-|Hne].
  - rewrite lookup_total_insert_eq. split; reflexivity.
  - rewrite lookup_total_insert_ne by exact Hne. split; reflexivity.
Qed.

Lemma normalize_step_eq (m : Q) (iter : BrainPtr) (s : RTNEAT GE) :
  normalize_step m iter s =
    Ok tt (if eligible s iter
           then set_fitness (GetOrganism s iter) (assigned_fitness s m iter) s
           else s).
Proof.
  unfold normalize_step, assigned_fitness.
  destruct (Qltb m 0) eqn:Hm.
  - unfold evaluateAll_shift. unfold_monad.
    destruct (eligible s iter); [|reflexivity].
    destruct (negb _); reflexivity.
  - unfold evaluateAll_copy. unfold_monad.
    destruct (eligible s iter); [|reflexivity].
    destruct (negb _); reflexivity.
Qed.

Lemma normalize_loop (m : Q) (l : list BrainPtr) (s : RTNEAT GE) :
  NoDup (map (GetOrganism s) l) ->
  exists h', for_each GE l (normalize_step m) s = Ok tt (set_mOrganisms h' s)
    /\ rescored (mOrganisms s) h'
    /\ (forall iter, iter ∈ l -> eligible s iter = true ->
          fitness (h' !!! GetOrganism s iter) = assigned_fitness s m iter)
    /\ (forall p, (forall iter, iter ∈ l -> eligible s iter = true -> GetOrganism s iter <> p) ->
          h' !!! p = mOrganisms s !!! p).
Proof.
  revert s. induction l as [|iter l IH]; intros s Hnd.
  - exists (mOrganisms s). split; [destruct s; reflexivity|].
    split; [apply rescored_refl|]. split; [|reflexivity].
    intros iter Hin. apply elem_of_nil in Hin. contradiction.
  - cbn [map] in Hnd. apply NoDup_cons in Hnd as [Hhead Hnd].
    cbn [for_each]. unfold bind. rewrite normalize_step_eq.
    set (s1 := if eligible s iter
               then set_fitness (GetOrganism s iter) (assigned_fitness s m iter) s
               else s).
    assert (Hs1 : s1 = set_mOrganisms (mOrganisms s1) s).
    { subst s1. destruct (eligible s iter); [reflexivity | destruct s; reflexivity]. }
    assert (Hr1 : rescored (mOrganisms s) (mOrganisms s1)).
    { subst s1. destruct (eligible s iter); [apply set_fitness_rescored | apply rescored_refl]. }
    assert (Hget : forall i, GetOrganism s1 i = GetOrganism s i).
    { intros i. rewrite Hs1. reflexivity. }
    assert (Hel : forall i, eligible s1 i = eligible s i).
    { intros i. rewrite Hs1. apply rescored_eligible, Hr1. }
    assert (Hasg : forall i, assigned_fitness s1 m i = assigned_fitness s m i).
    { intros i. rewrite Hs1. apply rescored_assigned, Hr1. }
    destruct (IH s1) as (h2 & Hrun & Hr2 & Hfit & Hframe).
    { erewrite map_ext; [exact Hnd|]. intros i. apply Hget. }
    exists h2. split; [rewrite Hrun, Hs1; reflexivity|].
    split; [eapply rescored_trans; [exact Hr1 | exact Hr2]|].
    split.
    + intros i Hin He. apply elem_of_cons in Hin as [->|Hin].
      * rewrite Hframe.
        -- subst s1. rewrite He. simpl. rewrite lookup_total_insert_eq. reflexivity.
        -- intros j Hj _ Heq. apply Hhead. rewrite <- Heq, (Hget j).
           apply list_elem_of_In, in_map, list_elem_of_In, Hj.
      * rewrite <- Hget, <- Hasg. apply Hfit; [exact Hin|]. rewrite Hel. exact He.
    + intros p Hp. rewrite Hframe.
      * subst s1. destruct (eligible s iter) eqn:He; [|reflexivity].
        simpl. rewrite lookup_total_insert_ne; [reflexivity|].
        apply Hp; [apply elem_of_cons; left; reflexivity | exact He].
      * intros j Hj He. rewrite Hget. apply Hp; [apply elem_of_cons; right; exact Hj|].
        rewrite <- Hel. exact He.
Qed.


Lemma normalize_loop_total (m : Q) (l : list BrainPtr) (s : RTNEAT GE) :
  exists h', for_each GE l (normalize_step m) s = Ok tt (set_mOrganisms h' s)
    /\ rescored (mOrganisms s) h'.
Proof.
  revert s. induction l as [|iter l IH]; intros s.
  - exists (mOrganisms s). split; [destruct s; reflexivity | apply rescored_refl].
  - cbn [for_each]. unfold bind. rewrite normalize_step_eq.
    destruct (eligible s iter).
    + destruct (IH (set_fitness (GetOrganism s iter) (assigned_fitness s m iter) s))
        as (h2 & -> & Hr2).
      exists h2. split; [reflexivity|].
      eapply rescored_trans; [apply set_fitness_rescored | exact Hr2].
    + apply IH.
Qed.

Lemma scan_scores_aged (s : RTNEAT GE) (h' : gmap OrgPtr Organism)
  (l : list BrainPtr) (acc : Q * Q) :
  aged (NEAT_time_alive_minimum s) (mOrganisms s) h' ->
  scan_scores (set_mOrganisms h' s) l acc = scan_scores s l acc.
Proof.
  intros Ha. revert acc. induction l as [|iter l IH]; intros acc; [reflexivity|].
  unfold scan_scores. cbn [fold_left]. rewrite (aged_eligible s h' iter Ha).
  apply IH.
Qed.

Lemma aged_assigned (s : RTNEAT GE) (h' : gmap OrgPtr Organism) (m : Q) (iter : BrainPtr) :
  aged (NEAT_time_alive_minimum s) (mOrganisms s) h' ->
  assigned_fitness (set_mOrganisms h' s) m iter = assigned_fitness s m iter.
Proof.
  intros Ha. unfold assigned_fitness, GetOrganism. simpl.
  destruct (Ha (mOrganism (mBrains s !!! iter))) as (_ & -> & _). reflexivity.
Qed.

Lemma normalize_unfold (s : RTNEAT GE) (m : Q) (l : list BrainPtr) :
  (if Qltb m 0 then for_each GE l (evaluateAll_shift GE m)
   else for_each GE l (evaluateAll_copy GE)) s
  = for_each GE l (normalize_step m) s.
Proof. unfold normalize_step. destruct (Qltb m 0); reflexivity. Qed.

Lemma evaluateAll_release_total (s : RTNEAT GE) :
  NEAT_time_alive_minimum s <> 0%Z ->
  exists h', evaluateAll GE release_build s = Ok tt (set_mOrganisms h' s).
Proof.
  intros Htam. unfold evaluateAll, evaluateAll_stats, evaluateAll_normalize.
  unfold mbind, M_bind. unfold bind at 1 2 3. unfold get at 1.
  destruct (stats_loop_release (mBrainList s) s Htam) as (h1 & -> & Ha1).
  cbn beta iota. rewrite AssertMsg_release.
  unfold bind at 1 2. unfold get at 1.
  rewrite scan_loop_release.
  rewrite normalize_unfold.
  destruct (normalize_loop_total
              (fst (scan_scores (set_mOrganisms h1 s) (mBrainList (set_mOrganisms h1 s))
                      (0, - FLT_MAX)%Q))
              (mBrainList (set_mOrganisms h1 s)) (set_mOrganisms h1 s)) as (h2 & -> & _).
  exists h2. reflexivity.
Qed.

Lemma evaluateAll_release (s : RTNEAT GE) :
  NEAT_time_alive_minimum s <> 0%Z ->
  one_brain_per_organism s ->
  exists h1 h2, evaluateAll GE release_build s = Ok tt (set_mOrganisms h2 s)
    /\ aged (NEAT_time_alive_minimum s) (mOrganisms s) h1
    /\ rescored h1 h2
    /\ (forall iter, iter ∈ mBrainList s -> eligible s iter = true ->
          fitness (h2 !!! GetOrganism s iter) = assigned_fitness s (pass_min s) iter)
    /\ (forall p, (forall iter, iter ∈ mBrainList s -> eligible s iter = true ->
                     GetOrganism s iter <> p) ->
          h2 !!! p = h1 !!! p).
Proof.
  intros Htam Hnd. unfold evaluateAll, evaluateAll_stats, evaluateAll_normalize.
  unfold mbind, M_bind. unfold bind at 1 2 3. unfold get at 1.
  destruct (stats_loop_release (mBrainList s) s Htam) as (h1 & -> & Ha1).
  cbn beta iota. rewrite AssertMsg_release.
  unfold bind at 1 2. unfold get at 1.
  rewrite scan_loop_release.
  rewrite normalize_unfold.
  destruct (normalize_loop
              (fst (scan_scores (set_mOrganisms h1 s) (mBrainList (set_mOrganisms h1 s))
                      (0, - FLT_MAX)%Q))
              (mBrainList (set_mOrganisms h1 s)) (set_mOrganisms h1 s))
    as (h2 & -> & Hr2 & Hfit & Hframe).
  { exact Hnd. }
  exists h1, h2. split; [reflexivity|]. split; [exact Ha1|]. split; [exact Hr2|].
  simpl in Hfit, Hframe. rewrite (scan_scores_aged s h1 _ _ Ha1) in Hfit.
  split.
  - intros iter Hin He.
    rewrite <- (aged_assigned s h1 _ iter Ha1).
    apply (Hfit iter Hin). rewrite (aged_eligible s h1 iter Ha1). exact He.
  - intros p Hp. apply Hframe. intros iter Hin He.
    apply (Hp iter Hin). rewrite <- (aged_eligible s h1 iter Ha1). exact He.
Qed.


Lemma scan_scores_min (s : RTNEAT GE) (l : list BrainPtr) (a b : Q) :
  (fst (scan_scores s l (a, b)) ==
   foldr Qmin a (map (fun iter => mAbsoluteScore (mBrains s !!! iter))
                     (filter (fun iter => eligible s iter = true) l)))%Q.
Proof.
  revert a b. induction l as [|iter l IH]; intros a b; [reflexivity|].
  unfold scan_scores. cbn [fold_left]. rewrite filter_cons.
  destruct (eligible s iter) eqn:He.
  - rewrite decide_True by reflexivity. cbn [map foldr fst snd].
    fold (scan_scores s l
            (if Qltb (mAbsoluteScore (mBrains s !!! iter)) a
             then mAbsoluteScore (mBrains s !!! iter) else a,
             if Qltb b (mAbsoluteScore (mBrains s !!! iter))
             then mAbsoluteScore (mBrains s !!! iter) else b)).
    rewrite IH. rewrite (foldr_Qmin_wd _ _ _ (Qltb_pick_min _ a)).
    apply foldr_Qmin_init.
  - rewrite decide_False by discriminate. apply IH.
Qed.

Lemma pass_min_minScore (s : RTNEAT GE) : (pass_min s == minScore s)%Q.
Proof. unfold pass_min, minScore, eligible_scores. apply scan_scores_min. Qed.

Lemma minScore_nonpos (s : RTNEAT GE) : (minScore s <= 0)%Q.
Proof. unfold minScore. apply foldr_Qmin_le_init. Qed.

Lemma minScore_le_score (s : RTNEAT GE) (iter : BrainPtr) :
  iter ∈ mBrainList s -> eligible s iter = true ->
  (minScore s <= mAbsoluteScore (mBrains s !!! iter))%Q.
Proof.
  intros Hin He. unfold minScore, eligible_scores.
  apply foldr_Qmin_le_elem.
  apply (in_map (fun i => mAbsoluteScore (mBrains s !!! i))).
  apply list_elem_of_In, list_elem_of_filter. split; [exact He | exact Hin].
Qed.

(** The un-penalized value behind [assigned_fitness] agrees with the
    specification's formula and is never negative. *)
Lemma assigned_fitness_spec (s : RTNEAT GE) (iter : BrainPtr) :
  iter ∈ mBrainList s -> eligible s iter = true ->
  exists base : Q,
    assigned_fitness s (pass_min s) iter =
      (if negb (smited (mOrganisms s !!! GetOrganism s iter))
       then base else ((1 # 100) * base)%Q)
    /\ (base == normalizedFitness (minScore s) (mAbsoluteScore (mBrains s !!! iter)))%Q
    /\ (0 <= base)%Q.
Proof.
  intros Hin He. unfold assigned_fitness, normalizedFitness.
  rewrite (Qltb_compat (pass_min s) (minScore s) 0 0 (pass_min_minScore s) (Qeq_refl 0)).
  destruct (Qltb (minScore s) 0) eqn:Hneg.
  - eexists. split; [reflexivity|]. split; [|apply clamp_nonneg].
    rewrite clamp_is_Qmax. rewrite (pass_min_minScore s). reflexivity.
  - eexists. split; [reflexivity|]. split; [reflexivity|].
    apply Qltb_ge in Hneg. eapply Qle_trans; [exact Hneg|].
    apply minScore_le_score; assumption.
Qed.

(** C4. One aggregation pass (assertions compiled out, a non-zero
    [time_alive_minimum], one brain per organism): every eligible organism
    ends with a fitness >= 0, which is [normalizedFitness], that is
    max(0, score - minScore) when [minScore] < 0 and the score itself
    otherwise, for an un-smited organism and 0.01 times that for a smited
    one; organisms of brains below the threshold, and all brains, are left
    as they were. *)
Theorem evaluateAll_normalizes (s : RTNEAT GE) :
  NEAT_time_alive_minimum s <> 0%Z ->
  one_brain_per_organism s ->
  exists s', evaluateAll GE release_build s = Ok tt s'
    /\ mBrains s' = mBrains s
    /\ forall iter, iter ∈ mBrainList s ->
         if eligible s iter then
           (0 <= fitness (organism_in s s' iter))%Q
           /\ if smited (organism_in s s iter)
              then (fitness (organism_in s s' iter) ==
                    (1 # 100) * normalizedFitness (minScore s)
                                  (mAbsoluteScore (mBrains s !!! iter)))%Q
              else (fitness (organism_in s s' iter) ==
                    normalizedFitness (minScore s)
                      (mAbsoluteScore (mBrains s !!! iter)))%Q
         else organism_in s s' iter = organism_in s s iter.
Proof.
  intros Htam Hnd.
  destruct (evaluateAll_release s Htam Hnd) as (h1 & h2 & Hrun & Ha & Hr & Hfit & Hframe).
  exists (set_mOrganisms h2 s). split; [exact Hrun|]. split; [reflexivity|].
  intros iter Hin. unfold organism_in. simpl.
  destruct (eligible s iter) eqn:He.
  - rewrite (Hfit iter Hin He).
    destruct (assigned_fitness_spec s iter Hin He) as (base & -> & Hbase & Hpos).
    destruct (smited (mOrganisms s !!! GetOrganism s iter)); cbn [negb].
    + split; [|rewrite Hbase; reflexivity].
      apply Qmult_le_0_compat; [discriminate | exact Hpos].
    + split; [exact Hpos | exact Hbase].
  - rewrite Hframe.
    + destruct (Ha (GetOrganism s iter)) as (_ & _ & _ & Hsame).
      apply Hsame. unfold eligible in He. apply Z.leb_gt in He. exact He.
    + intros j _ Hej Heq. unfold eligible in He, Hej. rewrite Heq in Hej. congruence.
Qed.

(** C9, amended. For two eligible brains of one pass with the same raw
    score, one organism smited and the other not, the smited fitness is 0.01
    times the un-smited one and never above it; it is strictly below it
    exactly when the un-smited fitness is positive. *)
Theorem smiting_scales_fitness (s : RTNEAT GE) (iter1 iter2 : BrainPtr) :
  NEAT_time_alive_minimum s <> 0%Z ->
  one_brain_per_organism s ->
  iter1 ∈ mBrainList s -> iter2 ∈ mBrainList s ->
  eligible s iter1 = true -> eligible s iter2 = true ->
  (mAbsoluteScore (mBrains s !!! iter1) == mAbsoluteScore (mBrains s !!! iter2))%Q ->
  smited (organism_in s s iter1) = true ->
  smited (organism_in s s iter2) = false ->
  exists s', evaluateAll GE release_build s = Ok tt s'
    /\ (fitness (organism_in s s' iter1) == (1 # 100) * fitness (organism_in s s' iter2))%Q
    /\ (fitness (organism_in s s' iter1) <= fitness (organism_in s s' iter2))%Q
    /\ ((fitness (organism_in s s' iter1) < fitness (organism_in s s' iter2))%Q
        <-> (0 < fitness (organism_in s s' iter2))%Q).
Proof.
  intros Htam Hnd Hin1 Hin2 He1 He2 Hscore Hs1 Hs2.
  destruct (evaluateAll_release s Htam Hnd) as (h1 & h2 & Hrun & _ & _ & Hfit & _).
  exists (set_mOrganisms h2 s). split; [exact Hrun|].
  unfold organism_in in *. simpl.
  rewrite (Hfit iter1 Hin1 He1), (Hfit iter2 Hin2 He2).
  destruct (assigned_fitness_spec s iter1 Hin1 He1) as (b1 & -> & Hb1 & Hp1).
  destruct (assigned_fitness_spec s iter2 Hin2 He2) as (b2 & -> & Hb2 & Hp2).
  rewrite Hs1, Hs2. cbn [negb].
  assert (Hb : (b1 == b2)%Q).
  { rewrite Hb1, Hb2. unfold normalizedFitness.
    destruct (Qltb (minScore s) 0); [|exact Hscore].
    rewrite Hscore. reflexivity. }
  rewrite Hb. split; [reflexivity|]. split; [lra|]. split; intros H; lra.
Qed.


(** *** Without assertions: the tick and the evolution cycle *)

Lemma deleteUnit_eq (brain : BrainPtr) (s : RTNEAT GE) :
  deleteUnit GE brain s =
    Ok tt (set_mTotalUnitsDeleted (mTotalUnitsDeleted s + 1)
             (set_mBrainBodyMap (BrainBodyMap.right_erase brain (mBrainBodyMap s))
                (set_mWaitingBrainList (mWaitingBrainList s ++ [brain]) s))).
Proof. reflexivity. Qed.

Lemma detach_loop (Find : Body -> bool) (l : list (Body * BrainPtr)) (s : RTNEAT GE) :
  exists q m,
    for_each GE l (ProcessTick_detach GE Find) s =
      Ok tt (set_mTotalUnitsDeleted
               (mTotalUnitsDeleted s
                + N.of_nat (length (filter (fun entry => negb (Find (fst entry)) = true) l)))
               (set_mBrainBodyMap m (set_mWaitingBrainList q s))).
Proof.
  revert s. induction l as [|entry l IH]; intros s.
  - exists (mWaitingBrainList s), (mBrainBodyMap s).
    cbn. rewrite N.add_0_r. destruct s; reflexivity.
  - cbn [for_each]. unfold bind, ProcessTick_detach at 1. rewrite filter_cons.
    destruct (negb (Find (fst entry))) eqn:Hdead.
    + rewrite decide_True by reflexivity. rewrite deleteUnit_eq.
      match goal with |- context [for_each GE l _ ?s1] =>
        destruct (IH s1) as (q & m & ->) end.
      exists q, m. cbn [length]. fields.
      replace (mTotalUnitsDeleted s + 1 +
               N.of_nat (length (filter (fun e => negb (Find (fst e)) = true) l)))%N
        with (mTotalUnitsDeleted s +
              N.of_nat (S (length (filter (fun e => negb (Find (fst e)) = true) l))))%N
        by lia.
      reflexivity.
    + rewrite decide_False by discriminate. apply IH.
Qed.

Lemma evaluateAll_sample_debug_exact (iter : BrainPtr) (s : RTNEAT GE) :
  eligible s iter = true ->
  evaluateAll_sample GE debug_build iter s =
    if (NEAT_time_alive_minimum s =? 0)%Z
    then Undefined "time_alive % NEAT::time_alive_minimum with a zero divisor"
    else if ages s iter
         then AssertFailed "FIXME/TODO: start next trial to normalize by time_alive_minimum"
         else AssertFailed "FIXME/TODO: add stats samples".
Proof.
  intros He. unfold evaluateAll_sample, ages. unfold_monad. rewrite He. cbn [andb].
  destruct (NEAT_time_alive_minimum s =? 0)%Z; [reflexivity|].
  destruct (_ && _); reflexivity.
Qed.

Lemma bind_stuck (c : M GE unit) (k : unit -> M GE unit) (s : RTNEAT GE) :
  returned (c s) = false ->
  bind GE c k s = c s.
Proof. unfold bind. destruct (c s); [discriminate | reflexivity | reflexivity]. Qed.

(** C2, amended. Whenever the [doCalculations] assertion of line 224 is
    compiled in, no call of [evaluateAll] returns, whatever the state and
    whatever the other assertions, so the normalization is not reached; a
    tick then ends with the very outcome of its call of [evaluateAll], on
    the state the detached bodies leave, and so never comes to line 193 and
    [evolveAll]. With every assertion enabled the call does not always get
    as far as line 224: it stops there when no brain of [mBrainList] is
    eligible, and otherwise already in the statistics loop at the first
    eligible brain, at the assertion of line 217 when that brain's organism
    is due to age and at the one of line 219 when it is not (or at the
    undefined [%] when [time_alive_minimum] is 0); a tick stops exactly
    where the call does. *)
Theorem evaluateAll_assertion_gate (armed : string -> bool) (s : RTNEAT GE) :
  armed "FIXME/TODO: mScoreHelper->doCalculations()" = true ->
  returned (evaluateAll GE armed s) = false
  /\ (forall incAmt Find,
        returned (ProcessTick GE armed incAmt Find s) = false
        /\ exists q m,
             ProcessTick GE armed incAmt Find s =
             evaluateAll GE armed
               (set_mTotalUnitsDeleted
                  (mTotalUnitsDeleted s + N.of_nat (length (dead_entries Find s)))
                  (set_mBrainBodyMap m
                     (set_mWaitingBrainList q
                        (set_mEvolutionTickCount (mEvolutionTickCount s + 1)
                           (set_mSpawnTickCount (mSpawnTickCount s + 1) s))))))
  /\ evaluateAll GE debug_build s =
       match List.find (eligible s) (mBrainList s) with
       | None => AssertFailed "FIXME/TODO: mScoreHelper->doCalculations()"
       | Some iter =>
           if (NEAT_time_alive_minimum s =? 0)%Z
           then Undefined "time_alive % NEAT::time_alive_minimum with a zero divisor"
           else if ages s iter
                then AssertFailed
                       "FIXME/TODO: start next trial to normalize by time_alive_minimum"
                else AssertFailed "FIXME/TODO: add stats samples"
       end
  /\ (forall incAmt Find,
        ProcessTick GE debug_build incAmt Find s = evaluateAll GE debug_build s).
Proof.
  intros Harmed.
  assert (Hexact : forall s0 : RTNEAT GE,
            evaluateAll GE debug_build s0 =
              match List.find (eligible s0) (mBrainList s0) with
              | None => AssertFailed "FIXME/TODO: mScoreHelper->doCalculations()"
              | Some iter =>
                  if (NEAT_time_alive_minimum s0 =? 0)%Z
                  then Undefined "time_alive % NEAT::time_alive_minimum with a zero divisor"
                  else if ages s0 iter
                       then AssertFailed
                              "FIXME/TODO: start next trial to normalize by time_alive_minimum"
                       else AssertFailed "FIXME/TODO: add stats samples"
              end).
  { intros s0. rewrite evaluateAll_debug_stop.
    destruct (List.find (eligible s0) (mBrainList s0)) as [iter|] eqn:Hfind; [|reflexivity].
    apply find_some in Hfind as [_ He]. apply evaluateAll_sample_debug_exact, He. }
  assert (Htick : forall armed' incAmt Find,
            armed' "FIXME/TODO: mScoreHelper->doCalculations()" = true ->
            exists q m,
              ProcessTick GE armed' incAmt Find s =
              evaluateAll GE armed'
                (set_mTotalUnitsDeleted
                   (mTotalUnitsDeleted s + N.of_nat (length (dead_entries Find s)))
                   (set_mBrainBodyMap m
                      (set_mWaitingBrainList q
                         (set_mEvolutionTickCount (mEvolutionTickCount s + 1)
                            (set_mSpawnTickCount (mSpawnTickCount s + 1) s)))))).
  { intros armed' incAmt Find Harmed'. unfold ProcessTick.
    unfold mbind, M_bind. unfold bind at 1 2 3 4. unfold modify at 1 2. unfold get at 1.
    cbn beta iota.
    match goal with |- context [for_each GE ?l _ ?s0] =>
      destruct (detach_loop Find l s0) as (q & m & ->) end.
    exists q, m. cbn beta iota.
    rewrite bind_stuck by (apply evaluateAll_gated, Harmed'). reflexivity. }
  split; [apply evaluateAll_gated, Harmed|]. split; [|split; [apply Hexact|]].
  - intros incAmt Find. destruct (Htick armed incAmt Find Harmed) as (q & m & Hrun).
    split; [rewrite Hrun; apply evaluateAll_gated, Harmed|].
    exists q, m. exact Hrun.
  - intros incAmt Find. destruct (Htick debug_build incAmt Find eq_refl) as (q & m & ->).
    rewrite !Hexact. unfold ages, eligible, GetOrganism. fields. reflexivity.
Qed.

Lemma estimate_loop (l : list (Species GE)) (s : RTNEAT GE) :
  exists g evs,
    for_each GE l (evolveAll_estimate GE) s = Ok tt (set_mLog (mLog s ++ evs) (set_genomes g s))
    /\ Forall (fun e => e = EvEstimateAverage \/ e = EvChooseParentSpecies) evs.
Proof.
  revert s. induction l as [|sp l IH]; intros s.
  - exists (genomes s), []. split; [|constructor].
    cbn. rewrite app_nil_r. destruct s; reflexivity.
  - cbn [for_each]. unfold bind, evolveAll_estimate at 1. unfold_monad. cbn beta iota delta [fst snd].
    match goal with |- context [for_each GE l _ ?s1] =>
      destruct (IH s1) as (g & evs & -> & Hevs) end.
    exists g, (EvEstimateAverage :: evs). split.
    + cbn. rewrite <- app_assoc. reflexivity.
    + constructor; [left; reflexivity | exact Hevs].
Qed.

Lemma reassign_loop (l : list OrgPtr) (s : RTNEAT GE) :
  exists g,
    for_each GE l (evolveAll_reassign GE) s =
      Ok tt (set_mLog (mLog s ++ map EvReassignSpecies l) (set_genomes g s)).
Proof.
  revert s. induction l as [|o l IH]; intros s.
  - exists (genomes s). cbn. rewrite app_nil_r. destruct s; reflexivity.
  - cbn [for_each]. unfold bind, evolveAll_reassign at 1. unfold_monad. cbn beta iota delta [fst snd].
    match goal with |- context [for_each GE l _ ?s1] =>
      destruct (IH s1) as (g & ->) end.
    exists g. cbn. rewrite <- app_assoc. reflexivity.
Qed.

Lemma speciate_release (target frequency : N) (s : RTNEAT GE) :
  exists g post t,
    evolveAll_speciate GE target frequency s =
      Ok tt (set_mLog (mLog s ++ post) (set_genomes g (set_compat_threshold t s)))
    /\ if (mOffspringCount s mod frequency =? 0)%N
       then exists ns l,
              t = adjust_compat_threshold target ns (NEAT_compat_threshold s)
              /\ post = EvSpeciate (mOffspringCount s) ns :: map EvReassignSpecies l
       else t = NEAT_compat_threshold s /\ post = [].
Proof.
  unfold evolveAll_speciate. unfold_monad. cbn beta iota.
  destruct (mOffspringCount s mod frequency =? 0)%N.
  - match goal with |- context [for_each GE ?l _ ?s1] =>
      destruct (reassign_loop l s1) as (g & Hrun) end.
    eexists g, _, _. split.
    + rewrite Hrun. cbn. rewrite <- app_assoc. reflexivity.
    + eexists _, _. split; reflexivity.
  - exists (genomes s), [], (NEAT_compat_threshold s). split; [|split; reflexivity].
    cbn. rewrite app_nil_r. destruct s; reflexivity.
Qed.

Lemma hot_swap_release (l : list BrainPtr) (deadorg new_org : OrgPtr) (s : RTNEAT GE) :
  exists hb q m d,
    evolveAll_hot_swap GE release_build l deadorg new_org s =
      Ok tt (set_mTotalUnitsDeleted d
               (set_mBrainBodyMap m (set_mWaitingBrainList q (set_mBrains hb s)))).
Proof.
  induction l as [|iter l IH].
  - exists (mBrains s), (mWaitingBrainList s), (mBrainBodyMap s), (mTotalUnitsDeleted s).
    destruct s; reflexivity.
  - cbn [evolveAll_hot_swap]. unfold_monad.
    destruct (GetOrganism s iter =? deadorg)%nat; [|exact IH].
    rewrite AssertMsg_release, deleteUnit_eq. eexists _, _, _, _. reflexivity.
Qed.


Lemma evolveAll_release (s : RTNEAT GE) :
  exists s', evolveAll GE release_build s = Ok tt s'
    /\ NEAT_time_alive_minimum s' = NEAT_time_alive_minimum s
    /\ mBrainList s' = mBrainList s
    /\ mUnitsToDeleteBeforeFirstJudgment s' = mUnitsToDeleteBeforeFirstJudgment s
    /\ mTimeBetweenEvolutions s' = mTimeBetweenEvolutions s
    /\ mEvolutionTickCount s' = mEvolutionTickCount s
    /\ match fst (remove_worst GE (NEAT_time_alive_minimum s) (genomes s)) with
       | None =>
           s' = set_mLog (mLog s ++ [EvRemoveWorst None])
                  (set_genomes (snd (remove_worst GE (NEAT_time_alive_minimum s) (genomes s))) s)
       | Some deadorg =>
           mOffspringCount s' = (mOffspringCount s + 1)%N
           /\ exists pre post,
                mLog s' = mLog s ++ EvRemoveWorst (Some deadorg) :: pre
                                 ++ EvReproduceOne (mOffspringCount s) :: post
                /\ Forall (fun e => e = EvEstimateAverage \/ e = EvChooseParentSpecies) pre
                /\ if ((mOffspringCount s + 1) mod compat_adjust_frequency s =? 0)%N
                   then exists ns l,
                          NEAT_compat_threshold s' =
                            adjust_compat_threshold 4 ns (NEAT_compat_threshold s)
                          /\ post = EvSpeciate (mOffspringCount s + 1) ns
                                      :: map EvReassignSpecies l
                   else NEAT_compat_threshold s' = NEAT_compat_threshold s /\ post = []
       end.
Proof.
  unfold evolveAll. unfold_monad.
  destruct (remove_worst GE (NEAT_time_alive_minimum s) (genomes s)) as [[deadorg|] g1].
  - cbn [fst snd].
    match goal with |- context [for_each GE ?l _ ?s1] =>
      destruct (estimate_loop l s1) as (g2 & evs & -> & Hevs) end.
    cbn beta iota.
    match goal with |- context [evolveAll_speciate GE ?t ?f ?s1] =>
      destruct (speciate_release t f s1) as (g3 & post & thr & -> & Hpost) end.
    cbn beta iota.
    match goal with |- context [evolveAll_hot_swap GE release_build ?l ?d ?n ?s1] =>
      destruct (hot_swap_release l d n s1) as (hb & q & m & del & ->) end.
    eexists. split; [reflexivity|].
    repeat (split; [reflexivity|]).
    exists (evs ++ [EvChooseParentSpecies]), post.
    split; [cbn; rewrite <- !app_assoc; reflexivity|].
    split.
    + apply Forall_app. split; [exact Hevs|]. constructor; [right; reflexivity | constructor].
    + cbn in Hpost. exact Hpost.
  - cbn [fst snd]. eexists. split; [reflexivity|].
    repeat (split; [reflexivity|]). reflexivity.
Qed.


Lemma estimate_loop_exact (l : list (Species GE)) (s : RTNEAT GE) :
  for_each GE l (evolveAll_estimate GE) s =
    Ok tt (set_mLog (mLog s ++ map (fun _ => EvEstimateAverage) l)
             (set_genomes (estimate_all l (genomes s)) s)).
Proof.
  revert s. induction l as [|sp l IH]; intros s.
  - cbn. rewrite app_nil_r. destruct s; reflexivity.
  - cbn [for_each]. unfold bind, evolveAll_estimate at 1. unfold_monad.
    cbn beta iota delta [fst snd]. rewrite IH.
    unfold estimate_all, genomes. fields. cbn [fold_left map].
    rewrite <- surjective_pairing, <- app_assoc. reflexivity.
Qed.

Lemma reassign_loop_exact (l : list OrgPtr) (s : RTNEAT GE) :
  for_each GE l (evolveAll_reassign GE) s =
    Ok tt (set_mLog (mLog s ++ map EvReassignSpecies l)
             (set_genomes (reassign_all (NEAT_compat_threshold s) l (genomes s)) s)).
Proof.
  revert s. induction l as [|o l IH]; intros s.
  - cbn. rewrite app_nil_r. destruct s; reflexivity.
  - cbn [for_each]. unfold bind, evolveAll_reassign at 1. unfold_monad.
    cbn beta iota delta [fst snd]. rewrite IH.
    unfold reassign_all, genomes. fields. cbn [fold_left map].
    rewrite <- surjective_pairing, <- app_assoc. reflexivity.
Qed.

Lemma speciate_exact (target frequency : N) (s : RTNEAT GE) :
  evolveAll_speciate GE target frequency s =
    Ok tt (if (mOffspringCount s mod frequency =? 0)%N then
             let ns := (N.of_nat (length (pop_species GE (mPopulation s))) mod 2 ^ 32)%N in
             let t := adjust_compat_threshold target ns (NEAT_compat_threshold s) in
             let l := pop_organisms GE (mPopulation s) in
             set_mLog (mLog s ++ EvSpeciate (mOffspringCount s) ns :: map EvReassignSpecies l)
               (set_genomes (reassign_all t l (genomes s)) (set_compat_threshold t s))
           else s).
Proof.
  unfold evolveAll_speciate. unfold_monad. cbn beta iota.
  destruct (mOffspringCount s mod frequency =? 0)%N; [|reflexivity].
  rewrite reassign_loop_exact. fields. cbn zeta.
  rewrite <- app_assoc. reflexivity.
Qed.

(** One cycle without assertions, as the engine sees it. *)
Lemma evolveAll_cycle (s : RTNEAT GE) :
  exists s', evolveAll GE release_build s = Ok tt s'
    /\ cycle_of s s'
    /\ mLog s' = mLog s ++ cycle_events s
    /\ mBrainList s' = mBrainList s
    /\ NEAT_time_alive_minimum s' = NEAT_time_alive_minimum s.
Proof.
  unfold evolveAll. unfold_monad.
  unfold cycle_of, cycle_events, species_count, offspring, removal.
  destruct (remove_worst GE (NEAT_time_alive_minimum s) (genomes s)) as [[deadorg|] g1].
  - cbn [fst snd]. rewrite estimate_loop_exact. cbn beta iota.
    rewrite speciate_exact. cbn beta iota.
    unfold compat_adjust_frequency. fields.
    destruct (_ =? 0)%N.
    + match goal with |- context [evolveAll_hot_swap GE release_build ?l ?d ?n ?s1] =>
        destruct (hot_swap_release l d n s1) as (hb & q & m & del & ->) end.
      eexists. split; [reflexivity|]. unfold genomes. fields.
      rewrite <- !surjective_pairing.
      split; [split; [reflexivity | split; reflexivity]|].
      split; [|split; reflexivity].
      rewrite <- !app_assoc. reflexivity.
    + match goal with |- context [evolveAll_hot_swap GE release_build ?l ?d ?n ?s1] =>
        destruct (hot_swap_release l d n s1) as (hb & q & m & del & ->) end.
      eexists. split; [reflexivity|]. unfold genomes. fields.
      rewrite <- !surjective_pairing.
      split; [split; [reflexivity | split; reflexivity]|].
      split; [|split; reflexivity].
      rewrite <- !app_assoc. reflexivity.
  - cbn [fst snd]. eexists. split; [reflexivity|]. unfold genomes. fields.
    rewrite <- !surjective_pairing.
    split; [split; [reflexivity | split; reflexivity]|].
    split; [reflexivity|]. split; reflexivity.
Qed.

Lemma adjust_compat_threshold_floor (target ns : N) (t : Q) :
  (3 # 10 <= adjust_compat_threshold target ns t)%Q.
Proof.
  unfold adjust_compat_threshold.
  match goal with |- context [Qltb ?x (3 # 10)] => destruct (Qltb x (3 # 10)) eqn:E end.
  - apply Qle_refl.
  - apply Qltb_ge, E.
Qed.

Lemma evolveAll_keeps_floor (s : RTNEAT GE) :
  (3 # 10 <= NEAT_compat_threshold s)%Q ->
  exists s', evolveAll GE release_build s = Ok tt s'
    /\ (3 # 10 <= NEAT_compat_threshold s')%Q
    /\ NEAT_time_alive_minimum s' = NEAT_time_alive_minimum s.
Proof.
  intros Hthr.
  destruct (evolveAll_release s) as (s' & Hrun & Htam & _ & _ & _ & _ & Hcase).
  exists s'. split; [exact Hrun|]. split; [|exact Htam].
  destruct (fst (remove_worst GE (NEAT_time_alive_minimum s) (genomes s))).
  - destruct Hcase as (_ & pre & post & _ & _ & Hpost).
    destruct (_ =? 0)%N.
    + destruct Hpost as (ns & l & -> & _). apply adjust_compat_threshold_floor.
    + destruct Hpost as [-> _]. exact Hthr.
  - rewrite Hcase. exact Hthr.
Qed.

(** The state line 193 tests, and what the tick does from there. *)
Lemma ProcessTick_release (incAmt : Q) (Find : Body -> bool) (s : RTNEAT GE) :
  NEAT_time_alive_minimum s <> 0%Z ->
  exists q m h,
    let s1 :=
      set_mOrganisms h
        (set_mTotalUnitsDeleted
           (mTotalUnitsDeleted s + N.of_nat (length (dead_entries Find s)))
           (set_mBrainBodyMap m
              (set_mWaitingBrainList q
                 (set_mEvolutionTickCount (mEvolutionTickCount s + 1)
                    (set_mSpawnTickCount (mSpawnTickCount s + 1) s))))) in
    ProcessTick GE release_build incAmt Find s =
      if judgment_due Find s
      then bind GE (evolveAll GE release_build) (fun _ => modify GE (set_mEvolutionTickCount 0)) s1
      else Ok tt s1.
Proof.
  intros Htam. unfold ProcessTick.
  unfold mbind, M_bind. unfold bind at 1 2 3 4. unfold modify at 1 2. unfold get at 1.
  cbn beta iota.
  match goal with |- context [for_each GE ?l _ ?s0] =>
    destruct (detach_loop Find l s0) as (q & m & ->) end.
  unfold bind at 1.
  match goal with |- context [evaluateAll GE release_build ?s0] =>
    destruct (evaluateAll_release_total s0 Htam) as (h & ->) end.
  exists q, m, h. unfold bind at 1. unfold get at 1. cbn beta iota zeta.
  unfold mret, M_ret, ret, judgment_due, dead_entries. fields.
  destruct (_ && _); reflexivity.
Qed.




(** C3, amended. On a tick whose activation predicate holds the tick
    counter is reset to 0 whether or not an organism was removed. When
    [remove_worst] returns null the cycle does nothing else: no further
    engine call, offspring counter, threshold and brains unchanged, no
    brain detached by the cycle. *)
Theorem judgment_resets_tick_counter (incAmt : Q) (Find : Body -> bool) (s : RTNEAT GE) :
  NEAT_time_alive_minimum s <> 0%Z ->
  judgment_due Find s = true ->
  exists s' removed rest,
    ProcessTick GE release_build incAmt Find s = Ok tt s'
    /\ mLog s' = mLog s ++ EvRemoveWorst removed :: rest
    /\ mEvolutionTickCount s' = 0%N
    /\ match removed with
       | None =>
           rest = []
           /\ mOffspringCount s' = mOffspringCount s
           /\ NEAT_compat_threshold s' = NEAT_compat_threshold s
           /\ mBrains s' = mBrains s
           /\ mTotalUnitsDeleted s' =
                (mTotalUnitsDeleted s + N.of_nat (length (dead_entries Find s)))%N
       | Some _ => mOffspringCount s' = (mOffspringCount s + 1)%N
       end.
Proof.
  intros Htam Hdue.
  destruct (ProcessTick_release incAmt Find s Htam) as (q & m & h & Hrun).
  cbn zeta in Hrun. rewrite Hrun, Hdue. unfold bind.
  match goal with |- context [evolveAll GE release_build ?s1] =>
    destruct (evolveAll_release s1) as (s2 & -> & _ & _ & _ & _ & _ & Hcase) end.
  fields.
  destruct (fst (remove_worst GE _ _)) as [deadorg|].
  - destruct Hcase as (Hcount & pre & post & Hlog & _). fields.
    eexists _, (Some deadorg), (pre ++ EvReproduceOne (mOffspringCount s) :: post).
    split; [reflexivity|]. split; [exact Hlog|]. split; [reflexivity | exact Hcount].
  - eexists _, None, []. split; [reflexivity|]. rewrite Hcase. repeat split.
Qed.

Lemma evolve_cycles_keep_floor (n : nat) (s : RTNEAT GE) :
  (3 # 10 <= NEAT_compat_threshold s)%Q ->
  exists s', evolve_cycles GE release_build n s = Ok tt s'
    /\ (3 # 10 <= NEAT_compat_threshold s')%Q.
Proof.
  revert s. induction n as [|n IH]; intros s Hthr.
  - exists s. split; [reflexivity | exact Hthr].
  - cbn [evolve_cycles]. unfold mbind, M_bind, bind.
    destruct (evolveAll_keeps_floor s Hthr) as (s1 & -> & Hthr1 & _).
    apply IH, Hthr1.
Qed.

Lemma ProcessTick_keeps_floor (incAmt : Q) (Find : Body -> bool) (s : RTNEAT GE) :
  NEAT_time_alive_minimum s <> 0%Z ->
  (3 # 10 <= NEAT_compat_threshold s)%Q ->
  exists s', ProcessTick GE release_build incAmt Find s = Ok tt s'
    /\ NEAT_time_alive_minimum s' = NEAT_time_alive_minimum s
    /\ (3 # 10 <= NEAT_compat_threshold s')%Q.
Proof.
  intros Htam Hthr.
  destruct (ProcessTick_release incAmt Find s Htam) as (q & m & h & Hrun).
  cbn zeta in Hrun. rewrite Hrun.
  destruct (judgment_due Find s).
  - unfold bind.
    match goal with |- context [evolveAll GE release_build ?s1] =>
      destruct (evolveAll_keeps_floor s1 Hthr) as (s2 & -> & Hthr2 & Htam2) end.
    eexists. split; [reflexivity|]. split; [exact Htam2 | exact Hthr2].
  - eexists. split; [reflexivity|]. split; [reflexivity | exact Hthr].
Qed.

Lemma run_ticks_keep_floor (finds : list (Body -> bool)) (s : RTNEAT GE) :
  NEAT_time_alive_minimum s <> 0%Z ->
  (3 # 10 <= NEAT_compat_threshold s)%Q ->
  exists s', run_ticks GE release_build finds s = Ok tt s'
    /\ (3 # 10 <= NEAT_compat_threshold s')%Q.
Proof.
  revert s. induction finds as [|Find finds IH]; intros s Htam Hthr.
  - exists s. split; [reflexivity | exact Hthr].
  - cbn [run_ticks]. unfold mbind, M_bind, bind.
    destruct (ProcessTick_keeps_floor 0 Find s Htam Hthr) as (s1 & -> & Htam1 & Hthr1).
    apply IH; [rewrite Htam1; exact Htam | exact Hthr1].
Qed.

Lemma adjust_iter_floor (target ns : N) (k : nat) (t : Q) :
  (3 # 10 <= t)%Q ->
  (3 # 10 <= Nat.iter k (adjust_compat_threshold target ns) t)%Q.
Proof.
  intros Ht. destruct k as [|k]; [exact Ht|].
  cbn [Nat.iter nat_rect]. apply adjust_compat_threshold_floor.
Qed.

(** C8. From a threshold >= 0.3, any run of ticks and any number of
    evolution cycles (assertions compiled out) end with a threshold >= 0.3,
    and so does any number of consecutive decreasing adjustments. *)
Theorem compat_threshold_floor
  (finds : list (Body -> bool)) (n k : nat) (s : RTNEAT GE) :
  NEAT_time_alive_minimum s <> 0%Z ->
  (3 # 10 <= NEAT_compat_threshold s)%Q ->
  (exists s', run_ticks GE release_build finds s = Ok tt s'
     /\ (3 # 10 <= NEAT_compat_threshold s')%Q)
  /\ (exists s', evolve_cycles GE release_build n s = Ok tt s'
        /\ (3 # 10 <= NEAT_compat_threshold s')%Q)
  /\ (3 # 10 <= Nat.iter k (adjust_compat_threshold 4 0) (NEAT_compat_threshold s))%Q.
Proof.
  intros Htam Hthr. split; [apply run_ticks_keep_floor; assumption|].
  split; [apply evolve_cycles_keep_floor; assumption|].
  apply adjust_iter_floor, Hthr.
Qed.


(** *** The cadence of speciation *)

Lemma compat_adjust_frequency_max (s : RTNEAT GE) :
  (N.of_nat (length (mBrainList s)) / 10 < 2 ^ 32)%N ->
  compat_adjust_frequency s = N.max 1 (N.of_nat (length (mBrainList s)) / 10).
Proof.
  intros Hsize. unfold compat_adjust_frequency.
  rewrite (N.mod_small _ _ Hsize).
  destruct (N.ltb_spec (N.of_nat (length (mBrainList s)) / 10) 1); lia.
Qed.

Lemma reproductions_app (l1 l2 : list Event) :
  reproductions (l1 ++ l2) = reproductions l1 ++ reproductions l2.
Proof. apply omap_app. Qed.

Lemma speciation_counts_app (l1 l2 : list Event) :
  speciation_counts (l1 ++ l2) = speciation_counts l1 ++ speciation_counts l2.
Proof. apply omap_app. Qed.

Lemma quiet_events (pre : list Event) :
  Forall (fun e => e = EvEstimateAverage \/ e = EvChooseParentSpecies) pre ->
  reproductions pre = [] /\ speciation_counts pre = [].
Proof.
  induction 1 as [|e pre [-> | ->] _ [IHr IHs]]; [split; reflexivity | |];
    split; assumption.
Qed.

Lemma reassign_events (l : list OrgPtr) :
  reproductions (map EvReassignSpecies l) = []
  /\ speciation_counts (map EvReassignSpecies l) = [].
Proof.
  induction l as [|o l [IHr IHs]]; split; try reflexivity; assumption.
Qed.

(** The log of one cycle: at most one reproduction, followed by a
    speciation exactly when the incremented counter is a multiple of the
    frequency. *)
Lemma evolveAll_cycle_log (s : RTNEAT GE) :
  exists s' new,
    evolveAll GE release_build s = Ok tt s'
    /\ mLog s' = mLog s ++ new
    /\ mBrainList s' = mBrainList s
    /\ ((mOffspringCount s' = mOffspringCount s
         /\ reproductions new = [] /\ speciation_counts new = [])
        \/ (mOffspringCount s' = (mOffspringCount s + 1)%N
            /\ reproductions new = [mOffspringCount s]
            /\ speciation_counts new =
                 filter (fun c => (c mod compat_adjust_frequency s = 0)%N)
                        [(mOffspringCount s + 1)%N])).
Proof.
  destruct (evolveAll_release s) as (s' & Hrun & _ & Hlist & _ & _ & _ & Hcase).
  destruct (fst (remove_worst GE (NEAT_time_alive_minimum s) (genomes s))) as [deadorg|].
  - destruct Hcase as (Hcount & pre & post & Hlog & Hpre & Hpost).
    exists s', (EvRemoveWorst (Some deadorg) :: pre ++ EvReproduceOne (mOffspringCount s) :: post).
    split; [exact Hrun|]. split; [exact Hlog|]. split; [exact Hlist|].
    right. split; [exact Hcount|].
    destruct (quiet_events pre Hpre) as [Hpre_r Hpre_s].
    change (EvRemoveWorst (Some deadorg) :: pre ++ EvReproduceOne (mOffspringCount s) :: post)
      with ([EvRemoveWorst (Some deadorg)] ++ pre ++ [EvReproduceOne (mOffspringCount s)] ++ post).
    rewrite !reproductions_app, !speciation_counts_app, Hpre_r, Hpre_s.
    rewrite filter_cons, filter_nil.
    destruct (N.eqb_spec ((mOffspringCount s + 1) mod compat_adjust_frequency s) 0)
      as [Htrig|Htrig].
    + destruct Hpost as (ns & l & _ & ->).
      rewrite decide_True by exact Htrig.
      destruct (reassign_events l) as [Hl_r Hl_s].
      change (EvSpeciate (mOffspringCount s + 1) ns :: map EvReassignSpecies l)
        with ([EvSpeciate (mOffspringCount s + 1) ns] ++ map EvReassignSpecies l).
      rewrite reproductions_app, speciation_counts_app, Hl_r, Hl_s.
      split; reflexivity.
    + destruct Hpost as [_ ->].
      rewrite decide_False by exact Htrig. split; reflexivity.
  - exists s', [EvRemoveWorst None].
    split; [exact Hrun|]. split; [rewrite Hcase; reflexivity|]. split; [exact Hlist|].
    left. split; [rewrite Hcase; reflexivity|]. split; reflexivity.
Qed.

Lemma evolve_cycles_log (n : nat) (s : RTNEAT GE) :
  exists s' new k,
    evolve_cycles GE release_build n s = Ok tt s'
    /\ mLog s' = mLog s ++ new
    /\ (k <= n)%nat
    /\ mOffspringCount s' = (mOffspringCount s + N.of_nat k)%N
    /\ reproductions new = counts_from (mOffspringCount s) k
    /\ speciation_counts new =
         filter (fun c => (c mod compat_adjust_frequency s = 0)%N)
                (counts_from (mOffspringCount s + 1) k).
Proof.
  revert s. induction n as [|n IH]; intros s.
  - exists s, [], 0%nat. split; [reflexivity|]. split; [rewrite app_nil_r; reflexivity|].
    split; [lia|]. split; [cbn; lia|]. split; reflexivity.
  - cbn [evolve_cycles]. unfold mbind, M_bind, bind.
    destruct (evolveAll_cycle_log s) as (s1 & new1 & -> & Hlog1 & Hlist1 & Hcase).
    destruct (IH s1) as (s' & new2 & k & Hrun & Hlog2 & Hk & Hcount & Hrep & Hspec).
    assert (Hfreq : compat_adjust_frequency s1 = compat_adjust_frequency s).
    { unfold compat_adjust_frequency. rewrite Hlist1. reflexivity. }
    rewrite Hfreq in Hspec.
    destruct Hcase as [(Hc & Hrep1 & Hspec1) | (Hc & Hrep1 & Hspec1)]; rewrite Hc in *.
    + exists s', (new1 ++ new2), k. split; [exact Hrun|].
      split; [rewrite Hlog2, Hlog1, app_assoc; reflexivity|].
      split; [lia|]. split; [exact Hcount|].
      rewrite reproductions_app, speciation_counts_app, Hrep1, Hspec1.
      split; [exact Hrep | exact Hspec].
    + exists s', (new1 ++ new2), (S k). split; [exact Hrun|].
      split; [rewrite Hlog2, Hlog1, app_assoc; reflexivity|].
      split; [lia|]. split; [lia|].
      rewrite reproductions_app, speciation_counts_app, Hrep1, Hspec1, Hrep, Hspec.
      split; [reflexivity|].
      cbn [counts_from]. rewrite (filter_cons _ (mOffspringCount s + 1)%N).
      rewrite filter_cons, filter_nil.
      destruct (decide ((mOffspringCount s + 1) mod compat_adjust_frequency s = 0)%N);
        reflexivity.
Qed.

(** The states before and after the cycle number [j + 1] of a run. *)
Lemma evolve_cycles_steps (j : nat) (s : RTNEAT GE) :
  exists sj sj',
    evolve_cycles GE release_build j s = Ok tt sj
    /\ evolve_cycles GE release_build (S j) s = Ok tt sj'
    /\ evolveAll GE release_build sj = Ok tt sj'
    /\ mBrainList sj = mBrainList s
    /\ cycle_of sj sj'
    /\ mLog sj' = mLog sj ++ cycle_events sj.
Proof.
  revert s. induction j as [|j IH]; intros s.
  - destruct (evolveAll_cycle s) as (s1 & Hrun & Hof & Hlog & _).
    exists s, s1. split; [reflexivity|].
    split; [cbn [evolve_cycles]; unfold mbind, M_bind, bind; rewrite Hrun; reflexivity|].
    split; [exact Hrun|]. split; [reflexivity|]. split; [exact Hof | exact Hlog].
  - destruct (evolveAll_cycle s) as (s1 & Hrun & _ & _ & Hlist & _).
    destruct (IH s1) as (sj & sj' & Hj & Hj' & Hstep & Hl & Hof & Hlog).
    exists sj, sj'.
    split; [cbn [evolve_cycles]; unfold mbind, M_bind, bind; rewrite Hrun; exact Hj|].
    split; [change (evolve_cycles GE release_build (S (S j)) s)
              with (bind GE (evolveAll GE release_build)
                      (fun _ => evolve_cycles GE release_build (S j)) s);
            unfold bind; rewrite Hrun; exact Hj'|].
    split; [exact Hstep|]. split; [congruence|]. split; [exact Hof | exact Hlog].
Qed.

(** C10, amended. [compat_adjust_frequency] is max(1, brains / 10) in
    integer division (as long as the quotient fits [U32]). Over [n]
    evolution cycles, [k] of which reproduce, the offspring counter goes
    through [c; c + 1; ...; c + k - 1] where [c] is its value before, and
    the speciation block runs exactly at the reproductions that bring the
    counter to a multiple of the frequency. Cycle by cycle ([cycle_of]): a
    cycle that removes no organism leaves counter, threshold and genomes as
    [remove_worst] left them; a cycle that removes one passes the counter to
    [reproduce_one] and increments it, and then, if the new value is a
    multiple of the frequency, adjusts [NEAT::compat_threshold] by the
    species count and calls [reassign_species] on every organism of the
    population under the new threshold, and otherwise leaves the threshold
    alone and calls [reassign_species] on none. The cadence is counted on
    [mOffspringCount], which the constructors start at the population size,
    not on the number of reproductions since construction. *)
Theorem speciation_cadence (n : nat) (s : RTNEAT GE) :
  (N.of_nat (length (mBrainList s)) / 10 < 2 ^ 32)%N ->
  compat_adjust_frequency s = N.max 1 (N.of_nat (length (mBrainList s)) / 10)
  /\ (exists s' new k,
       evolve_cycles GE release_build n s = Ok tt s'
       /\ mLog s' = mLog s ++ new
       /\ (k <= n)%nat
       /\ mOffspringCount s' = (mOffspringCount s + N.of_nat k)%N
       /\ reproductions new = counts_from (mOffspringCount s) k
       /\ speciation_counts new =
            filter (fun c => (c mod N.max 1 (N.of_nat (length (mBrainList s)) / 10) = 0)%N)
                   (counts_from (mOffspringCount s + 1) k))
  /\ (forall j, exists sj sj',
        evolve_cycles GE release_build j s = Ok tt sj
        /\ evolve_cycles GE release_build (S j) s = Ok tt sj'
        /\ compat_adjust_frequency sj = N.max 1 (N.of_nat (length (mBrainList s)) / 10)
        /\ cycle_of sj sj'
        /\ mLog sj' = mLog sj ++ cycle_events sj)
  /\ (forall (armed : string -> bool) (g : Population GE * gmap OrgPtr Organism)
        (score : Q) (from : RTNEAT GE),
        exists s0,
          RTNEAT_construct GE armed g (N.of_nat (length (pop_organisms GE (fst g))))
            score from = Ok tt s0
          /\ mOffspringCount s0 = N.of_nat (length (pop_organisms GE (fst g)))).
Proof.
  intros Hsize. split; [apply compat_adjust_frequency_max, Hsize|].
  rewrite <- (compat_adjust_frequency_max s Hsize).
  split; [apply evolve_cycles_log|]. split.
  - intros j.
    destruct (evolve_cycles_steps j s) as (sj & sj' & Hj & Hj' & _ & Hl & Hof & Hlog).
    exists sj, sj'. split; [exact Hj|]. split; [exact Hj'|].
    split; [unfold compat_adjust_frequency; rewrite Hl; reflexivity|].
    split; [exact Hof | exact Hlog].
  - intros armed g score from.
    destruct (RTNEAT_construct_state armed g score from) as (s0 & Hrun & Hcount & _).
    exists s0. split; [exact Hrun | exact Hcount].
Qed.

End Properties.

(** ** Further properties of the controller *)

Module BrainBodyMapFacts.

Import BrainBodyMap.

Lemma left_find_place_eq (p : Body * BrainPtr) (m : t) :
  left_find (fst p) m = None -> left_find (fst p) (place p m) = Some (snd p).
Proof.
  destruct p as [body brain]. cbn [fst snd].
  induction m as [|[b br] m IH]; intros Hnone; cbn [place fst].
  - cbn. rewrite Nat.eqb_refl. reflexivity.
  - cbn [left_find] in Hnone. destruct (Nat.eqb b body) eqn:E; [discriminate|].
    destruct (Nat.ltb body b); cbn [left_find].
    + rewrite Nat.eqb_refl. reflexivity.
    + rewrite E. apply IH, Hnone.
Qed.

Lemma left_find_place_ne (body : Body) (p : Body * BrainPtr) (m : t) :
  body <> fst p -> left_find body (place p m) = left_find body m.
Proof.
  destruct p as [b0 brain]. cbn [fst]. intros Hne.
  assert (E0 : Nat.eqb b0 body = false) by (apply Nat.eqb_neq; congruence).
  induction m as [|[b br] m IH]; cbn [place fst].
  - cbn. rewrite E0. reflexivity.
  - destruct (Nat.ltb b0 b); cbn [left_find].
    + rewrite E0. reflexivity.
    + rewrite IH. reflexivity.
Qed.

Lemma right_mem_place (brain : BrainPtr) (p : Body * BrainPtr) (m : t) :
  right_mem brain (place p m) = Nat.eqb (snd p) brain || right_mem brain m.
Proof.
  destruct p as [b0 br0]. cbn [snd].
  induction m as [|[b br] m IH]; cbn [place fst].
  - reflexivity.
  - destruct (Nat.ltb b0 b); cbn [right_mem]; [reflexivity|].
    rewrite IH. destruct (Nat.eqb br brain), (Nat.eqb br0 brain); reflexivity.
Qed.

Lemma right_mem_elem_of (brain : BrainPtr) (m : t) :
  right_mem brain m = true <-> brain ∈ map snd m.
Proof.
  induction m as [|[b br] m IH]; cbn [right_mem map snd].
  - split; [discriminate|]. intros H. apply elem_of_nil in H. contradiction.
  - rewrite orb_true_iff, Nat.eqb_eq, IH, elem_of_cons. split; intros [H|H]; auto.
Qed.

Lemma right_mem_false (brain : BrainPtr) (m : t) :
  right_mem brain m = false <-> brain ∉ map snd m.
Proof.
  rewrite <- right_mem_elem_of. destruct (right_mem brain m); split; congruence.
Qed.

Lemma right_erase_absent (brain : BrainPtr) (m : t) :
  brain ∉ map snd m -> right_erase brain m = m.
Proof.
  induction m as [|[b br] m IH]; [reflexivity|].
  cbn [map snd right_erase]. intros Hnot. apply not_elem_of_cons in Hnot as [Hne Hnot].
  destruct (Nat.eqb_spec br brain) as [->|_]; [contradiction|].
  rewrite IH by exact Hnot. reflexivity.
Qed.

Lemma right_erase_app (brain : BrainPtr) (m1 m2 : t) :
  right_erase brain (m1 ++ m2) = right_erase brain m1 ++ right_erase brain m2.
Proof.
  induction m1 as [|[b br] m1 IH]; [reflexivity|].
  cbn [app right_erase]. destruct (Nat.eqb br brain); rewrite IH; reflexivity.
Qed.

Lemma right_mem_right_erase_ne (br brain : BrainPtr) (m : t) :
  br <> brain -> right_mem br (right_erase brain m) = right_mem br m.
Proof.
  intros Hne. induction m as [|[b b'] m IH]; [reflexivity|].
  cbn [right_erase right_mem]. destruct (Nat.eqb_spec b' brain) as [->|_].
  - rewrite IH. destruct (Nat.eqb_spec brain br); [congruence | reflexivity].
  - cbn [right_mem]. rewrite IH. reflexivity.
Qed.

Lemma right_erase_snd_sublist (brain : BrainPtr) (m : t) :
  sublist (map snd (right_erase brain m)) (map snd m).
Proof.
  induction m as [|[b br] m IH]; [constructor|].
  cbn [right_erase]. destruct (Nat.eqb br brain); cbn [map snd].
  - apply sublist_cons, IH.
  - apply sublist_skip, IH.
Qed.

Lemma left_find_right_erase (body : Body) (br brain : BrainPtr) (m : t) :
  left_find body m = Some br -> br <> brain ->
  left_find body (right_erase brain m) = Some br.
Proof.
  intros Hfind Hne. induction m as [|[b b'] m IH]; [discriminate|].
  cbn [left_find] in Hfind. cbn [right_erase].
  destruct (Nat.eqb b body) eqn:E.
  - injection Hfind as ->.
    destruct (Nat.eqb_spec br brain); [contradiction|].
    cbn [left_find]. rewrite E. reflexivity.
  - destruct (Nat.eqb b' brain); [apply IH, Hfind|].
    cbn [left_find]. rewrite E. apply IH, Hfind.
Qed.

Lemma left_find_elem_of (body : Body) (br : BrainPtr) (m : t) :
  left_find body m = Some br -> (body, br) ∈ m.
Proof.
  induction m as [|[b b'] m IH]; [discriminate|].
  cbn [left_find]. destruct (Nat.eqb_spec b body) as [->|_].
  - intros [= ->]. apply elem_of_cons. left. reflexivity.
  - intros H. apply elem_of_cons. right. apply IH, H.
Qed.

Lemma left_find_none (body : Body) (m : t) :
  left_find body m = None <-> body ∉ map fst m.
Proof.
  induction m as [|[b b'] m IH]; cbn [left_find map fst].
  - split; [|reflexivity]. intros _ H. apply elem_of_nil in H. contradiction.
  - rewrite not_elem_of_cons. destruct (Nat.eqb_spec b body) as [->|Hne].
    + split; [discriminate | intros [H _]; contradiction].
    + rewrite IH. split; [intros H; split; [congruence | exact H] | intros [_ H]; exact H].
Qed.

(** Erasing the brain of a body whose key is unique leaves the body unbound. *)
Lemma left_find_right_erase_own (body : Body) (brain : BrainPtr) (m : t) :
  NoDup (map fst m) -> left_find body m = Some brain ->
  left_find body (right_erase brain m) = None.
Proof.
  intros Hnd Hfind. induction m as [|[b b'] m IH]; [discriminate|].
  cbn [map fst] in Hnd. apply NoDup_cons in Hnd as [Hhead Hnd].
  cbn [left_find] in Hfind. cbn [right_erase].
  destruct (Nat.eqb_spec b body) as [->|Hne].
  - injection Hfind as ->. rewrite Nat.eqb_refl.
    apply left_find_none. intros Hin. apply Hhead.
    eapply elem_of_sublist; [exact Hin|].
    clear. induction m as [|[b br] m IH]; [constructor|].
    cbn [right_erase]. destruct (Nat.eqb br brain); cbn [map fst].
    + apply sublist_cons, IH.
    + apply sublist_skip, IH.
  - destruct (Nat.eqb b' brain); [apply IH; assumption|].
    cbn [left_find]. destruct (Nat.eqb_spec b body); [contradiction|].
    apply IH; assumption.
Qed.

End BrainBodyMapFacts.

Section MoreProperties.

Context (GE : GenomeEngine).

Import BrainBodyMapFacts.

(** *** The binding table *)

(** X1. An unbound actor asking while a brain waits gets the brain at the
    front of the queue: the queue loses its front, the actor is bound to
    that brain, every other body keeps its binding and nothing else
    changes. The front brain must not be bound already, or the bimap
    refuses the new entry. *)
Theorem get_organism_takes_front
  (agent : AgentBrain) (s : RTNEAT GE) (brain : BrainPtr) (rest : list BrainPtr) :
  have_organism agent s = false ->
  mWaitingBrainList s = brain :: rest ->
  BrainBodyMap.right_mem brain (mBrainBodyMap s) = false ->
  exists s', get_organism GE agent s = Ok brain s'
    /\ mWaitingBrainList s' = rest
    /\ BrainBodyMap.left_find (GetBody agent) (mBrainBodyMap s') = Some brain
    /\ (forall body, body <> GetBody agent ->
          BrainBodyMap.left_find body (mBrainBodyMap s') =
          BrainBodyMap.left_find body (mBrainBodyMap s))
    /\ s' = set_mBrainBodyMap (mBrainBodyMap s') (set_mWaitingBrainList rest s).
Proof.
  unfold have_organism. intros Hunbound Hqueue Hfree.
  destruct (BrainBodyMap.left_find (GetBody agent) (mBrainBodyMap s)) eqn:Hfind;
    [discriminate|].
  unfold get_organism. unfold_monad. rewrite Hfind, Hqueue.
  eexists. split; [reflexivity|]. fields.
  unfold BrainBodyMap.insert. cbn [fst snd]. rewrite Hfind, Hfree.
  split; [reflexivity|]. split.
  - apply (left_find_place_eq (GetBody agent, brain)). exact Hfind.
  - split; [|reflexivity]. intros body Hne.
    apply (left_find_place_ne body (GetBody agent, brain)). exact Hne.
Qed.

(** X2. Asking again gives the same brain: once [get_organism] has returned
    a brain to an actor from a consistent table, a second call returns that
    brain and changes nothing. *)
Theorem get_organism_idempotent
  (agent : AgentBrain) (s s' : RTNEAT GE) (brain : BrainPtr) :
  table_ok s ->
  get_organism GE agent s = Ok brain s' ->
  get_organism GE agent s' = Ok brain s'.
Proof.
  intros (Hnd & _ & Hfree) Hrun. rewrite Forall_forall in Hfree.
  assert (Hbound : BrainBodyMap.left_find (GetBody agent) (mBrainBodyMap s') = Some brain).
  { unfold get_organism in Hrun. unfold_monad.
    destruct (BrainBodyMap.left_find (GetBody agent) (mBrainBodyMap s)) as [b|] eqn:Hfind.
    - injection Hrun as Hb Hs. subst brain s'. exact Hfind.
    - destruct (mWaitingBrainList s) as [|b rest] eqn:Hqueue; [discriminate|].
      injection Hrun as Hb Hs. subst brain s'. fields.
      unfold BrainBodyMap.insert. cbn [fst snd]. rewrite Hfind.
      rewrite (Hfree b) by (apply elem_of_cons; left; reflexivity).
      apply (left_find_place_eq (GetBody agent, b)). exact Hfind. }
  unfold get_organism. unfold_monad. rewrite Hbound. reflexivity.
Qed.

(** X3. [get_organism] keeps the table consistent whenever it returns. *)
Theorem get_organism_keeps_table_ok
  (agent : AgentBrain) (s s' : RTNEAT GE) (brain : BrainPtr) :
  table_ok s ->
  get_organism GE agent s = Ok brain s' ->
  table_ok s'.
Proof.
  intros (Hnd & Hbrains & Hfree) Hrun.
  unfold get_organism in Hrun. unfold_monad.
  destruct (BrainBodyMap.left_find (GetBody agent) (mBrainBodyMap s)) as [b|] eqn:Hfind.
  - injection Hrun as _ <-. repeat split; assumption.
  - destruct (mWaitingBrainList s) as [|b rest] eqn:Hqueue; [discriminate|].
    injection Hrun as _ <-. unfold table_ok. fields. rewrite Forall_forall in *.
    apply NoDup_cons in Hnd as [Hhead Hnd].
    assert (Hb : BrainBodyMap.right_mem b (mBrainBodyMap s) = false)
      by (apply Hfree, elem_of_cons; left; reflexivity).
    unfold BrainBodyMap.insert. cbn [fst snd]. rewrite Hfind, Hb.
    split; [exact Hnd|]. split.
    + clear - Hbrains Hb. apply right_mem_false in Hb.
      induction (mBrainBodyMap s) as [|[b0 br0] m IH]; cbn [BrainBodyMap.place fst].
      * cbn. apply NoDup_singleton.
      * cbn [map snd] in Hbrains, Hb. apply NoDup_cons in Hbrains as [Hh Ht].
        apply not_elem_of_cons in Hb as [Hne Hb].
        destruct (Nat.ltb (GetBody agent) b0); cbn [map snd].
        -- apply NoDup_cons. split; [|apply NoDup_cons; split; assumption].
           apply not_elem_of_cons. split; assumption.
        -- apply NoDup_cons. split; [|apply IH; assumption].
           intros Hin. apply right_mem_elem_of in Hin.
           rewrite right_mem_place in Hin. cbn [snd] in Hin.
           apply orb_true_iff in Hin as [Hin|Hin].
           ++ apply Nat.eqb_eq in Hin. congruence.
           ++ apply right_mem_elem_of in Hin. contradiction.
    + intros br Hin. rewrite right_mem_place. cbn [snd].
      rewrite (Hfree br) by (apply elem_of_cons; right; exact Hin).
      destruct (Nat.eqb_spec b br) as [->|_]; [contradiction | reflexivity].
Qed.

(** X4. Releasing for an actor that holds no brain: a debug build stops at
    the assertion of line 131; a release build goes on to read through the
    end iterator, which is undefined. *)
Theorem release_organism_unbound (agent : AgentBrain) (s : RTNEAT GE) :
  have_organism agent s = false ->
  release_organism GE debug_build agent s = AssertFailed "found != mBrainBodyMap.left.end()"
  /\ release_organism GE release_build agent s
     = Undefined "found->second with found == mBrainBodyMap.left.end()".
Proof.
  unfold have_organism. intros Hunbound.
  destruct (BrainBodyMap.left_find (GetBody agent) (mBrainBodyMap s)) eqn:Hfind;
    [discriminate|].
  unfold release_organism, mbind, M_bind, bind, get, AssertMsg.
  rewrite Hfind. split; reflexivity.
Qed.

(** X5. [deleteUnit] detaches one brain and only that one: the brain ends
    bound to no body, is appended to the waiting queue and counted, and every
    body bound to another brain keeps its binding. No test is made that the
    brain was bound or was not waiting already. *)
Theorem deleteUnit_detaches_one (brain : BrainPtr) (s : RTNEAT GE) :
  exists s', deleteUnit GE brain s = Ok tt s'
    /\ mWaitingBrainList s' = mWaitingBrainList s ++ [brain]
    /\ mTotalUnitsDeleted s' = (mTotalUnitsDeleted s + 1)%N
    /\ BrainBodyMap.right_mem brain (mBrainBodyMap s') = false
    /\ (forall body br, BrainBodyMap.left_find body (mBrainBodyMap s) = Some br ->
          br <> brain ->
          BrainBodyMap.left_find body (mBrainBodyMap s') = Some br)
    /\ (forall br, br <> brain ->
          BrainBodyMap.right_mem br (mBrainBodyMap s') =
          BrainBodyMap.right_mem br (mBrainBodyMap s)).
Proof.
  eexists. split; [apply deleteUnit_eq|]. fields.
  split; [reflexivity|]. split; [reflexivity|].
  split; [apply right_erase_unbinds|]. split.
  - intros body br Hfind Hne. apply left_find_right_erase; assumption.
  - intros br Hne. apply right_mem_right_erase_ne, Hne.
Qed.

(** X6. [deleteUnit] on a brain that is not waiting keeps the table
    consistent. *)
Theorem deleteUnit_keeps_table_ok (brain : BrainPtr) (s : RTNEAT GE) :
  table_ok s ->
  brain ∉ mWaitingBrainList s ->
  exists s', deleteUnit GE brain s = Ok tt s' /\ table_ok s'.
Proof.
  intros (Hnd & Hbrains & Hfree) Hnew. rewrite Forall_forall in Hfree.
  eexists. split; [apply deleteUnit_eq|]. unfold table_ok. fields. rewrite Forall_forall.
  split; [|split].
  - apply NoDup_app. split; [exact Hnd|]. split; [|apply NoDup_singleton].
    intros x Hx Hx'. apply list_elem_of_singleton in Hx'. subst x. contradiction.
  - eapply sublist_NoDup; [exact Hbrains | apply right_erase_snd_sublist].
  - intros br Hin. apply elem_of_app in Hin as [Hin|Hin].
    + destruct (Nat.eq_dec br brain) as [->|Hne]; [contradiction|].
      rewrite right_mem_right_erase_ne by exact Hne. apply Hfree, Hin.
    + apply list_elem_of_singleton in Hin. subst br. apply right_erase_unbinds.
Qed.


(** *** Construction *)

Lemma construct_loop_brains (organisms : list OrgPtr) (score : Q)
  (l : list nat) (s : RTNEAT GE) :
  NoDup l ->
  exists hb,
    for_each GE l (RTNEAT_construct_brain GE organisms score) s
    = Ok tt (set_mWaitingBrainList (mWaitingBrainList s ++ l) (set_mBrains hb s))
    /\ (forall i, i ∈ l -> hb !!! i = mkPyOrganism (nth i organisms 0%nat) score)
    /\ (forall i, i ∉ l -> hb !!! i = mBrains s !!! i).
Proof.
  revert s. induction l as [|i l IH]; intros s Hnd.
  - exists (mBrains s). split; [cbn; rewrite app_nil_r; destruct s; reflexivity|].
    split; [|reflexivity]. intros i Hi. apply elem_of_nil in Hi. contradiction.
  - apply NoDup_cons in Hnd as [Hhead Hnd].
    cbn [for_each]. unfold bind, RTNEAT_construct_brain at 1. unfold_monad.
    match goal with |- context [for_each GE l _ ?s1] =>
      destruct (IH s1 Hnd) as (hb & -> & Hin & Hout) end.
    exists hb. fields. split; [rewrite <- app_assoc; reflexivity|]. split.
    + intros j Hj. apply elem_of_cons in Hj as [->|Hj]; [|apply Hin, Hj].
      rewrite (Hout i Hhead). apply lookup_total_insert_eq.
    + intros j Hj. apply not_elem_of_cons in Hj as [Hne Hj].
      rewrite (Hout j Hj). apply lookup_total_insert_ne. congruence.
Qed.

(** X7. What either constructor leaves behind when the population has the
    announced size, in any build: one brain per organism, brain [i] wrapping
    the [i]-th organism, all of them waiting in that order and none bound;
    [mBrainList] is empty, the offspring counter is the population size and
    [time_alive_minimum] is 1. The table is consistent, and a brain can be
    handed out iff the population is not empty. *)
Theorem RTNEAT_construct_brains (armed : string -> bool)
  (g : Population GE * gmap OrgPtr Organism) (score : Q) (s : RTNEAT GE) :
  exists s',
    RTNEAT_construct GE armed g (N.of_nat (length (pop_organisms GE (fst g)))) score s
      = Ok tt s'
    /\ genomes s' = g
    /\ mWaitingBrainList s' = seq 0 (length (pop_organisms GE (fst g)))
    /\ (forall i, (i < length (pop_organisms GE (fst g)))%nat ->
          mBrains s' !!! i = mkPyOrganism (nth i (pop_organisms GE (fst g)) 0%nat) score)
    /\ mBrainList s' = []
    /\ mBrainBodyMap s' = []
    /\ mOffspringCount s' = N.of_nat (length (pop_organisms GE (fst g)))
    /\ NEAT_time_alive_minimum s' = 1%Z
    /\ table_ok s'
    /\ ready s' = negb (Nat.eqb (length (pop_organisms GE (fst g))) 0).
Proof.
  unfold RTNEAT_construct. unfold_monad. unfold AssertMsg. rewrite N.eqb_refl.
  assert (Hloop := construct_loop_brains (pop_organisms GE (fst g)) score
                     (seq 0 (length (pop_organisms GE (fst g))))).
  destruct (armed _);
    match goal with |- context [for_each GE _ _ ?s1] =>
      destruct (Hloop s1 (NoDup_seq _ _)) as (hb & -> & Hin & _) end;
    (eexists; split; [reflexivity|]); unfold table_ok, ready; fields;
    (split; [destruct g; reflexivity|]); (split; [reflexivity|]);
    (split; [intros i Hi; apply Hin, elem_of_seq; lia|]);
    repeat (split; [reflexivity|]);
    (split; [split; [apply NoDup_seq | split; [constructor | apply Forall_forall; reflexivity]]|]);
    destruct (length (pop_organisms GE (fst g))); reflexivity.
Qed.

(** X8. The size check of the constructors: with a population of another
    size than announced, a debug build stops at the assertion of lines 52
    and 79, before any brain is made; a release build constructs all the
    same. *)
Theorem RTNEAT_construct_size_mismatch
  (g : Population GE * gmap OrgPtr Organism) (population_size : N) (score : Q)
  (s : RTNEAT GE) :
  N.of_nat (length (pop_organisms GE (fst g))) <> population_size ->
  RTNEAT_construct GE debug_build g population_size score s
    = AssertFailed "population has the wrong number of organisms"
  /\ exists s', RTNEAT_construct GE release_build g population_size score s = Ok tt s'
       /\ mWaitingBrainList s' = seq 0 (length (pop_organisms GE (fst g)))
       /\ mOffspringCount s' = N.of_nat (length (pop_organisms GE (fst g))).
Proof.
  intros Hsize. apply N.eqb_neq in Hsize. split.
  - unfold RTNEAT_construct, mbind, M_bind, bind, modify, AssertMsg, debug_build.
    rewrite Hsize. reflexivity.
  - unfold RTNEAT_construct. unfold_monad.
    match goal with |- context [for_each GE ?l _ ?s1] =>
      destruct (construct_loop GE (pop_organisms GE (fst g)) score l s1) as (hb & ->) end.
    eexists. split; [reflexivity|]. split; reflexivity.
Qed.


(** *** The tick *)

Lemma detach_loop_exact (Find : Body -> bool) (l A : list (Body * BrainPtr))
  (s : RTNEAT GE) :
  mBrainBodyMap s = A ++ l ->
  NoDup (map snd (A ++ l)) ->
  for_each GE l (ProcessTick_detach GE Find) s =
    Ok tt (set_mTotalUnitsDeleted
             (mTotalUnitsDeleted s
              + N.of_nat (length (filter (fun entry => negb (Find (fst entry)) = true) l)))
             (set_mBrainBodyMap
                (A ++ filter (fun entry => Find (fst entry) = true) l)
                (set_mWaitingBrainList
                   (mWaitingBrainList s
                    ++ map snd (filter (fun entry => negb (Find (fst entry)) = true) l))
                   s))).
Proof.
  revert A s. induction l as [|entry l IH]; intros A s Hmap Hnd.
  - cbn. rewrite N.add_0_r, !app_nil_r. rewrite app_nil_r in Hmap.
    destruct s. cbn in Hmap. subst. reflexivity.
  - cbn [for_each]. unfold bind, ProcessTick_detach at 1. rewrite !filter_cons.
    destruct (Find (fst entry)) eqn:Halive; cbn [negb].
    + rewrite decide_False by discriminate. rewrite decide_True by reflexivity.
      unfold mret, M_ret, ret.
      rewrite (IH (A ++ [entry]) s).
      * rewrite <- app_assoc. reflexivity.
      * rewrite Hmap, <- app_assoc. reflexivity.
      * rewrite <- app_assoc. exact Hnd.
    + rewrite decide_True by reflexivity. rewrite decide_False by discriminate.
      rewrite deleteUnit_eq.
      assert (Herase : BrainBodyMap.right_erase (snd entry) (mBrainBodyMap s) = A ++ l).
      { rewrite Hmap, right_erase_app. destruct entry as [b br]. cbn [snd].
        cbn [BrainBodyMap.right_erase]. rewrite Nat.eqb_refl.
        rewrite map_app in Hnd. cbn [map snd] in Hnd.
        apply NoDup_app in Hnd as (_ & Hdisj & Hnd).
        apply NoDup_cons in Hnd as [Hhead _].
        rewrite !right_erase_absent; [reflexivity | exact Hhead |].
        intros Hin. apply (Hdisj br Hin). apply elem_of_cons. left. reflexivity. }
      rewrite (IH A).
      * fields. cbn [map snd length]. rewrite <- app_assoc. cbn [app].
        replace (mTotalUnitsDeleted s + 1 +
                 N.of_nat (length (filter (fun e => negb (Find (fst e)) = true) l)))%N
          with (mTotalUnitsDeleted s +
                N.of_nat (S (length (filter (fun e => negb (Find (fst e)) = true) l))))%N
          by lia.
        reflexivity.
      * fields. exact Herase.
      * rewrite !map_app in *. cbn [map] in Hnd.
        apply NoDup_app in Hnd as (HA & Hdisj & Hl).
        apply NoDup_cons in Hl as [_ Hl].
        apply NoDup_app. split; [exact HA|]. split; [|exact Hl].
        intros x Hx Hx'. apply (Hdisj x Hx). apply elem_of_cons. right. exact Hx'.
Qed.

Lemma ProcessTick_release_exact (incAmt : Q) (Find : Body -> bool) (s : RTNEAT GE) :
  NEAT_time_alive_minimum s <> 0%Z ->
  NoDup (map snd (mBrainBodyMap s)) ->
  exists h,
    let s1 :=
      set_mOrganisms h
        (set_mTotalUnitsDeleted
           (mTotalUnitsDeleted s + N.of_nat (length (dead_entries Find s)))
           (set_mBrainBodyMap
              (filter (fun entry => Find (fst entry) = true) (mBrainBodyMap s))
              (set_mWaitingBrainList
                 (mWaitingBrainList s ++ map snd (dead_entries Find s))
                 (set_mEvolutionTickCount (mEvolutionTickCount s + 1)
                    (set_mSpawnTickCount (mSpawnTickCount s + 1) s))))) in
    ProcessTick GE release_build incAmt Find s =
      if judgment_due Find s
      then bind GE (evolveAll GE release_build) (fun _ => modify GE (set_mEvolutionTickCount 0)) s1
      else Ok tt s1.
Proof.
  intros Htam Hnd. unfold ProcessTick.
  unfold mbind, M_bind. unfold bind at 1 2 3 4. unfold modify at 1 2. unfold get at 1.
  cbn beta iota.
  rewrite (detach_loop_exact Find _ []); [|reflexivity | exact Hnd].
  unfold bind at 1.
  match goal with |- context [evaluateAll GE release_build ?s0] =>
    destruct (evaluateAll_release_total GE s0 Htam) as (h & ->) end.
  exists h. unfold bind at 1. unfold get at 1. cbn beta iota zeta.
  unfold mret, M_ret, ret, judgment_due, dead_entries. fields. cbn [app].
  destruct (_ && _); reflexivity.
Qed.

(** X9. On a tick that does not evolve (assertions compiled out), with no
    brain bound to two bodies: exactly the bindings whose body the
    simulation no longer holds are removed, their brains are appended to the
    waiting queue in the order of the table, and each is counted as a
    deletion; the bindings of the other bodies are kept, in order. *)
Theorem ProcessTick_detaches_dead (incAmt : Q) (Find : Body -> bool) (s : RTNEAT GE) :
  NEAT_time_alive_minimum s <> 0%Z ->
  NoDup (map snd (mBrainBodyMap s)) ->
  judgment_due Find s = false ->
  exists s', ProcessTick GE release_build incAmt Find s = Ok tt s'
    /\ mBrainBodyMap s' = filter (fun entry => Find (fst entry) = true) (mBrainBodyMap s)
    /\ mWaitingBrainList s' = mWaitingBrainList s ++ map snd (dead_entries Find s)
    /\ mTotalUnitsDeleted s'
       = (mTotalUnitsDeleted s + N.of_nat (length (dead_entries Find s)))%N
    /\ mSpawnTickCount s' = (mSpawnTickCount s + 1)%N.
Proof.
  intros Htam Hnd Hquiet.
  destruct (ProcessTick_release_exact incAmt Find s Htam Hnd) as (h & Hrun).
  cbn zeta in Hrun. rewrite Hrun, Hquiet.
  eexists. split; [reflexivity|]. fields.
  split; [reflexivity|]. split; [reflexivity|]. split; reflexivity.
Qed.


(** *** The hot swap *)

Lemma hot_swap_exact (l : list BrainPtr) (deadorg new_org : OrgPtr) (s : RTNEAT GE) :
  evolveAll_hot_swap GE release_build l deadorg new_org s =
    Ok tt match first_wrapping s deadorg l with
          | None => s
          | Some iter =>
              set_mTotalUnitsDeleted (mTotalUnitsDeleted s + 1)
                (set_mBrainBodyMap (BrainBodyMap.right_erase iter (mBrainBodyMap s))
                   (set_mWaitingBrainList (mWaitingBrainList s ++ [iter])
                      (set_mBrains
                         (<[iter := mkPyOrganism new_org (mAbsoluteScore (mBrains s !!! iter))]>
                            (mBrains s)) s)))
          end.
Proof.
  induction l as [|iter l IH]; [reflexivity|].
  cbn [evolveAll_hot_swap first_wrapping find]. unfold_monad.
  destruct (GetOrganism s iter =? deadorg)%nat; [|exact IH].
  rewrite AssertMsg_release, deleteUnit_eq. reflexivity.
Qed.

Lemma first_wrapping_spec (s : RTNEAT GE) (org : OrgPtr) (l : list BrainPtr) :
  match first_wrapping s org l with
  | Some iter =>
      exists before after, l = before ++ iter :: after
        /\ GetOrganism s iter = org
        /\ forall other, other ∈ before -> GetOrganism s other <> org
  | None => forall other, other ∈ l -> GetOrganism s other <> org
  end.
Proof.
  unfold first_wrapping. induction l as [|iter l IH]; cbn [find].
  - intros other Hin. apply elem_of_nil in Hin. contradiction.
  - destruct (Nat.eqb_spec (GetOrganism s iter) org) as [Heq|Hne].
    + exists [], l. split; [reflexivity|]. split; [exact Heq|].
      intros other Hin. apply elem_of_nil in Hin. contradiction.
    + destruct (find _ l) as [found|].
      * destruct IH as (before & after & -> & Hfound & Hbefore).
        exists (iter :: before), after. split; [reflexivity|]. split; [exact Hfound|].
        intros other Hin. apply elem_of_cons in Hin as [->|Hin]; [exact Hne|].
        apply Hbefore, Hin.
      * intros other Hin. apply elem_of_cons in Hin as [->|Hin]; [exact Hne|].
        apply IH, Hin.
Qed.

(** What one cycle without assertions does to the brains. *)
Lemma evolveAll_swap (s : RTNEAT GE) :
  exists s', evolveAll GE release_build s = Ok tt s'
    /\ match fst (removal s) with
       | Some deadorg =>
           match first_wrapping s deadorg (mBrainList s) with
           | Some iter =>
               mBrains s' =
                 <[iter := mkPyOrganism (fst (offspring s))
                             (mAbsoluteScore (mBrains s !!! iter))]> (mBrains s)
               /\ mWaitingBrainList s' = mWaitingBrainList s ++ [iter]
               /\ mBrainBodyMap s' = BrainBodyMap.right_erase iter (mBrainBodyMap s)
               /\ mTotalUnitsDeleted s' = (mTotalUnitsDeleted s + 1)%N
           | None =>
               mBrains s' = mBrains s
               /\ mWaitingBrainList s' = mWaitingBrainList s
               /\ mBrainBodyMap s' = mBrainBodyMap s
               /\ mTotalUnitsDeleted s' = mTotalUnitsDeleted s
           end
       | None =>
           mBrains s' = mBrains s
           /\ mWaitingBrainList s' = mWaitingBrainList s
           /\ mBrainBodyMap s' = mBrainBodyMap s
           /\ mTotalUnitsDeleted s' = mTotalUnitsDeleted s
       end.
Proof.
  unfold evolveAll. unfold_monad. unfold offspring, removal.
  destruct (remove_worst GE (NEAT_time_alive_minimum s) (genomes s)) as [[deadorg|] g1].
  - cbn [fst snd]. rewrite estimate_loop_exact. cbn beta iota.
    rewrite speciate_exact. cbn beta iota.
    unfold compat_adjust_frequency. fields.
    destruct (_ =? 0)%N; rewrite hot_swap_exact;
      unfold first_wrapping, GetOrganism, genomes; fields;
      rewrite <- ?surjective_pairing;
      (destruct (find _ (mBrainList s)) as [iter|];
       (eexists; split; [reflexivity|]); fields;
       (split; [reflexivity|]); (split; [reflexivity|]); split; reflexivity).
  - cbn [fst snd]. eexists. split; [reflexivity|]. fields.
    split; [reflexivity|]. split; [reflexivity|]. split; reflexivity.
Qed.

(** X10. What an evolution cycle (assertions compiled out) does to the
    brains. If [remove_worst] removed an organism and some brain of
    [mBrainList] wraps it, the first such brain is given the organism that
    [reproduce_one] returned in this cycle, keeps its absolute score, is
    appended to the waiting queue, loses its body and is counted as a
    deletion; every other brain is left as it was. If no organism was
    removed, or no brain of [mBrainList] wraps the removed one, the cycle
    leaves brains, queue, bindings and deletion counter unchanged. *)
Theorem evolveAll_hot_swaps_first (s : RTNEAT GE) :
  exists s', evolveAll GE release_build s = Ok tt s'
    /\ mBrainList s' = mBrainList s
    /\ cycle_of s s'
    /\ match fst (removal s) with
       | Some deadorg =>
           match first_wrapping s deadorg (mBrainList s) with
           | Some iter =>
               mBrains s' =
                 <[iter := mkPyOrganism (fst (offspring s))
                             (mAbsoluteScore (mBrains s !!! iter))]> (mBrains s)
               /\ GetOrganism s' iter = fst (offspring s)
               /\ (forall other, other <> iter -> mBrains s' !!! other = mBrains s !!! other)
               /\ mWaitingBrainList s' = mWaitingBrainList s ++ [iter]
               /\ mBrainBodyMap s' = BrainBodyMap.right_erase iter (mBrainBodyMap s)
               /\ mTotalUnitsDeleted s' = (mTotalUnitsDeleted s + 1)%N
               /\ exists before after, mBrainList s = before ++ iter :: after
                    /\ GetOrganism s iter = deadorg
                    /\ forall other, other ∈ before -> GetOrganism s other <> deadorg
           | None =>
               mBrains s' = mBrains s
               /\ mWaitingBrainList s' = mWaitingBrainList s
               /\ mBrainBodyMap s' = mBrainBodyMap s
               /\ mTotalUnitsDeleted s' = mTotalUnitsDeleted s
               /\ forall other, other ∈ mBrainList s -> GetOrganism s other <> deadorg
           end
       | None =>
           mBrains s' = mBrains s
           /\ mWaitingBrainList s' = mWaitingBrainList s
           /\ mBrainBodyMap s' = mBrainBodyMap s
           /\ mTotalUnitsDeleted s' = mTotalUnitsDeleted s
       end.
Proof.
  destruct (evolveAll_swap s) as (s' & Hrun & Hswap).
  destruct (evolveAll_cycle GE s) as (s1 & Hrun1 & Hof & _ & Hlist & _).
  assert (s1 = s') by congruence. subst s1.
  exists s'. split; [exact Hrun|]. split; [exact Hlist|]. split; [exact Hof|].
  destruct (fst (removal s)) as [deadorg|]; [|exact Hswap].
  assert (Hspec := first_wrapping_spec s deadorg (mBrainList s)).
  destruct (first_wrapping s deadorg (mBrainList s)) as [iter|].
  - destruct Hswap as (Hbrains & Hqueue & Hmap & Hdel).
    split; [exact Hbrains|]. split.
    { unfold GetOrganism. rewrite Hbrains, lookup_total_insert_eq. reflexivity. }
    split.
    { intros other Hne. rewrite Hbrains. apply lookup_total_insert_ne. congruence. }
    split; [exact Hqueue|]. split; [exact Hmap|]. split; [exact Hdel | exact Hspec].
  - destruct Hswap as (Hbrains & Hqueue & Hmap & Hdel).
    split; [exact Hbrains|]. split; [exact Hqueue|]. split; [exact Hmap|].
    split; [exact Hdel | exact Hspec].
Qed.


Lemma hot_swap_debug (l : list BrainPtr) (deadorg new_org : OrgPtr) (s : RTNEAT GE) :
  evolveAll_hot_swap GE debug_build l deadorg new_org s =
    match first_wrapping s deadorg l with
    | None => Ok tt s
    | Some _ => AssertFailed ("FIXME/TODO: (" ++ "*iter)->m_Stats.resetAll();")
    end.
Proof.
  induction l as [|iter l IH]; [reflexivity|].
  cbn [evolveAll_hot_swap first_wrapping find]. unfold_monad.
  destruct (GetOrganism s iter =? deadorg)%nat; [reflexivity | exact IH].
Qed.

(** X11. An evolution cycle with assertions enabled: it stops at the
    assertion of line 379 exactly when an organism was removed and a brain
    of [mBrainList] wraps it, that is exactly when a hot swap is due; in
    every other case it does what the build without assertions does. *)
Theorem evolveAll_debug_build (s : RTNEAT GE) :
  match fst (remove_worst GE (NEAT_time_alive_minimum s) (genomes s)) with
  | Some deadorg =>
      match first_wrapping s deadorg (mBrainList s) with
      | Some _ =>
          evolveAll GE debug_build s
          = AssertFailed ("FIXME/TODO: (" ++ "*iter)->m_Stats.resetAll();")
      | None => evolveAll GE debug_build s = evolveAll GE release_build s
      end
  | None => evolveAll GE debug_build s = evolveAll GE release_build s
  end.
Proof.
  unfold evolveAll. unfold_monad.
  destruct (remove_worst GE (NEAT_time_alive_minimum s) (genomes s)) as [[deadorg|] g1];
    [|reflexivity].
  cbn [fst snd].
  match goal with |- context [for_each GE ?l _ ?s1] =>
    destruct (estimate_loop GE l s1) as (g2 & evs & Hest & _) end.
  assert (Hwrap : forall s1 : RTNEAT GE, mBrains s1 = mBrains s ->
            first_wrapping s1 deadorg (mBrainList s) = first_wrapping s deadorg (mBrainList s)).
  { intros s1 Hb. unfold first_wrapping, GetOrganism. rewrite Hb. reflexivity. }
  destruct (first_wrapping s deadorg (mBrainList s)) as [iter|] eqn:Hfirst;
    rewrite Hest; cbn beta iota;
    match goal with |- context [evolveAll_speciate GE ?t ?f ?s1] =>
      destruct (speciate_release GE t f s1) as (g3 & post & thr & -> & _) end;
    cbn beta iota; rewrite hot_swap_debug; fields;
    rewrite ?hot_swap_exact; fields;
    rewrite !Hwrap by reflexivity; reflexivity.
Qed.

(** X12. After a hot swap the actor that held the swapped brain holds none,
    and the next brain it is given is the front of the waiting queue as the
    cycle left it: the brain that waited first before the cycle, or, when
    none waited, the swapped brain itself. That brain wraps the organism
    that [reproduce_one] returned in the cycle, before and after the actor
    asks. *)
Theorem evolveAll_then_get_organism
  (agent : AgentBrain) (s : RTNEAT GE) (deadorg : OrgPtr) (iter : BrainPtr) :
  table_ok s ->
  NoDup (map fst (mBrainBodyMap s)) ->
  BrainBodyMap.left_find (GetBody agent) (mBrainBodyMap s) = Some iter ->
  fst (remove_worst GE (NEAT_time_alive_minimum s) (genomes s)) = Some deadorg ->
  first_wrapping s deadorg (mBrainList s) = Some iter ->
  exists s' s'',
    evolveAll GE release_build s = Ok tt s'
    /\ have_organism agent s' = false
    /\ get_organism GE agent s' = Ok (hd iter (mWaitingBrainList s)) s''
    /\ mWaitingBrainList s'' = tl (mWaitingBrainList s ++ [iter])
    /\ have_organism agent s'' = true
    /\ (mWaitingBrainList s = [] -> get_organism GE agent s' = Ok iter s'')
    /\ mBrains s' =
         <[iter := mkPyOrganism (fst (offspring s))
                     (mAbsoluteScore (mBrains s !!! iter))]> (mBrains s)
    /\ mBrains s'' = mBrains s'
    /\ GetOrganism s' iter = fst (offspring s)
    /\ GetOrganism s'' iter = fst (offspring s).
Proof.
  intros (Hnd & Hbrains & Hfree) Hbodies Hbound Hdead Hfirst.
  rewrite Forall_forall in Hfree.
  destruct (evolveAll_swap s) as (s' & Hrun & Hswap).
  unfold removal in Hswap. rewrite Hdead in Hswap. cbn beta iota in Hswap.
  rewrite Hfirst in Hswap. destruct Hswap as (Hwraps & Hqueue & Hmap & _).
  assert (Hgone : BrainBodyMap.left_find (GetBody agent) (mBrainBodyMap s') = None).
  { rewrite Hmap. apply left_find_right_erase_own; assumption. }
  set (front := hd iter (mWaitingBrainList s)).
  assert (Hfront : mWaitingBrainList s' = front :: tl (mWaitingBrainList s ++ [iter])).
  { rewrite Hqueue. subst front. destruct (mWaitingBrainList s); reflexivity. }
  assert (Hunbound : BrainBodyMap.right_mem front (mBrainBodyMap s') = false).
  { rewrite Hmap. destruct (Nat.eq_dec front iter) as [->|Hne].
    - apply right_erase_unbinds.
    - rewrite right_mem_right_erase_ne by exact Hne.
      apply Hfree. subst front.
      destruct (mWaitingBrainList s) as [|b rest]; [exfalso; apply Hne; reflexivity|].
      apply elem_of_cons. left. reflexivity. }
  assert (Hnew : GetOrganism s' iter = fst (offspring s)).
  { unfold GetOrganism. rewrite Hwraps, lookup_total_insert_eq. reflexivity. }
  exists s'. unfold have_organism, get_organism. unfold_monad.
  rewrite Hgone, Hfront. eexists. split; [exact Hrun|]. split; [reflexivity|].
  split; [reflexivity|]. fields. split; [reflexivity|].
  unfold BrainBodyMap.insert. cbn [fst snd]. rewrite Hgone, Hunbound.
  rewrite (left_find_place_eq (GetBody agent, front)) by exact Hgone.
  split; [reflexivity|]. split.
  { intros Hnone. subst front. rewrite Hnone. reflexivity. }
  split; [exact Hwraps|]. split; [reflexivity|]. split; [exact Hnew|].
  unfold GetOrganism in *. fields. exact Hnew.
Qed.

(** *** The aggregation pass *)

Lemma evaluateAll_sample_exact (iter : BrainPtr) (s : RTNEAT GE) :
  NEAT_time_alive_minimum s <> 0%Z ->
  evaluateAll_sample GE release_build iter s =
    Ok tt (if ages s iter
           then set_time_alive (GetOrganism s iter)
                  (time_alive (mOrganisms s !!! GetOrganism s iter) + 1) s
           else s).
Proof.
  intros Htam. unfold evaluateAll_sample, ages. unfold_monad.
  destruct (eligible s iter); [|reflexivity].
  apply Z.eqb_neq in Htam. rewrite Htam. cbn [andb].
  destruct (_ && _); reflexivity.
Qed.

Lemma stats_loop_exact (l : list BrainPtr) (s : RTNEAT GE) :
  NEAT_time_alive_minimum s <> 0%Z ->
  NoDup (map (GetOrganism s) l) ->
  exists h', for_each GE l (evaluateAll_sample GE release_build) s = Ok tt (set_mOrganisms h' s)
    /\ (forall iter, iter ∈ l ->
          h' !!! GetOrganism s iter =
            let o := mOrganisms s !!! GetOrganism s iter in
            if ages s iter then mkOrganism (fitness o) (time_alive o + 1) (smited o) else o)
    /\ (forall p, p ∉ map (GetOrganism s) l -> h' !!! p = mOrganisms s !!! p).
Proof.
  revert s. induction l as [|iter l IH]; intros s Htam Hnd.
  - exists (mOrganisms s). split; [destruct s; reflexivity|]. split; [|reflexivity].
    intros iter Hin. apply elem_of_nil in Hin. contradiction.
  - cbn [map] in Hnd. apply NoDup_cons in Hnd as [Hhead Hnd].
    cbn [for_each]. unfold bind. rewrite evaluateAll_sample_exact by exact Htam.
    set (s1 := if ages s iter
               then set_time_alive (GetOrganism s iter)
                      (time_alive (mOrganisms s !!! GetOrganism s iter) + 1) s
               else s).
    assert (Hs1 : s1 = set_mOrganisms (mOrganisms s1) s).
    { subst s1. destruct (ages s iter); [reflexivity | destruct s; reflexivity]. }
    assert (Hget : forall i, GetOrganism s1 i = GetOrganism s i).
    { intros i. rewrite Hs1. reflexivity. }
    assert (Htam1 : NEAT_time_alive_minimum s1 = NEAT_time_alive_minimum s).
    { rewrite Hs1. reflexivity. }
    assert (Hother : forall p, p <> GetOrganism s iter ->
              mOrganisms s1 !!! p = mOrganisms s !!! p).
    { intros p Hne. subst s1. destruct (ages s iter); [|reflexivity].
      unfold set_time_alive. fields. apply lookup_total_insert_ne. congruence. }
    destruct (IH s1) as (h2 & Hrun & Hin2 & Hout2).
    { rewrite Htam1. exact Htam. }
    { erewrite map_ext; [exact Hnd|]. intros i. apply Hget. }
    exists h2. split; [rewrite Hrun, Hs1; reflexivity|]. split.
    + intros j Hj. apply elem_of_cons in Hj as [->|Hj].
      * rewrite <- (Hget iter), Hout2.
        -- rewrite Hget. subst s1. cbn zeta. destruct (ages s iter); [|reflexivity].
           unfold set_time_alive. fields. apply lookup_total_insert_eq.
        -- rewrite Hget. erewrite map_ext; [exact Hhead|]. intros i. apply Hget.
      * assert (Hne : GetOrganism s j <> GetOrganism s iter).
        { intros Heq. apply Hhead. rewrite <- Heq.
          apply list_elem_of_fmap. exists j. split; [reflexivity | exact Hj]. }
        specialize (Hin2 j Hj). cbn zeta in Hin2. rewrite !Hget in Hin2.
        rewrite (Hother _ Hne) in Hin2.
        replace (ages s1 j) with (ages s j) in Hin2; [exact Hin2|].
        unfold ages, eligible. rewrite !Hget, Htam1, (Hother _ Hne). reflexivity.
    + intros p Hp. cbn [map] in Hp. apply not_elem_of_cons in Hp as [Hne Hp].
      rewrite Hout2; [apply Hother, Hne|].
      erewrite map_ext; [exact Hp|]. intros i. apply Hget.
Qed.

Lemma evaluateAll_ages_state (s : RTNEAT GE) :
  NEAT_time_alive_minimum s <> 0%Z ->
  one_brain_per_organism s ->
  exists h', evaluateAll GE release_build s = Ok tt (set_mOrganisms h' s)
    /\ (forall iter, iter ∈ mBrainList s ->
          time_alive (h' !!! GetOrganism s iter) =
            (time_alive (mOrganisms s !!! GetOrganism s iter)
             + if ages s iter then 1 else 0)%Z
          /\ smited (h' !!! GetOrganism s iter)
             = smited (mOrganisms s !!! GetOrganism s iter))
    /\ (forall p, (forall iter, iter ∈ mBrainList s -> GetOrganism s iter <> p) ->
          h' !!! p = mOrganisms s !!! p).
Proof.
  intros Htam Hnd. unfold evaluateAll, evaluateAll_stats, evaluateAll_normalize.
  unfold mbind, M_bind. unfold bind at 1 2 3. unfold get at 1.
  destruct (stats_loop_exact (mBrainList s) s Htam Hnd) as (h1 & -> & Hin1 & Hout1).
  cbn beta iota. rewrite AssertMsg_release.
  unfold bind at 1 2. unfold get at 1.
  rewrite scan_loop_release.
  rewrite normalize_unfold.
  destruct (normalize_loop GE
              (fst (scan_scores (set_mOrganisms h1 s) (mBrainList (set_mOrganisms h1 s))
                      (0, - FLT_MAX)%Q))
              (mBrainList (set_mOrganisms h1 s)) (set_mOrganisms h1 s))
    as (h2 & -> & Hr2 & _ & Hframe).
  { exact Hnd. }
  exists h2. split; [reflexivity|]. fields. split.
  - intros iter Hin. destruct (Hr2 (GetOrganism s iter)) as [-> ->]. fields.
    rewrite (Hin1 iter Hin). cbn zeta.
    destruct (ages s iter); cbn [time_alive smited]; split; try reflexivity; lia.
  - intros p Hp. rewrite Hframe.
    + fields. apply Hout1. intros Hin. apply list_elem_of_fmap in Hin as (iter & -> & Hin).
      exact (Hp iter Hin eq_refl).
    + intros iter Hin _. exact (Hp iter Hin).
Qed.

(** X13. Which organisms a pass ages (assertions compiled out, a non-zero
    [time_alive_minimum], one brain per organism): the organism of a brain of
    [mBrainList] has [time_alive] incremented by one exactly when it is
    eligible and its [time_alive] is a positive multiple of the minimum;
    [smited] is never changed, and an organism that no brain of [mBrainList]
    wraps is left as it was. *)
Theorem evaluateAll_ages (s : RTNEAT GE) :
  NEAT_time_alive_minimum s <> 0%Z ->
  one_brain_per_organism s ->
  exists s', evaluateAll GE release_build s = Ok tt s'
    /\ (forall iter, iter ∈ mBrainList s ->
          time_alive (organism_in s s' iter) =
            (time_alive (organism_in s s iter) + if ages s iter then 1 else 0)%Z
          /\ smited (organism_in s s' iter) = smited (organism_in s s iter))
    /\ (forall p, (forall iter, iter ∈ mBrainList s -> GetOrganism s iter <> p) ->
          mOrganisms s' !!! p = mOrganisms s !!! p).
Proof.
  intros Htam Hnd.
  destruct (evaluateAll_ages_state s Htam Hnd) as (h' & Hrun & Hin & Hout).
  exists (set_mOrganisms h' s). split; [exact Hrun|]. split; [exact Hin | exact Hout].
Qed.

(** X14. With [time_alive_minimum] at 1, the value the constructors set, a
    pass increments the [time_alive] of every eligible organism: an organism
    that has reached age 1 is aged by every later pass. *)
Theorem evaluateAll_ages_every_pass (s : RTNEAT GE) :
  NEAT_time_alive_minimum s = 1%Z ->
  one_brain_per_organism s ->
  exists s', evaluateAll GE release_build s = Ok tt s'
    /\ forall iter, iter ∈ mBrainList s ->
         time_alive (organism_in s s' iter) =
           (time_alive (organism_in s s iter) + if eligible s iter then 1 else 0)%Z.
Proof.
  intros Hone Hnd.
  destruct (evaluateAll_ages_state s) as (h' & Hrun & Hin & _);
    [rewrite Hone; discriminate | exact Hnd |].
  exists (set_mOrganisms h' s). split; [exact Hrun|].
  intros iter Hiter. unfold organism_in. fields.
  destruct (Hin iter Hiter) as [-> _].
  replace (ages s iter) with (eligible s iter); [reflexivity|].
  unfold ages, eligible. rewrite Hone, Z.rem_1_r.
  destruct (Z.leb_spec 1 (time_alive (mOrganisms s !!! GetOrganism s iter))) as [H|H];
    [|reflexivity].
  cbn [andb]. symmetry. apply Z.ltb_lt. lia.
Qed.

(** X15. With a [time_alive_minimum] above 1 a pass ages an organism at
    most once: the increment takes [time_alive] off the multiples of the
    minimum, so the next pass leaves it alone. Two passes in a row add
    exactly one to the [time_alive] of an organism that was due. *)
Theorem evaluateAll_ages_once (s : RTNEAT GE) (iter : BrainPtr) :
  (1 < NEAT_time_alive_minimum s)%Z ->
  one_brain_per_organism s ->
  iter ∈ mBrainList s ->
  ages s iter = true ->
  exists s' s'',
    evaluateAll GE release_build s = Ok tt s'
    /\ evaluateAll GE release_build s' = Ok tt s''
    /\ ages s' iter = false
    /\ time_alive (organism_in s s' iter) = (time_alive (organism_in s s iter) + 1)%Z
    /\ time_alive (organism_in s s'' iter) = (time_alive (organism_in s s iter) + 1)%Z.
Proof.
  intros Htam Hnd Hiter Hages.
  destruct (evaluateAll_ages_state s) as (h1 & Hrun1 & Hin1 & _); [lia | exact Hnd |].
  destruct (evaluateAll_ages_state (set_mOrganisms h1 s)) as (h2 & Hrun2 & Hin2 & _);
    [fields; lia | exact Hnd |].
  destruct (Hin1 iter Hiter) as [Hta1 _]. rewrite Hages in Hta1.
  assert (Hnot : ages (set_mOrganisms h1 s) iter = false).
  { unfold ages, eligible, GetOrganism in *. fields. rewrite Hta1.
    apply andb_prop in Hages as [Hages Hpos]. apply andb_prop in Hages as [Hel Hrem].
    apply Z.leb_le in Hel. apply Z.eqb_eq in Hrem. apply Z.ltb_lt in Hpos.
    rewrite Z.rem_mod_nonneg in Hrem by lia.
    rewrite Z.rem_mod_nonneg by lia.
    rewrite Z.add_mod, Hrem by lia. rewrite Z.add_0_l, Z.mod_mod by lia.
    rewrite (Z.mod_small 1) by lia.
    destruct (_ <=? _)%Z; reflexivity. }
  exists (set_mOrganisms h1 s), (set_mOrganisms h2 (set_mOrganisms h1 s)).
  split; [exact Hrun1|]. split; [exact Hrun2|]. split; [exact Hnot|].
  unfold organism_in. fields. split; [exact Hta1|].
  destruct (Hin2 iter Hiter) as [Hta2 _]. rewrite Hnot in Hta2.
  unfold GetOrganism in *. fields. rewrite Hta2, Hta1. lia.
Qed.


Lemma normalizedFitness_monotone (m x y : Q) :
  (x <= y)%Q -> (normalizedFitness m x <= normalizedFitness m y)%Q.
Proof.
  intros Hxy. unfold normalizedFitness. destruct (Qltb m 0); [|exact Hxy].
  destruct (Q.max_spec 0 (x - m)) as [[_ ->] | [_ ->]];
    destruct (Q.max_spec 0 (y - m)) as [[? ->] | [? ->]]; lra.
Qed.

Lemma foldr_Qmin_attained (a : Q) (L : list Q) :
  (foldr Qmin a L == a)%Q \/ exists x, x ∈ L /\ (foldr Qmin a L == x)%Q.
Proof.
  induction L as [|x L IH]; [left; reflexivity|].
  cbn [foldr].
  destruct (Q.min_spec x (foldr Qmin a L)) as [[_ Hmin] | [_ Hmin]].
  - right. exists x. split; [apply elem_of_cons; left; reflexivity | exact Hmin].
  - destruct IH as [IH | (y & Hy & IH)].
    + left. rewrite Hmin. exact IH.
    + right. exists y. split; [apply elem_of_cons; right; exact Hy|].
      rewrite Hmin. exact IH.
Qed.

(** X16. A pass keeps the order of the raw scores: of two eligible brains
    of [mBrainList] whose organisms are both smited or both not, the one
    with the lower absolute score does not end with the higher fitness. *)
Theorem evaluateAll_keeps_order (s : RTNEAT GE) (iter1 iter2 : BrainPtr) :
  NEAT_time_alive_minimum s <> 0%Z ->
  one_brain_per_organism s ->
  iter1 ∈ mBrainList s -> iter2 ∈ mBrainList s ->
  eligible s iter1 = true -> eligible s iter2 = true ->
  smited (organism_in s s iter1) = smited (organism_in s s iter2) ->
  (mAbsoluteScore (mBrains s !!! iter1) <= mAbsoluteScore (mBrains s !!! iter2))%Q ->
  exists s', evaluateAll GE release_build s = Ok tt s'
    /\ (fitness (organism_in s s' iter1) <= fitness (organism_in s s' iter2))%Q.
Proof.
  intros Htam Hnd Hin1 Hin2 He1 He2 Hsmit Hscore.
  destruct (evaluateAll_release GE s Htam Hnd) as (h1 & h2 & Hrun & _ & _ & Hfit & _).
  exists (set_mOrganisms h2 s). split; [exact Hrun|].
  unfold organism_in in *. fields.
  rewrite (Hfit iter1 Hin1 He1), (Hfit iter2 Hin2 He2).
  destruct (assigned_fitness_spec GE s iter1 Hin1 He1) as (b1 & -> & Hb1 & _).
  destruct (assigned_fitness_spec GE s iter2 Hin2 He2) as (b2 & -> & Hb2 & _).
  rewrite Hsmit.
  assert (Hb : (b1 <= b2)%Q).
  { rewrite Hb1, Hb2. apply normalizedFitness_monotone, Hscore. }
  destruct (negb _); lra.
Qed.

(** X17. When some eligible score is negative, the pass shifts the scores so
    that the lowest lands on zero: some eligible brain of [mBrainList] has
    the minimum score, and every eligible brain with that score ends with
    fitness 0, smited or not. *)
Theorem evaluateAll_minimum_gets_zero (s : RTNEAT GE) :
  NEAT_time_alive_minimum s <> 0%Z ->
  one_brain_per_organism s ->
  (minScore s < 0)%Q ->
  exists s', evaluateAll GE release_build s = Ok tt s'
    /\ (exists iter, iter ∈ mBrainList s /\ eligible s iter = true
          /\ (mAbsoluteScore (mBrains s !!! iter) == minScore s)%Q)
    /\ forall iter, iter ∈ mBrainList s -> eligible s iter = true ->
         (mAbsoluteScore (mBrains s !!! iter) == minScore s)%Q ->
         (fitness (organism_in s s' iter) == 0)%Q.
Proof.
  intros Htam Hnd Hneg.
  destruct (evaluateAll_release GE s Htam Hnd) as (h1 & h2 & Hrun & _ & _ & Hfit & _).
  exists (set_mOrganisms h2 s). split; [exact Hrun|]. split.
  - unfold minScore, eligible_scores in *.
    destruct (foldr_Qmin_attained 0
                (map (fun iter => mAbsoluteScore (mBrains s !!! iter))
                   (filter (fun iter => eligible s iter = true) (mBrainList s))))
      as [Hzero | (x & Hx & Hmin)].
    + rewrite Hzero in Hneg. lra.
    + apply list_elem_of_fmap in Hx as (iter & -> & Hiter).
      apply list_elem_of_filter in Hiter as [He Hin].
      exists iter. split; [exact Hin|]. split; [exact He|]. symmetry. exact Hmin.
  - intros iter Hin He Hscore. unfold organism_in. fields.
    rewrite (Hfit iter Hin He).
    destruct (assigned_fitness_spec GE s iter Hin He) as (b & -> & Hb & _).
    assert (Hzero : (b == 0)%Q).
    { rewrite Hb. unfold normalizedFitness.
      apply Qltb_lt in Hneg. rewrite Hneg.
      destruct (Q.max_spec 0 (mAbsoluteScore (mBrains s !!! iter) - minScore s))
        as [[? ->] | [? ->]]; lra. }
    destruct (negb _); lra.
Qed.


(** *** Counters and the event log over a run *)

Lemma evolveAll_counters (s : RTNEAT GE) :
  exists s', evolveAll GE release_build s = Ok tt s'
    /\ NEAT_time_alive_minimum s' = NEAT_time_alive_minimum s
    /\ mBrainList s' = mBrainList s
    /\ mUnitsToDeleteBeforeFirstJudgment s' = mUnitsToDeleteBeforeFirstJudgment s
    /\ mTimeBetweenEvolutions s' = mTimeBetweenEvolutions s
    /\ mSpawnTickCount s' = mSpawnTickCount s
    /\ mEvolutionTickCount s' = mEvolutionTickCount s
    /\ (mOffspringCount s <= mOffspringCount s' <= mOffspringCount s + 1)%N
    /\ (mTotalUnitsDeleted s <= mTotalUnitsDeleted s' <= mTotalUnitsDeleted s + 1)%N
    /\ (mBrainList s = [] -> mBrains s' = mBrains s).
Proof.
  unfold evolveAll. unfold_monad.
  destruct (remove_worst GE (NEAT_time_alive_minimum s) (genomes s)) as [[deadorg|] g1].
  - cbn [fst snd].
    match goal with |- context [for_each GE ?l _ ?s1] =>
      destruct (estimate_loop GE l s1) as (g2 & evs & -> & Hevs) end.
    cbn beta iota.
    match goal with |- context [evolveAll_speciate GE ?t ?f ?s1] =>
      destruct (speciate_release GE t f s1) as (g3 & post & thr & -> & Hpost) end.
    cbn beta iota. rewrite hot_swap_exact.
    assert (Hspec := first_wrapping_spec s deadorg (mBrainList s)).
    unfold first_wrapping, GetOrganism in *. fields.
    destruct (find _ (mBrainList s)) as [iter|].
    + eexists. split; [reflexivity|]. fields.
      do 6 (split; [reflexivity|]).
      split; [lia|]. split; [lia|].
      intros Hnil. destruct Hspec as (before & after & Hlist & _).
      rewrite Hnil in Hlist. destruct before; discriminate.
    + eexists. split; [reflexivity|]. fields.
      do 6 (split; [reflexivity|]).
      split; [lia|]. split; [lia|]. reflexivity.
  - cbn [fst snd]. eexists. split; [reflexivity|]. fields.
    do 6 (split; [reflexivity|]).
    split; [lia|]. split; [lia|]. reflexivity.
Qed.

Lemma ProcessTick_counters (incAmt : Q) (Find : Body -> bool) (s : RTNEAT GE) :
  NEAT_time_alive_minimum s <> 0%Z ->
  exists s', ProcessTick GE release_build incAmt Find s = Ok tt s'
    /\ NEAT_time_alive_minimum s' = NEAT_time_alive_minimum s
    /\ mBrainList s' = mBrainList s
    /\ mUnitsToDeleteBeforeFirstJudgment s' = mUnitsToDeleteBeforeFirstJudgment s
    /\ mTimeBetweenEvolutions s' = mTimeBetweenEvolutions s
    /\ mSpawnTickCount s' = (mSpawnTickCount s + 1)%N
    /\ (mEvolutionTickCount s' <= mEvolutionTickCount s + 1)%N
    /\ (mOffspringCount s <= mOffspringCount s' <= mOffspringCount s + 1)%N
    /\ (mTotalUnitsDeleted s <= mTotalUnitsDeleted s')%N
    /\ (mBrainList s = [] -> mBrains s' = mBrains s).
Proof.
  intros Htam.
  destruct (ProcessTick_release GE incAmt Find s Htam) as (q & m & h & Hrun).
  cbn zeta in Hrun. rewrite Hrun.
  destruct (judgment_due Find s).
  - unfold bind.
    match goal with |- context [evolveAll GE release_build ?s1] =>
      destruct (evolveAll_counters s1)
        as (s2 & -> & Ht & Hl & Hu & Hb & Hsp & Hev & Hoff & Hdel & Hbr) end.
    eexists. split; [reflexivity|]. fields.
    split; [exact Ht|]. split; [exact Hl|]. split; [exact Hu|]. split; [exact Hb|].
    split; [exact Hsp|]. split; [lia|]. split; [exact Hoff|]. split; [lia|]. exact Hbr.
  - eexists. split; [reflexivity|]. fields.
    split; [reflexivity|]. split; [reflexivity|]. split; [reflexivity|].
    split; [reflexivity|]. split; [reflexivity|].
    split; [lia|]. split; [lia|]. split; [lia|]. reflexivity.
Qed.

(** X18. The counters over a run of ticks (assertions compiled out, a
    non-zero [time_alive_minimum]): the spawn tick counter counts every
    tick and is never reset; the evolution tick counter grows by at most
    one per tick; the offspring counter never decreases and grows by at
    most one per tick; the deletion counter never decreases; and
    [mBrainList], the two activation thresholds and [time_alive_minimum]
    are never written. *)
Theorem run_ticks_counters (finds : list (Body -> bool)) (s : RTNEAT GE) :
  NEAT_time_alive_minimum s <> 0%Z ->
  exists s', run_ticks GE release_build finds s = Ok tt s'
    /\ mSpawnTickCount s' = (mSpawnTickCount s + N.of_nat (length finds))%N
    /\ (mEvolutionTickCount s' <= mEvolutionTickCount s + N.of_nat (length finds))%N
    /\ (mOffspringCount s <= mOffspringCount s'
        <= mOffspringCount s + N.of_nat (length finds))%N
    /\ (mTotalUnitsDeleted s <= mTotalUnitsDeleted s')%N
    /\ mBrainList s' = mBrainList s
    /\ mUnitsToDeleteBeforeFirstJudgment s' = mUnitsToDeleteBeforeFirstJudgment s
    /\ mTimeBetweenEvolutions s' = mTimeBetweenEvolutions s
    /\ NEAT_time_alive_minimum s' = NEAT_time_alive_minimum s.
Proof.
  revert s. induction finds as [|Find finds IH]; intros s Htam.
  - exists s. split; [reflexivity|]. cbn [length].
    repeat (split; try reflexivity; try lia).
  - cbn [run_ticks]. unfold mbind, M_bind, bind.
    destruct (ProcessTick_counters 0 Find s Htam)
      as (s1 & -> & Ht & Hl & Hu & Hb & Hsp & Hev & Hoff & Hdel & _).
    destruct (IH s1) as (s' & Hrun & Hsp' & Hev' & Hoff' & Hdel' & Hl' & Hu' & Hb' & Ht').
    { rewrite Ht. exact Htam. }
    exists s'. split; [exact Hrun|]. cbn [length].
    split; [lia|]. split; [lia|]. split; [lia|]. split; [lia|].
    split; [congruence|]. split; [congruence|]. split; congruence.
Qed.

(** X19. Nothing here ever puts a brain on [mBrainList]. While it is empty,
    as the constructors leave it, no run of ticks changes any brain: no
    score is normalized and no brain is ever given a new organism, whatever
    the engine removes. *)
Theorem run_ticks_without_brain_list (finds : list (Body -> bool)) (s : RTNEAT GE) :
  NEAT_time_alive_minimum s <> 0%Z ->
  mBrainList s = [] ->
  exists s', run_ticks GE release_build finds s = Ok tt s'
    /\ mBrainList s' = []
    /\ mBrains s' = mBrains s.
Proof.
  revert s. induction finds as [|Find finds IH]; intros s Htam Hnil.
  - exists s. split; [reflexivity|]. split; [exact Hnil | reflexivity].
  - cbn [run_ticks]. unfold mbind, M_bind, bind.
    destruct (ProcessTick_counters 0 Find s Htam)
      as (s1 & -> & Ht & Hl & _ & _ & _ & _ & _ & _ & Hbr).
    destruct (IH s1) as (s' & Hrun & Hnil' & Hbr').
    { rewrite Ht. exact Htam. }
    { rewrite Hl. exact Hnil. }
    exists s'. split; [exact Hrun|]. split; [exact Hnil'|].
    rewrite Hbr'. apply Hbr, Hnil.
Qed.

Lemma removals_app (l1 l2 : list Event) :
  removals (l1 ++ l2) = removals l1 ++ removals l2.
Proof. apply omap_app. Qed.

Lemma removed_count_app (l1 l2 : list (option OrgPtr)) :
  removed_count (l1 ++ l2) = (removed_count l1 + removed_count l2)%nat.
Proof. unfold removed_count. rewrite filter_app, length_app. reflexivity. Qed.

Lemma quiet_removals (pre : list Event) :
  Forall (fun e => e = EvEstimateAverage \/ e = EvChooseParentSpecies) pre ->
  removals pre = [].
Proof. induction 1 as [|e pre [-> | ->] _ IH]; [reflexivity | |]; exact IH. Qed.

Lemma reassign_removals (l : list OrgPtr) : removals (map EvReassignSpecies l) = [].
Proof. induction l as [|o l IH]; [reflexivity | exact IH]. Qed.

Lemma cycle_events_counts (s : RTNEAT GE) :
  removals (cycle_events s) = [fst (removal s)]
  /\ length (reproductions (cycle_events s)) = removed_count [fst (removal s)].
Proof.
  unfold cycle_events. destruct (fst (removal s)) as [deadorg|]; [|split; reflexivity].
  set (species := pop_species GE (fst (snd (removal s)))).
  assert (Hquiet : Forall (fun e => e = EvEstimateAverage \/ e = EvChooseParentSpecies)
                     (map (fun _ : Species GE => EvEstimateAverage) species)).
  { apply Forall_forall. intros e He. apply list_elem_of_fmap in He as (sp & -> & _).
    left. reflexivity. }
  destruct (quiet_events _ Hquiet) as [Hrep _].
  assert (Hpost : forall post : list Event,
            post = [] \/ (exists c ns l, post = EvSpeciate c ns :: map EvReassignSpecies l) ->
            removals post = [] /\ reproductions post = []).
  { intros post [-> | (c & ns & l & ->)]; [split; reflexivity|].
    change (EvSpeciate c ns :: map EvReassignSpecies l)
      with ([EvSpeciate c ns] ++ map EvReassignSpecies l).
    rewrite removals_app, reproductions_app, reassign_removals.
    destruct (reassign_events l) as [-> _]. split; reflexivity. }
  match goal with |- context [if ?c then ?a else ?b] =>
    destruct (Hpost (if c then a else b)) as [Hm Hr];
      [destruct c; [right; eexists _, _, _; reflexivity | left; reflexivity]|] end.
  change (EvRemoveWorst (Some deadorg) :: ?l) with ([EvRemoveWorst (Some deadorg)] ++ l).
  rewrite !removals_app, !reproductions_app, (quiet_removals _ Hquiet), Hrep, Hm, Hr.
  split; reflexivity.
Qed.

(** X20. Over any number of evolution cycles (assertions compiled out)
    every cycle calls [remove_worst] once, on the genomes the cycles before
    it left, and [reproduce_one] is called exactly once in each cycle whose
    call removed an organism and in no other: the offspring counter grows
    by the number of organisms removed, and the genomes after a cycle are
    those [reproduce_one] (and the reassignment, when due) left, or those
    [remove_worst] left when it removed none. *)
Theorem evolve_cycles_replace_removed (n : nat) (s : RTNEAT GE) :
  exists s' new,
    evolve_cycles GE release_build n s = Ok tt s'
    /\ mLog s' = mLog s ++ new
    /\ length (removals new) = n
    /\ length (reproductions new) = removed_count (removals new)
    /\ mOffspringCount s'
       = (mOffspringCount s + N.of_nat (removed_count (removals new)))%N
    /\ forall j, (j < n)%nat ->
         exists sj sj',
           evolve_cycles GE release_build j s = Ok tt sj
           /\ evolve_cycles GE release_build (S j) s = Ok tt sj'
           /\ removals new !! j = Some (fst (removal sj))
           /\ cycle_of sj sj'
           /\ mLog sj' = mLog sj ++ cycle_events sj.
Proof.
  revert s. induction n as [|n IH]; intros s.
  - exists s, []. split; [reflexivity|]. split; [rewrite app_nil_r; reflexivity|].
    split; [reflexivity|]. split; [reflexivity|].
    split; [change (removed_count (removals [])) with 0%nat; lia|].
    intros j Hj. lia.
  - cbn [evolve_cycles]. unfold mbind, M_bind, bind.
    destruct (evolveAll_cycle GE s) as (s1 & Hrun1 & Hof1 & Hlog1 & _).
    rewrite Hrun1.
    destruct (cycle_events_counts s) as [Hrem1 Hrep1].
    destruct (IH s1) as (s' & new2 & Hrun & Hlog2 & Hrem2 & Hrep2 & Hc2 & Hsteps).
    exists s', (cycle_events s ++ new2). split; [exact Hrun|].
    split; [rewrite Hlog2, Hlog1, app_assoc; reflexivity|].
    rewrite removals_app, reproductions_app, removed_count_app, !length_app, Hrem1.
    split; [cbn [length]; lia|]. split; [lia|]. split.
    + rewrite Hc2. unfold cycle_of in Hof1.
      destruct (fst (removal s)).
      * destruct Hof1 as [-> _]. change (removed_count [Some o]) with 1%nat. lia.
      * destruct Hof1 as (_ & -> & _). change (removed_count [None]) with 0%nat. lia.
    + intros [|j] Hj.
      * exists s, s1. split; [reflexivity|]. split; [reflexivity|].
        split; [reflexivity|]. split; [exact Hof1 | exact Hlog1].
      * destruct (Hsteps j) as (sj & sj' & Hj1 & Hj2 & Hlook & Hof & Hlog); [lia|].
        exists sj, sj'.
        split; [cbn [evolve_cycles]; unfold mbind, M_bind, bind; rewrite Hrun1;
                exact Hj1|].
        split; [exact Hj2|].
        split; [exact Hlook|]. split; [exact Hof | exact Hlog].
Qed.

End MoreProperties.

(** ** Properties of [Stats] *)

Section StatsProperties.

Context {Reward : Type}.
Context (div scale : Reward -> Q -> Reward) (add sub : Reward -> Reward -> Reward).

(** X21. [predictStats] for a non-negative [timeAlive] and a positive
    [fullLife]: the statistics are left alone when [timeAlive] is a multiple
    of [fullLife], and are otherwise scaled by [fullLife / r], where [r] is
    the remainder of [timeAlive] by [fullLife]; that factor is above 1 and at
    most [fullLife]. The test [localTimeAlive >= fullLife] of line 430 never
    holds. Only [m_Stats] is written. *)
Theorem predictStats_extrapolates (timeAlive fullLife : Z) (st : Stats.t Reward) :
  (0 <= timeAlive)%Z -> (0 < fullLife)%Z ->
  let r := (timeAlive mod fullLife)%Z in
  Stats.predictStats scale timeAlive fullLife st =
    Some (if (r =? 0)%Z then st
          else Stats.set_m_Stats
                 (scale (Stats.m_Stats st) (inject_Z fullLife / inject_Z r)) st)
  /\ (r <> 0%Z -> (1 < inject_Z fullLife / inject_Z r)%Q
                  /\ (inject_Z fullLife / inject_Z r <= inject_Z fullLife)%Q).
Proof.
  intros Hta Hfull r.
  assert (Hr : (0 <= r < fullLife)%Z) by (apply Z.mod_pos_bound; exact Hfull).
  split.
  - unfold Stats.predictStats.
    replace (fullLife =? 0)%Z with false by (symmetry; apply Z.eqb_neq; lia).
    replace (fullLife =? -1)%Z with false by (symmetry; apply Z.eqb_neq; lia).
    rewrite andb_false_r. cbn [orb].
    rewrite Z.rem_mod_nonneg by lia. fold r.
    destruct (r =? 0)%Z; [reflexivity|].
    replace (fullLife <=? r)%Z with false by (symmetry; apply Z.leb_gt; lia).
    reflexivity.
  - intros Hnz.
    assert (Hpos : (0 < inject_Z r)%Q).
    { change 0%Q with (inject_Z 0). rewrite <- Zlt_Qlt. lia. }
    split.
    + apply Qlt_shift_div_l; [exact Hpos|]. rewrite Qmult_1_l.
      rewrite <- Zlt_Qlt. lia.
    + apply Qle_shift_div_r; [exact Hpos|].
      rewrite <- inject_Z_mult, <- Zle_Qle. nia.
Qed.

Lemma tally_fold (samples : list Reward) (st : Stats.t Reward) :
  let st' := fold_left (fun st sample => Stats.tally add sample st) samples st in
  Stats.m_Stats st' = fold_left add samples (Stats.m_Stats st)
  /\ Stats.m_NumLifetimeTrials st' = Stats.m_NumLifetimeTrials st
  /\ Stats.m_ZeroStats st' = Stats.m_ZeroStats st
  /\ Stats.m_LifetimeAverage st' = Stats.m_LifetimeAverage st.
Proof.
  revert st. induction samples as [|sample samples IH]; intros st.
  - repeat split.
  - cbn [fold_left]. destruct (IH (Stats.tally add sample st)) as (H1 & H2 & H3 & H4).
    cbn zeta. rewrite H1, H2, H3, H4. repeat split.
Qed.

(** X22. A trial read back: after [startNextTrial], the samples tallied are
    read by [getStats] as the zero reward plus the samples, in order; the
    trial starts the count one higher, and tallying touches neither the
    count nor the lifetime average that [startNextTrial] stored. *)
Theorem tally_after_startNextTrial
  (s_RunningAverageSampleSize : N) (samples : list Reward) (st : Stats.t Reward) :
  let st0 := Stats.startNextTrial div add sub s_RunningAverageSampleSize st in
  let st' := fold_left (fun st sample => Stats.tally add sample st) samples st0 in
  Stats.getStats st' = fold_left add samples (Stats.m_ZeroStats st)
  /\ Stats.m_NumLifetimeTrials st' = (Stats.m_NumLifetimeTrials st + 1)%N
  /\ Stats.m_LifetimeAverage st' = Stats.m_LifetimeAverage st0.
Proof.
  cbn zeta.
  destruct (tally_fold samples
              (Stats.startNextTrial div add sub s_RunningAverageSampleSize st))
    as (H1 & H2 & _ & H4).
  cbn zeta in H1, H2, H4. unfold Stats.getStats. rewrite H1, H2, H4.
  repeat split.
Qed.

End StatsProperties.

(** X23. [startNextTrial] on scalar rewards, once more trials than
    [s_RunningAverageSampleSize] have been started: the lifetime average
    moves from its old value towards the statistics of the trial by the
    fraction [1 / s_RunningAverageSampleSize], and so ends between the
    two. *)
Theorem startNextTrial_steady (size : N) (st : Stats.t Q) :
  (0 < size)%N ->
  (size <= Stats.m_NumLifetimeTrials st)%N ->
  let st' := Stats.startNextTrial Qdiv Qplus Qminus size st in
  let w := (1 / inject_Z (Z.of_N size))%Q in
  (Stats.m_LifetimeAverage st' ==
     Stats.m_LifetimeAverage st + w * (Stats.m_Stats st - Stats.m_LifetimeAverage st))%Q
  /\ (Qmin (Stats.m_LifetimeAverage st) (Stats.m_Stats st)
        <= Stats.m_LifetimeAverage st')%Q
  /\ (Stats.m_LifetimeAverage st'
        <= Qmax (Stats.m_LifetimeAverage st) (Stats.m_Stats st))%Q.
Proof.
  intros Hsize Htrials. cbn zeta. unfold Stats.startNextTrial.
  replace (Stats.m_NumLifetimeTrials st + 1 <=? size)%N with false
    by (symmetry; apply N.leb_gt; lia).
  cbn [Stats.m_LifetimeAverage].
  assert (Hpos : (0 < inject_Z (Z.of_N size))%Q).
  { change 0%Q with (inject_Z 0). rewrite <- Zlt_Qlt. lia. }
  assert (Hone : (1 <= inject_Z (Z.of_N size))%Q).
  { change 1%Q with (inject_Z 1). rewrite <- Zle_Qle. lia. }
  set (c := inject_Z (Z.of_N size)) in *.
  set (a := Stats.m_LifetimeAverage st). set (x := Stats.m_Stats st).
  assert (Heq : (a + (x / c - a / c) == a + 1 / c * (x - a))%Q).
  { field. intros Hc. rewrite Hc in Hpos. apply (Qlt_irrefl 0), Hpos. }
  assert (Hw : (0 < 1 / c)%Q /\ (1 / c <= 1)%Q).
  { split.
    - apply Qlt_shift_div_l; [exact Hpos|]. rewrite Qmult_0_l. reflexivity.
    - apply Qle_shift_div_r; [exact Hpos|]. rewrite Qmult_1_l. exact Hone. }
  destruct Hw as [Hw0 Hw1]. set (w := (1 / c)%Q) in *.
  split; [exact Heq|]. rewrite Heq.
  destruct (Q.min_spec a x) as [[Hlt ->] | [Hle ->]];
    destruct (Q.max_spec a x) as [[Hlt' ->] | [Hle' ->]]; split; nra.
Qed.

(** X24. The first two trials of fresh scalar statistics, with a sample size
    of at least 2 (line 387 sets 2): the first trial enters the lifetime
    average whole and the second by half, so that trials of [x1] and [x2]
    leave [x1 + x2 / 2]; each trial starts from zero statistics. *)
Theorem lifetime_average_first_trials (size : N) (x1 x2 : Q) :
  (2 <= size)%N ->
  let trial := fun x st =>
    Stats.startNextTrial Qdiv Qplus Qminus size (Stats.tally Qplus x st) in
  let st := trial x2 (trial x1 (Stats.construct 0%Q)) in
  Stats.m_NumLifetimeTrials st = 2%N
  /\ (Stats.m_LifetimeAverage st == x1 + x2 / 2)%Q
  /\ Stats.getStats st = 0%Q.
Proof.
  intros Hsize. cbn zeta.
  unfold Stats.startNextTrial, Stats.tally, Stats.construct, Stats.set_m_Stats,
    Stats.getStats.
  cbn [Stats.m_NumLifetimeTrials Stats.m_ZeroStats Stats.m_Stats Stats.m_LifetimeAverage].
  change (0 + 1)%N with 1%N. change (1 + 1)%N with 2%N.
  replace (1 <=? size)%N with true by (symmetry; apply N.leb_le; lia).
  replace (2 <=? size)%N with true by (symmetry; apply N.leb_le; lia).
  split; [reflexivity|]. split; [|reflexivity].
  change (inject_Z (Z.of_N 1)) with 1%Q. change (inject_Z (Z.of_N 2)) with 2%Q.
  field.
Qed.

(** ** The properties on concrete controllers *)

Import ToyEngine Examples.

(** C1 on [bound_pair]: after [agent1] releases its brain, brain 0 is
    waiting and still bound to [agent1]. *)
Lemma release_organism_leaves_binding_witness :
  BrainBodyMap.left_find (GetBody agent1) (mBrainBodyMap bound_pair) = Some 0%nat
  /\ exists s', release_organism engine debug_build agent1 bound_pair = Ok tt s'
       /\ have_organism agent1 s' = true
       /\ BrainBodyMap.left_find (GetBody agent1) (mBrainBodyMap s') = Some 0%nat
       /\ 0%nat ∈ mWaitingBrainList s'.
Proof.
  split; [reflexivity|].
  apply (release_organism_leaves_binding engine debug_build agent1 bound_pair 0%nat).
  reflexivity.
Defined.

(** C5 on [exhausted]: the only brain is taken, [agent2] asks for one. *)
Lemma get_organism_empty_queue_unchecked_witness :
  have_organism agent2 exhausted = false
  /\ ready exhausted = false
  /\ get_organism engine agent2 exhausted
     = Undefined "mWaitingBrainList.front() on an empty queue".
Proof.
  split; [reflexivity|]. split; [reflexivity|].
  apply (get_organism_empty_queue_unchecked engine agent2 exhausted); reflexivity.
Defined.

(** C2 as stated fails: on the specification's scenario, in a debug build,
    brain 0 is eligible and its organism is due to age, so that the call
    stops at the assertion of line 217 and never comes to the one of
    line 224. *)
Lemma doCalculations_not_reached :
  List.find (eligible scenario) (mBrainList scenario) = Some 0%nat
  /\ ages scenario 0%nat = true
  /\ evaluateAll engine debug_build scenario
     = AssertFailed "FIXME/TODO: start next trial to normalize by time_alive_minimum"
  /\ evaluateAll engine debug_build scenario
     <> AssertFailed "FIXME/TODO: mScoreHelper->doCalculations()".
Proof.
  split; [reflexivity|]. split; [reflexivity|].
  split; [vm_compute; reflexivity | vm_compute; discriminate].
Qed.

(** C2, amended, on the specification's scenario, in a debug build. *)
Lemma evaluateAll_assertion_gate_witness :
  debug_build "FIXME/TODO: mScoreHelper->doCalculations()" = true
  /\ returned (evaluateAll engine debug_build scenario) = false
  /\ (forall incAmt Find,
        returned (ProcessTick engine debug_build incAmt Find scenario) = false
        /\ exists q m,
             ProcessTick engine debug_build incAmt Find scenario =
             evaluateAll engine debug_build
               (set_mTotalUnitsDeleted
                  (mTotalUnitsDeleted scenario
                   + N.of_nat (length (dead_entries Find scenario)))
                  (set_mBrainBodyMap m
                     (set_mWaitingBrainList q
                        (set_mEvolutionTickCount (mEvolutionTickCount scenario + 1)
                           (set_mSpawnTickCount (mSpawnTickCount scenario + 1) scenario))))))
  /\ evaluateAll engine debug_build scenario =
       match List.find (eligible scenario) (mBrainList scenario) with
       | None => AssertFailed "FIXME/TODO: mScoreHelper->doCalculations()"
       | Some iter =>
           if (NEAT_time_alive_minimum scenario =? 0)%Z
           then Undefined "time_alive % NEAT::time_alive_minimum with a zero divisor"
           else if ages scenario iter
                then AssertFailed
                       "FIXME/TODO: start next trial to normalize by time_alive_minimum"
                else AssertFailed "FIXME/TODO: add stats samples"
       end
  /\ (forall incAmt Find,
        ProcessTick engine debug_build incAmt Find scenario
        = evaluateAll engine debug_build scenario).
Proof.
  split; [reflexivity|].
  apply (evaluateAll_assertion_gate engine debug_build scenario). reflexivity.
Defined.

(** The specification's tick scenario: after 4 deaths and 12 ticks no cycle
    fires; the 5th death, at tick 13, fires one and the counter is back at 0. *)
Example tick_scenario :
  let quiet := after four_deaths (ProcessTick engine release_build 0 (fun _ => true) four_deaths) in
  let fired := after quiet (ProcessTick engine release_build 0 (fun _ => false) quiet) in
  (mTotalUnitsDeleted quiet, mEvolutionTickCount quiet, mLog quiet) = (4%N, 12%N, [])
  /\ mTotalUnitsDeleted fired = 5%N
  /\ mEvolutionTickCount fired = 0%N
  /\ reproductions (mLog fired) = [2%N].
Proof. vm_compute. split; [reflexivity|]. split; [reflexivity|]. split; reflexivity. Qed.

(** The specification's normalization scenario: the raw score -5 lands on 0
    and the order of the un-smited organisms is kept. *)
Example normalization_scenario :
  let s' := after scenario (evaluateAll engine release_build scenario) in
  map (fun iter => fitness (organism_in scenario s' iter)) (seq 0 10)
  = [0; 3; 5; 8 # 100; 13; 6; 4; 9; 7; 2]%Q.
Proof. vm_compute. reflexivity. Qed.

(** C3 as stated fails: on [warming_up] the tick triggers a cycle, no
    organism is removed, and the tick counter goes from 9 to 0. *)
Lemma tick_counter_reset_without_removal :
  mEvolutionTickCount warming_up = 9%N
  /\ exists s', ProcessTick engine release_build 0 (fun _ => true) warming_up = Ok tt s'
       /\ mLog s' = [EvRemoveWorst None]
       /\ mEvolutionTickCount s' = 0%N.
Proof.
  split; [reflexivity|].
  exists (after warming_up (ProcessTick engine release_build 0 (fun _ => true) warming_up)).
  split; [vm_compute; reflexivity|]. split; vm_compute; reflexivity.
Qed.

(** C3, amended, on [warming_up]. *)
Lemma judgment_resets_tick_counter_witness :
  NEAT_time_alive_minimum warming_up <> 0%Z
  /\ judgment_due (fun _ => true) warming_up = true
  /\ exists s' removed rest,
       ProcessTick engine release_build 0 (fun _ => true) warming_up = Ok tt s'
       /\ mLog s' = mLog warming_up ++ EvRemoveWorst removed :: rest
       /\ mEvolutionTickCount s' = 0%N
       /\ match removed with
          | None =>
              rest = []
              /\ mOffspringCount s' = mOffspringCount warming_up
              /\ NEAT_compat_threshold s' = NEAT_compat_threshold warming_up
              /\ mBrains s' = mBrains warming_up
              /\ mTotalUnitsDeleted s' =
                   (mTotalUnitsDeleted warming_up
                    + N.of_nat (length (dead_entries (fun _ => true) warming_up)))%N
          | Some _ => mOffspringCount s' = (mOffspringCount warming_up + 1)%N
          end.
Proof.
  split; [vm_compute; discriminate|]. split; [reflexivity|].
  apply (judgment_resets_tick_counter engine 0 (fun _ => true) warming_up);
    [vm_compute; discriminate | reflexivity].
Defined.


(** The tick of the witness above in figures: organism 0 is removed,
    organism 2 is bred with generation 2, the offspring counter goes to 3
    and the tick counter back to 0. *)
Example activation_scenario :
  let fired := after four_deaths
                 (ProcessTick engine release_build 0 (fun _ => false) four_deaths) in
  mLog fired = [EvRemoveWorst (Some 0%nat); EvEstimateAverage; EvChooseParentSpecies;
                EvReproduceOne 2; EvSpeciate 3 1; EvReassignSpecies 1%nat;
                EvReassignSpecies 2%nat]
  /\ organisms (mPopulation fired) = [1; 2]%nat
  /\ mOffspringCount fired = 3%N
  /\ mEvolutionTickCount fired = 0%N.
Proof. vm_compute. split; [reflexivity|]. split; [reflexivity|]. split; reflexivity. Qed.

(** C4 on the specification's scenario of ten raw scores. *)
Lemma evaluateAll_normalizes_witness :
  NEAT_time_alive_minimum scenario <> 0%Z
  /\ one_brain_per_organism scenario
  /\ exists s', evaluateAll engine release_build scenario = Ok tt s'
       /\ mBrains s' = mBrains scenario
       /\ forall iter, iter ∈ mBrainList scenario ->
            if eligible scenario iter then
              (0 <= fitness (organism_in scenario s' iter))%Q
              /\ if smited (organism_in scenario scenario iter)
                 then (fitness (organism_in scenario s' iter) ==
                       (1 # 100) * normalizedFitness (minScore scenario)
                                     (mAbsoluteScore (mBrains scenario !!! iter)))%Q
                 else (fitness (organism_in scenario s' iter) ==
                       normalizedFitness (minScore scenario)
                         (mAbsoluteScore (mBrains scenario !!! iter)))%Q
            else organism_in scenario s' iter = organism_in scenario scenario iter.
Proof.
  split; [vm_compute; discriminate|].
  split; [unfold one_brain_per_organism; compute_done|].
  apply (evaluateAll_normalizes engine scenario).
  - vm_compute; discriminate.
  - unfold one_brain_per_organism. compute_done.
Defined.

(** C9 as stated fails: two eligible brains with raw score 0, one smited;
    both organisms end with fitness 0, so smiting did not strictly reduce. *)
Lemma smiting_keeps_zero_fitness :
  eligible tie 0%nat = true /\ eligible tie 1%nat = true
  /\ mAbsoluteScore (mBrains tie !!! 0%nat) = mAbsoluteScore (mBrains tie !!! 1%nat)
  /\ smited (organism_in tie tie 0%nat) = false
  /\ smited (organism_in tie tie 1%nat) = true
  /\ exists s', evaluateAll engine release_build tie = Ok tt s'
       /\ ~ (fitness (organism_in tie s' 1%nat) < fitness (organism_in tie s' 0%nat))%Q.
Proof.
  repeat (split; [vm_compute; reflexivity|]).
  exists (after tie (evaluateAll engine release_build tie)).
  split; [vm_compute; reflexivity|].
  vm_compute. intros H. discriminate H.
Qed.

(** C9, amended, on [twins]. *)
Lemma smiting_scales_fitness_witness :
  exists s', evaluateAll engine release_build twins = Ok tt s'
    /\ (fitness (organism_in twins s' 1%nat)
        == (1 # 100) * fitness (organism_in twins s' 0%nat))%Q
    /\ (fitness (organism_in twins s' 1%nat) <= fitness (organism_in twins s' 0%nat))%Q
    /\ ((fitness (organism_in twins s' 1%nat) < fitness (organism_in twins s' 0%nat))%Q
        <-> (0 < fitness (organism_in twins s' 0%nat))%Q).
Proof.
  apply (smiting_scales_fitness engine twins 1%nat 0%nat).
  - vm_compute; discriminate.
  - unfold one_brain_per_organism. compute_done.
  - compute_done.
  - compute_done.
  - vm_compute; reflexivity.
  - vm_compute; reflexivity.
  - vm_compute; reflexivity.
  - vm_compute; reflexivity.
  - vm_compute; reflexivity.
Defined.

(** C6. The speciation block steers towards 4 species, not the 5 of
    [kNumSpeciesTarget]: with 4 species the threshold is only clamped, and a
    cycle on a population of 4 species leaves the threshold 1 where the
    claim wants 0.9; with 5 species it raises it to 1.1 where the claim
    wants it unchanged. *)
Theorem species_target_is_four :
  kNumSpeciesTarget = 5%N
  /\ (forall t : Q, adjust_compat_threshold 4 4 t = if Qltb t (3 # 10) then (3 # 10)%Q else t)
  /\ (exists s', evolveAll engine release_build (speciating 4) = Ok tt s'
        /\ speciation_counts (mLog s') = [4%N]
        /\ NEAT_compat_threshold (speciating 4) = 1%Q
        /\ (NEAT_compat_threshold s' == 1)%Q)
  /\ (exists s', evolveAll engine release_build (speciating 5) = Ok tt s'
        /\ speciation_counts (mLog s') = [4%N]
        /\ NEAT_compat_threshold (speciating 5) = 1%Q
        /\ (NEAT_compat_threshold s' == 11 # 10)%Q).
Proof.
  split; [reflexivity|]. split; [intros t; reflexivity|]. split.
  - exists (after (speciating 4) (evolveAll engine release_build (speciating 4))).
    split; [vm_compute; reflexivity|]. split; [vm_compute; reflexivity|].
    split; vm_compute; reflexivity.
  - exists (after (speciating 5) (evolveAll engine release_build (speciating 5))).
    split; [vm_compute; reflexivity|]. split; [vm_compute; reflexivity|].
    split; vm_compute; reflexivity.
Qed.

(** C8 on a controller with 2 species and threshold 1. *)
Lemma compat_threshold_floor_witness :
  NEAT_time_alive_minimum (speciating 2) <> 0%Z
  /\ (3 # 10 <= NEAT_compat_threshold (speciating 2))%Q
  /\ (exists s', run_ticks engine release_build [fun _ => true; fun _ => false] (speciating 2) = Ok tt s'
        /\ (3 # 10 <= NEAT_compat_threshold s')%Q)
  /\ (exists s', evolve_cycles engine release_build 3 (speciating 2) = Ok tt s'
        /\ (3 # 10 <= NEAT_compat_threshold s')%Q)
  /\ (3 # 10 <= Nat.iter 9 (adjust_compat_threshold 4 0)
                  (NEAT_compat_threshold (speciating 2)))%Q.
Proof.
  split; [vm_compute; discriminate|]. split; [vm_compute; discriminate|].
  apply (compat_threshold_floor engine [fun _ => true; fun _ => false] 3 9 (speciating 2));
    vm_compute; discriminate.
Defined.

(** C10 as stated fails: 47 brains give a frequency of 4, and over five
    cycles the speciation block runs at the 1st and 5th reproductions
    (counter 48 and 52), not at the 4th: with 3 species against a target of
    4 the threshold goes from 3 to 2.9 at the first reproduction, is still
    2.9 after the fourth, and is 2.8 after the fifth. *)
Lemma speciation_on_first_reproduction :
  length (mBrainList forty_seven) = 47%nat
  /\ compat_adjust_frequency forty_seven = 4%N
  /\ NEAT_compat_threshold forty_seven = 3%Q
  /\ (exists s', evolve_cycles engine release_build 1 forty_seven = Ok tt s'
        /\ reproductions (mLog s') = [47]%N
        /\ (NEAT_compat_threshold s' == 29 # 10)%Q)
  /\ (exists s', evolve_cycles engine release_build 4 forty_seven = Ok tt s'
        /\ reproductions (mLog s') = [47; 48; 49; 50]%N
        /\ (NEAT_compat_threshold s' == 29 # 10)%Q)
  /\ exists s', evolve_cycles engine release_build 5 forty_seven = Ok tt s'
       /\ reproductions (mLog s') = [47; 48; 49; 50; 51]%N
       /\ speciation_counts (mLog s') = [48; 52]%N
       /\ (NEAT_compat_threshold s' == 28 # 10)%Q.
Proof.
  split; [reflexivity|]. split; [reflexivity|]. split; [reflexivity|].
  split; [|split].
  - exists (after forty_seven (evolve_cycles engine release_build 1 forty_seven)).
    split; [vm_compute; reflexivity|]. split; vm_compute; reflexivity.
  - exists (after forty_seven (evolve_cycles engine release_build 4 forty_seven)).
    split; [vm_compute; reflexivity|]. split; vm_compute; reflexivity.
  - exists (after forty_seven (evolve_cycles engine release_build 5 forty_seven)).
    split; [vm_compute; reflexivity|]. split; [vm_compute; reflexivity|].
    split; vm_compute; reflexivity.
Qed.

(** C10, amended, on [forty_seven]. *)
Lemma speciation_cadence_witness :
  (N.of_nat (length (mBrainList forty_seven)) / 10 < 2 ^ 32)%N
  /\ compat_adjust_frequency forty_seven
     = N.max 1 (N.of_nat (length (mBrainList forty_seven)) / 10)
  /\ (exists s' new k,
       evolve_cycles engine release_build 5 forty_seven = Ok tt s'
       /\ mLog s' = mLog forty_seven ++ new
       /\ (k <= 5)%nat
       /\ mOffspringCount s' = (mOffspringCount forty_seven + N.of_nat k)%N
       /\ reproductions new = counts_from (mOffspringCount forty_seven) k
       /\ speciation_counts new =
            filter (fun c => (c mod N.max 1 (N.of_nat (length (mBrainList forty_seven)) / 10)
                              = 0)%N)
                   (counts_from (mOffspringCount forty_seven + 1) k))
  /\ (forall j, exists sj sj',
        evolve_cycles engine release_build j forty_seven = Ok tt sj
        /\ evolve_cycles engine release_build (S j) forty_seven = Ok tt sj'
        /\ compat_adjust_frequency sj
           = N.max 1 (N.of_nat (length (mBrainList forty_seven)) / 10)
        /\ cycle_of sj sj'
        /\ mLog sj' = mLog sj ++ cycle_events sj)
  /\ (forall (armed : string -> bool) (g : population * gmap OrgPtr Organism)
        (score : Q) (from : RTNEAT engine),
        exists s0,
          RTNEAT_construct engine armed g (N.of_nat (length (pop_organisms engine (fst g))))
            score from = Ok tt s0
          /\ mOffspringCount s0 = N.of_nat (length (pop_organisms engine (fst g)))).
Proof.
  split; [reflexivity|].
  apply (speciation_cadence engine 5 forty_seven). reflexivity.
Defined.

(** ** The further properties on concrete controllers *)

Import MoreExamples.

(** X1 on [bound_pair]: [agent2] asks and is given brain 1, the only one
    waiting. *)
Lemma get_organism_takes_front_witness :
  have_organism agent2 bound_pair = false
  /\ mWaitingBrainList bound_pair = [1%nat]
  /\ BrainBodyMap.right_mem 1 (mBrainBodyMap bound_pair) = false
  /\ exists s', get_organism engine agent2 bound_pair = Ok 1%nat s'
       /\ mWaitingBrainList s' = []
       /\ BrainBodyMap.left_find (GetBody agent2) (mBrainBodyMap s') = Some 1%nat
       /\ (forall body, body <> GetBody agent2 ->
             BrainBodyMap.left_find body (mBrainBodyMap s') =
             BrainBodyMap.left_find body (mBrainBodyMap bound_pair))
       /\ s' = set_mBrainBodyMap (mBrainBodyMap s') (set_mWaitingBrainList [] bound_pair).
Proof.
  split; [reflexivity|]. split; [reflexivity|]. split; [reflexivity|].
  apply (get_organism_takes_front engine agent2 bound_pair 1%nat []); reflexivity.
Defined.

(** X2 on a controller constructed over two organisms: [agent1] is given
    brain 0, and is given it again. *)
Lemma get_organism_idempotent_witness :
  table_ok (constructed (population_of 2 1 1) (blank 0 0 0 0 3))
  /\ get_organism engine agent1 (constructed (population_of 2 1 1) (blank 0 0 0 0 3))
     = Ok 0%nat bound_pair
  /\ get_organism engine agent1 bound_pair = Ok 0%nat bound_pair.
Proof.
  split; [unfold table_ok; compute_done|]. split; [vm_compute; reflexivity|].
  apply (get_organism_idempotent engine agent1
           (constructed (population_of 2 1 1) (blank 0 0 0 0 3)) bound_pair 0%nat);
    [unfold table_ok; compute_done | vm_compute; reflexivity].
Defined.

(** X3 on the same controller. *)
Lemma get_organism_keeps_table_ok_witness :
  table_ok (constructed (population_of 2 1 1) (blank 0 0 0 0 3))
  /\ get_organism engine agent1 (constructed (population_of 2 1 1) (blank 0 0 0 0 3))
     = Ok 0%nat bound_pair
  /\ table_ok bound_pair.
Proof.
  split; [unfold table_ok; compute_done|]. split; [vm_compute; reflexivity|].
  apply (get_organism_keeps_table_ok engine agent1
           (constructed (population_of 2 1 1) (blank 0 0 0 0 3)) bound_pair 0%nat);
    [unfold table_ok; compute_done | vm_compute; reflexivity].
Defined.

(** X4 on [bound_pair]: [agent2] holds no brain and releases. *)
Lemma release_organism_unbound_witness :
  have_organism agent2 bound_pair = false
  /\ release_organism engine debug_build agent2 bound_pair
     = AssertFailed "found != mBrainBodyMap.left.end()"
  /\ release_organism engine release_build agent2 bound_pair
     = Undefined "found->second with found == mBrainBodyMap.left.end()".
Proof.
  split; [reflexivity|].
  apply (release_organism_unbound engine agent2 bound_pair). reflexivity.
Defined.

(** X6 on [bound_pair]: brain 0, held by [agent1], is detached. *)
Lemma deleteUnit_keeps_table_ok_witness :
  table_ok bound_pair
  /\ (0%nat ∉ mWaitingBrainList bound_pair)
  /\ exists s', deleteUnit engine 0%nat bound_pair = Ok tt s' /\ table_ok s'.
Proof.
  split; [unfold table_ok; compute_done|]. split; [compute_done|].
  apply (deleteUnit_keeps_table_ok engine 0%nat bound_pair);
    [unfold table_ok; compute_done | compute_done].
Defined.

(** X8: two organisms where three were announced. *)
Lemma RTNEAT_construct_size_mismatch_witness :
  N.of_nat (length (pop_organisms engine (fst (population_of 2 1 1)))) <> 3%N
  /\ RTNEAT_construct engine debug_build (population_of 2 1 1) 3 0 (blank 0 0 0 0 3)
     = AssertFailed "population has the wrong number of organisms"
  /\ exists s', RTNEAT_construct engine release_build (population_of 2 1 1) 3 0
                  (blank 0 0 0 0 3) = Ok tt s'
       /\ mWaitingBrainList s'
          = seq 0 (length (pop_organisms engine (fst (population_of 2 1 1))))
       /\ mOffspringCount s'
          = N.of_nat (length (pop_organisms engine (fst (population_of 2 1 1)))).
Proof.
  split; [vm_compute; discriminate|].
  apply (RTNEAT_construct_size_mismatch engine (population_of 2 1 1) 3 0 (blank 0 0 0 0 3)).
  vm_compute; discriminate.
Defined.

(** X9 on [judged]: the body of [agent1] has died, and one deletion is not
    enough for a judgment. *)
Lemma ProcessTick_detaches_dead_witness :
  NEAT_time_alive_minimum judged <> 0%Z
  /\ NoDup (map snd (mBrainBodyMap judged))
  /\ judgment_due (fun _ => false) judged = false
  /\ exists s', ProcessTick engine release_build 0 (fun _ => false) judged = Ok tt s'
       /\ mBrainBodyMap s'
          = filter (fun entry => (fun _ : Body => false) (fst entry) = true)
              (mBrainBodyMap judged)
       /\ mWaitingBrainList s'
          = mWaitingBrainList judged ++ map snd (dead_entries (fun _ => false) judged)
       /\ mTotalUnitsDeleted s'
          = (mTotalUnitsDeleted judged
             + N.of_nat (length (dead_entries (fun _ => false) judged)))%N
       /\ mSpawnTickCount s' = (mSpawnTickCount judged + 1)%N.
Proof.
  split; [vm_compute; discriminate|]. split; [compute_done|]. split; [reflexivity|].
  apply (ProcessTick_detaches_dead engine 0 (fun _ => false) judged);
    [vm_compute; discriminate | compute_done | reflexivity].
Defined.

(** X12 on [judged_alone]: organism 0 is removed, brain 0 is swapped and
    taken from [agent1], who, no brain waiting, is given brain 0 back; it
    now wraps organism 2, the offspring. *)
Lemma evolveAll_then_get_organism_witness :
  table_ok judged_alone
  /\ NoDup (map fst (mBrainBodyMap judged_alone))
  /\ BrainBodyMap.left_find (GetBody agent1) (mBrainBodyMap judged_alone) = Some 0%nat
  /\ fst (ToyEngine.remove_worst (NEAT_time_alive_minimum judged_alone)
            (genomes judged_alone))
     = Some 0%nat
  /\ first_wrapping judged_alone 0%nat (mBrainList judged_alone) = Some 0%nat
  /\ fst (offspring judged_alone) = 2%nat
  /\ exists s' s'',
       evolveAll engine release_build judged_alone = Ok tt s'
       /\ have_organism agent1 s' = false
       /\ get_organism engine agent1 s' = Ok (hd 0%nat (mWaitingBrainList judged_alone)) s''
       /\ mWaitingBrainList s'' = tl (mWaitingBrainList judged_alone ++ [0%nat])
       /\ have_organism agent1 s'' = true
       /\ (mWaitingBrainList judged_alone = [] ->
           get_organism engine agent1 s' = Ok 0%nat s'')
       /\ mBrains s' =
            <[0%nat := mkPyOrganism (fst (offspring judged_alone))
                         (mAbsoluteScore (mBrains judged_alone !!! 0%nat))]>
              (mBrains judged_alone)
       /\ mBrains s'' = mBrains s'
       /\ GetOrganism s' 0%nat = fst (offspring judged_alone)
       /\ GetOrganism s'' 0%nat = fst (offspring judged_alone).
Proof.
  split; [unfold table_ok; compute_done|]. split; [compute_done|].
  split; [reflexivity|]. split; [reflexivity|]. split; [reflexivity|].
  split; [reflexivity|].
  apply (evolveAll_then_get_organism engine agent1 judged_alone 0%nat 0%nat);
    [unfold table_ok; compute_done | compute_done | reflexivity | reflexivity | reflexivity].
Defined.

(** X13 on [mixed_ages]. *)
Lemma evaluateAll_ages_witness :
  NEAT_time_alive_minimum mixed_ages <> 0%Z
  /\ one_brain_per_organism mixed_ages
  /\ exists s', evaluateAll engine release_build mixed_ages = Ok tt s'
       /\ (forall iter, iter ∈ mBrainList mixed_ages ->
             time_alive (organism_in mixed_ages s' iter) =
               (time_alive (organism_in mixed_ages mixed_ages iter)
                + if ages mixed_ages iter then 1 else 0)%Z
             /\ smited (organism_in mixed_ages s' iter)
                = smited (organism_in mixed_ages mixed_ages iter))
       /\ (forall p, (forall iter, iter ∈ mBrainList mixed_ages ->
                        GetOrganism mixed_ages iter <> p) ->
             mOrganisms s' !!! p = mOrganisms mixed_ages !!! p).
Proof.
  split; [vm_compute; discriminate|].
  split; [unfold one_brain_per_organism; compute_done|].
  apply (evaluateAll_ages engine mixed_ages);
    [vm_compute; discriminate | unfold one_brain_per_organism; compute_done].
Defined.

(** X14 on the specification's scenario, where the minimum is 1. *)
Lemma evaluateAll_ages_every_pass_witness :
  NEAT_time_alive_minimum scenario = 1%Z
  /\ one_brain_per_organism scenario
  /\ exists s', evaluateAll engine release_build scenario = Ok tt s'
       /\ forall iter, iter ∈ mBrainList scenario ->
            time_alive (organism_in scenario s' iter) =
              (time_alive (organism_in scenario scenario iter)
               + if eligible scenario iter then 1 else 0)%Z.
Proof.
  split; [reflexivity|].
  split; [unfold one_brain_per_organism; compute_done|].
  apply (evaluateAll_ages_every_pass engine scenario);
    [reflexivity | unfold one_brain_per_organism; compute_done].
Defined.

(** X15 on [mixed_ages]: the organism of brain 2 has age 2, the minimum. *)
Lemma evaluateAll_ages_once_witness :
  (1 < NEAT_time_alive_minimum mixed_ages)%Z
  /\ one_brain_per_organism mixed_ages
  /\ 2%nat ∈ mBrainList mixed_ages
  /\ ages mixed_ages 2%nat = true
  /\ exists s' s'',
       evaluateAll engine release_build mixed_ages = Ok tt s'
       /\ evaluateAll engine release_build s' = Ok tt s''
       /\ ages s' 2%nat = false
       /\ time_alive (organism_in mixed_ages s' 2%nat)
          = (time_alive (organism_in mixed_ages mixed_ages 2%nat) + 1)%Z
       /\ time_alive (organism_in mixed_ages s'' 2%nat)
          = (time_alive (organism_in mixed_ages mixed_ages 2%nat) + 1)%Z.
Proof.
  split; [reflexivity|].
  split; [unfold one_brain_per_organism; compute_done|].
  split; [compute_done|]. split; [reflexivity|].
  apply (evaluateAll_ages_once engine mixed_ages 2%nat);
    [reflexivity | unfold one_brain_per_organism; compute_done | compute_done | reflexivity].
Defined.

(** X16 on the specification's scenario: brains 0 and 1, raw scores -5 and
    -2. *)
Lemma evaluateAll_keeps_order_witness :
  NEAT_time_alive_minimum scenario <> 0%Z
  /\ one_brain_per_organism scenario
  /\ 0%nat ∈ mBrainList scenario /\ 1%nat ∈ mBrainList scenario
  /\ eligible scenario 0%nat = true /\ eligible scenario 1%nat = true
  /\ smited (organism_in scenario scenario 0%nat)
     = smited (organism_in scenario scenario 1%nat)
  /\ (mAbsoluteScore (mBrains scenario !!! 0%nat)
      <= mAbsoluteScore (mBrains scenario !!! 1%nat))%Q
  /\ exists s', evaluateAll engine release_build scenario = Ok tt s'
       /\ (fitness (organism_in scenario s' 0%nat)
           <= fitness (organism_in scenario s' 1%nat))%Q.
Proof.
  split; [vm_compute; discriminate|].
  split; [unfold one_brain_per_organism; compute_done|].
  split; [compute_done|]. split; [compute_done|].
  split; [reflexivity|]. split; [reflexivity|]. split; [reflexivity|].
  split; [vm_compute; discriminate|].
  apply (evaluateAll_keeps_order engine scenario 0%nat 1%nat);
    [vm_compute; discriminate | unfold one_brain_per_organism; compute_done
    | compute_done | compute_done | reflexivity | reflexivity | reflexivity
    | vm_compute; discriminate].
Defined.

(** X17 on the specification's scenario, whose lowest raw score is -5. *)
Lemma evaluateAll_minimum_gets_zero_witness :
  NEAT_time_alive_minimum scenario <> 0%Z
  /\ one_brain_per_organism scenario
  /\ (minScore scenario < 0)%Q
  /\ exists s', evaluateAll engine release_build scenario = Ok tt s'
       /\ (exists iter, iter ∈ mBrainList scenario /\ eligible scenario iter = true
             /\ (mAbsoluteScore (mBrains scenario !!! iter) == minScore scenario)%Q)
       /\ forall iter, iter ∈ mBrainList scenario -> eligible scenario iter = true ->
            (mAbsoluteScore (mBrains scenario !!! iter) == minScore scenario)%Q ->
            (fitness (organism_in scenario s' iter) == 0)%Q.
Proof.
  split; [vm_compute; discriminate|].
  split; [unfold one_brain_per_organism; compute_done|].
  split; [vm_compute; reflexivity|].
  apply (evaluateAll_minimum_gets_zero engine scenario);
    [vm_compute; discriminate | unfold one_brain_per_organism; compute_done
    | vm_compute; reflexivity].
Defined.

(** X18 on [four_deaths]: a quiet tick, then the tick of the fifth death. *)
Lemma run_ticks_counters_witness :
  NEAT_time_alive_minimum four_deaths <> 0%Z
  /\ exists s', run_ticks engine release_build [fun _ => true; fun _ => false] four_deaths
                = Ok tt s'
       /\ mSpawnTickCount s' = (mSpawnTickCount four_deaths + 2)%N
       /\ (mEvolutionTickCount s' <= mEvolutionTickCount four_deaths + 2)%N
       /\ (mOffspringCount four_deaths <= mOffspringCount s'
           <= mOffspringCount four_deaths + 2)%N
       /\ (mTotalUnitsDeleted four_deaths <= mTotalUnitsDeleted s')%N
       /\ mBrainList s' = mBrainList four_deaths
       /\ mUnitsToDeleteBeforeFirstJudgment s'
          = mUnitsToDeleteBeforeFirstJudgment four_deaths
       /\ mTimeBetweenEvolutions s' = mTimeBetweenEvolutions four_deaths
       /\ NEAT_time_alive_minimum s' = NEAT_time_alive_minimum four_deaths.
Proof.
  split; [vm_compute; discriminate|].
  apply (run_ticks_counters engine [fun _ => true; fun _ => false] four_deaths).
  vm_compute; discriminate.
Defined.

(** X19 on [four_deaths], constructed and never given a brain list. *)
Lemma run_ticks_without_brain_list_witness :
  NEAT_time_alive_minimum four_deaths <> 0%Z
  /\ mBrainList four_deaths = []
  /\ exists s', run_ticks engine release_build [fun _ => true; fun _ => false] four_deaths
                = Ok tt s'
       /\ mBrainList s' = []
       /\ mBrains s' = mBrains four_deaths.
Proof.
  split; [vm_compute; discriminate|]. split; [reflexivity|].
  apply (run_ticks_without_brain_list engine [fun _ => true; fun _ => false] four_deaths);
    [vm_compute; discriminate | reflexivity].
Defined.

(** X21 on scalar statistics: 7 ticks lived of a life of 5 leave a
    remainder of 2, and the statistics are scaled by 5/2. *)
Lemma predictStats_extrapolates_witness :
  (0 <= 7)%Z /\ (0 < 5)%Z
  /\ (let r := (7 mod 5)%Z in
      Stats.predictStats Qmult 7 5 scalar_stats =
        Some (if (r =? 0)%Z then scalar_stats
              else Stats.set_m_Stats
                     (Qmult (Stats.m_Stats scalar_stats) (inject_Z 5 / inject_Z r))
                     scalar_stats)
      /\ (r <> 0%Z -> (1 < inject_Z 5 / inject_Z r)%Q
                      /\ (inject_Z 5 / inject_Z r <= inject_Z 5)%Q)).
Proof.
  split; [lia|]. split; [lia|].
  apply (predictStats_extrapolates Qmult 7 5 scalar_stats); lia.
Defined.

(** X23 on scalar statistics with the sample size of line 387. *)
Lemma startNextTrial_steady_witness :
  (0 < 2)%N
  /\ (2 <= Stats.m_NumLifetimeTrials scalar_stats)%N
  /\ (let st' := Stats.startNextTrial Qdiv Qplus Qminus 2 scalar_stats in
      let w := (1 / inject_Z (Z.of_N 2))%Q in
      (Stats.m_LifetimeAverage st' ==
         Stats.m_LifetimeAverage scalar_stats
         + w * (Stats.m_Stats scalar_stats - Stats.m_LifetimeAverage scalar_stats))%Q
      /\ (Qmin (Stats.m_LifetimeAverage scalar_stats) (Stats.m_Stats scalar_stats)
            <= Stats.m_LifetimeAverage st')%Q
      /\ (Stats.m_LifetimeAverage st'
            <= Qmax (Stats.m_LifetimeAverage scalar_stats) (Stats.m_Stats scalar_stats))%Q).
Proof.
  split; [lia|]. split; [vm_compute; discriminate|].
  apply (startNextTrial_steady 2 scalar_stats); [lia | vm_compute; discriminate].
Defined.

(** X24 with the sample size of line 387 and two trials of 6 each. *)
Lemma lifetime_average_first_trials_witness :
  (2 <= 2)%N
  /\ (let trial := fun x st =>
        Stats.startNextTrial Qdiv Qplus Qminus 2 (Stats.tally Qplus x st) in
      let st := trial 6%Q (trial 6%Q (Stats.construct 0%Q)) in
      Stats.m_NumLifetimeTrials st = 2%N
      /\ (Stats.m_LifetimeAverage st == 6 + 6 / 2)%Q
      /\ Stats.getStats st = 0%Q).
Proof.
  split; [lia|].
  apply (lifetime_average_first_trials 2 6 6). lia.
Defined.
